(** * The reference pipeline of the knowledge-base chat handler

    A shallow embedding of [lambda_function.py]: the reference extractor
    ([extract_references]), the link materializer ([generate_presigned_url]),
    the reference enricher ([process_s3_urls]) and the request handler
    ([lambda_handler], with [get_request_data] and [create_response]).

    Python exceptions are values of [pyresult]; calls to the storage signer
    and to the generation service go through an explicit world, and every
    call and every [print] is recorded in a trace. *)

From Stdlib Require Import ZArith QArith String Ascii.
From stdpp Require Import base option list sorting gmap strings pretty.

Local Open Scope string_scope.
Local Open Scope list_scope.
Local Open Scope Z_scope.

(** ** Exceptions and results *)

(** The exceptions the handler can meet.  [ServiceError] stands for whatever
    a client of the provider SDK raises; it carries the text [str(e)] shows. *)
Inductive exn : Type :=
  | KeyError (key : string)
  | ValueError (msg : string)
  | AttributeError (msg : string)
  | JSONDecodeError (msg : string)
  | ServiceError (msg : string).

(** [str(e)]: a [KeyError] prints the repr of its key, the others their
    message. *)
Definition str_exn (e : exn) : string :=
  match e with
  | KeyError key => "'" +:+ key +:+ "'"
  | ValueError msg => msg
  | AttributeError msg => msg
  | JSONDecodeError msg => msg
  | ServiceError msg => msg
  end.

Inductive pyresult (A : Type) : Type :=
  | Ok (a : A)
  | Raise (e : exn).
Arguments Ok {A} a.
Arguments Raise {A} e.

Definition bind_result {A B : Type} (r : pyresult A) (k : A → pyresult B)
  : pyresult B :=
  match r with
  | Ok a => k a
  | Raise e => Raise e
  end.

(** ** Python strings

    A string is kept as the UTF-8 encoding of its characters, each code
    point encoded on its own: equality, concatenation, prefixes and the
    search for an ASCII character are those of the bytes. *)

(** [c.isspace()] for the characters of one, two and three bytes:
    U+0009..U+000D and U+001C..U+0020; U+0085 and U+00A0; U+1680,
    U+2000..U+200A, U+2028, U+2029, U+202F, U+205F and U+3000.  No
    character of four bytes is whitespace. *)
Definition is_space1 (c1 : ascii) : bool :=
  let a := nat_of_ascii c1 in
  ((9 <=? a) && (a <=? 13) || (28 <=? a) && (a <=? 32))%nat.

Definition is_space2 (c1 c2 : ascii) : bool :=
  let a := nat_of_ascii c1 in
  let b := nat_of_ascii c2 in
  ((a =? 194) && ((b =? 133) || (b =? 160)))%nat.

Definition is_space3 (c1 c2 c3 : ascii) : bool :=
  let a := nat_of_ascii c1 in
  let b := nat_of_ascii c2 in
  let c := nat_of_ascii c3 in
  ((a =? 225) && (b =? 154) && (c =? 128)
   || (a =? 226) && (b =? 128)
      && ((128 <=? c) && (c <=? 138) || (c =? 168) || (c =? 169)
          || (c =? 175))
   || (a =? 226) && (b =? 129) && (c =? 159)
   || (a =? 227) && (b =? 128) && (c =? 128))%nat.

(** What follows the whitespace character [s] starts with, when it starts
    with one. *)
Definition after_space (s : string) : option string :=
  match s with
  | EmptyString => None
  | String c1 s1 =>
      if is_space1 c1 then Some s1
      else
        match s1 with
        | EmptyString => None
        | String c2 s2 =>
            if is_space2 c1 c2 then Some s2
            else
              match s2 with
              | EmptyString => None
              | String c3 s3 => if is_space3 c1 c2 c3 then Some s3 else None
              end
        end
  end.

(** [s] is one whitespace character. *)
Definition is_space (s : string) : bool :=
  match after_space s with
  | Some EmptyString => true
  | _ => false
  end.

(** [s] is made of whitespace characters only. *)
Fixpoint all_space (s : string) : bool :=
  match s with
  | EmptyString => true
  | String c1 s1 =>
      if is_space1 c1 then all_space s1
      else
        match s1 with
        | EmptyString => false
        | String c2 s2 =>
            if is_space2 c1 c2 then all_space s2
            else
              match s2 with
              | EmptyString => false
              | String c3 s3 => is_space3 c1 c2 c3 && all_space s3
              end
        end
  end.

(** [s.lstrip()]: [s] without the whitespace characters it starts with. *)
Fixpoint lstrip (s : string) : string :=
  match s with
  | EmptyString => EmptyString
  | String c1 s1 =>
      if is_space1 c1 then lstrip s1
      else
        match s1 with
        | EmptyString => s
        | String c2 s2 =>
            if is_space2 c1 c2 then lstrip s2
            else
              match s2 with
              | EmptyString => s
              | String c3 s3 => if is_space3 c1 c2 c3 then lstrip s3 else s
              end
        end
  end.

(** [s.rstrip()]: [s] without its longest tail of whitespace characters. *)
Fixpoint rstrip (s : string) : string :=
  match s with
  | EmptyString => EmptyString
  | String c s' => if all_space s then EmptyString else String c (rstrip s')
  end.

(** [s.strip()] *)
Definition strip (s : string) : string := rstrip (lstrip s).

(** ** Python floats

    A float is a number, an infinity or nan.  The numbers are kept as
    rationals: the order of finite floats is the order of their values.
    Every comparison with nan is false. *)
Inductive pyfloat : Type :=
  | Num (q : Q)
  | PosInf
  | NegInf
  | NaN.
Bind Scope Q_scope with pyfloat.
Coercion Num : Q >-> pyfloat.

(** [x < y] *)
Definition float_lt (x y : pyfloat) : bool :=
  match x, y with
  | NaN, _ | _, NaN => false
  | Num p, Num q => negb (Qle_bool q p)
  | NegInf, NegInf => false
  | NegInf, _ => true
  | PosInf, _ => false
  | Num _, PosInf => true
  | Num _, NegInf => false
  end.

(** [x <= y] *)
Definition float_le (x y : pyfloat) : bool :=
  match x, y with
  | NaN, _ | _, NaN => false
  | Num p, Num q => Qle_bool p q
  | NegInf, _ => true
  | PosInf, PosInf => true
  | PosInf, _ => false
  | Num _, PosInf => true
  | Num _, NegInf => false
  end.

(** [x == y] *)
Definition float_eq (x y : pyfloat) : bool :=
  match x, y with
  | Num p, Num q => Qeq_bool p q
  | PosInf, PosInf => true
  | NegInf, NegInf => true
  | _, _ => false
  end.

Definition is_nan (x : pyfloat) : bool :=
  match x with
  | NaN => true
  | _ => false
  end.

(** ** The citations of the generation service

    The response of the service is decoded by the SDK against the service's
    shapes: a member may be absent, a member that is present has its
    declared type.  Scores are floats. *)
Module Kb.
Record S3Location := { uri : option string }.
Record Location := { s3Location : option S3Location }.
Record Content := { text : option string }.
Record Reference := {
  location : option Location;
  content : option Content;
  score : option pyfloat
}.
Record Citation := { retrievedReferences : option (list Reference) }.
End Kb.

(** The dictionaries built by the extractor and completed by the enricher.
    The extractor always sets ['uri']; the enricher still tests for the key,
    so the field stays optional here. *)
Record ref := {
  uri : option string;
  snippet : string;
  score : pyfloat;
  presigned_url : option string
}.

(** ** Reference extractor *)

(** [references.sort(key=lambda x: x['score'], reverse=True)].  The sort is
    stable and compares the scores with [<] and nothing else.
    [insert_desc x l] puts [x], which precedes the entries of [l] in the
    unsorted list, behind the entries it is less than and in front of the
    first entry it is not less than.  When none of the scores is nan, [<]
    orders them and this is the one result a stable sort can give:
    descending order of score, ties in their first order.  With a nan among
    the scores no order of the entries is descending; which one the library
    leaves depends on the comparisons it happens to make. *)
Fixpoint insert_desc (x : ref) (l : list ref) : list ref :=
  match l with
  | [] => [x]
  | y :: l' =>
      if float_lt (score x) (score y) then y :: insert_desc x l'
      else x :: y :: l'
  end.

Definition sort_by_score_reverse (l : list ref) : list ref :=
  foldr insert_desc [] l.

(** The loop state: [references] and [seen_uris]. *)
Definition extract_state : Type := list ref * gset string.

(** The body of the inner loop, for one retrieved reference. *)
Definition extract_reference (st : extract_state) (reference : Kb.Reference)
  : pyresult extract_state :=
  let '(references, seen_uris) := st in
  match Kb.location reference with
  | Some loc =>
      match Kb.s3Location loc with
      | Some s3 =>
          match Kb.uri s3 with
          | Some u =>
              if decide (u ∈ seen_uris) then Ok (references, seen_uris)
              else
                let snippet :=
                  strip (default "" (Kb.text (default {| Kb.text := None |}
                                                      (Kb.content reference)))) in
                Ok (references ++ [ {| uri := Some u;
                                       snippet := snippet;
                                       score := default (Num 0) (Kb.score reference);
                                       presigned_url := None |} ],
                    {[ u ]} ∪ seen_uris)
          | None => Raise (KeyError "uri")
          end
      | None => Ok (references, seen_uris)
      end
  | None => Ok (references, seen_uris)
  end.

(** A [for] loop whose body may raise. *)
Fixpoint for_each {A S : Type} (body : S → A → pyresult S) (st : S) (l : list A)
  : pyresult S :=
  match l with
  | [] => Ok st
  | x :: l' => bind_result (body st x) (λ st', for_each body st' l')
  end.

(** The outer loop body: [citation.get('retrievedReferences', [])]. *)
Definition extract_citation (st : extract_state) (citation : Kb.Citation)
  : pyresult extract_state :=
  for_each extract_reference st (default [] (Kb.retrievedReferences citation)).

Definition extract_references (citations : list Kb.Citation)
  : pyresult (list ref) :=
  bind_result (for_each extract_citation ([], ∅) citations)
    (λ st, Ok (sort_by_score_reverse (fst st))).

(** ** JSON values

    The inbound event and the bodies of the responses are JSON documents as
    Python holds them; a dictionary is an association list in insertion
    order. *)
#[warnings="-register-all"]
Inductive pyval : Type :=
  | PNone
  | PBool (b : bool)
  | PInt (z : Z)
  | PFloat (x : pyfloat)
  | PStr (s : string)
  | PList (l : list pyval)
  | PDict (d : list (string * pyval)).

(** [bool(v)], as [if v:] and [not v] use it. *)
Definition truthy (v : pyval) : bool :=
  match v with
  | PNone => false
  | PBool b => b
  | PInt z => negb (z =? 0)
  | PFloat (Num q) => negb (Qeq_bool q 0)
  | PFloat _ => true
  | PStr s => negb (String.eqb s "")
  | PList l => match l with [] => false | _ => true end
  | PDict d => match d with [] => false | _ => true end
  end.

(** [type(v).__name__] *)
Definition type_name (v : pyval) : string :=
  match v with
  | PNone => "NoneType"
  | PBool _ => "bool"
  | PInt _ => "int"
  | PFloat _ => "float"
  | PStr _ => "str"
  | PList _ => "list"
  | PDict _ => "dict"
  end.

Fixpoint dict_lookup (d : list (string * pyval)) (k : string) : option pyval :=
  match d with
  | [] => None
  | (k', v) :: d' => if String.eqb k' k then Some v else dict_lookup d' k
  end.

(** [body.get(k)]: [None] for a missing key, [AttributeError] when [body]
    is not a dictionary. *)
Definition py_get (body : pyval) (k : string) : pyresult pyval :=
  match body with
  | PDict d => Ok (default PNone (dict_lookup d k))
  | _ => Raise (AttributeError
                  ("'" +:+ type_name body +:+ "' object has no attribute 'get'"))
  end.

(** The text [json.dumps] returns for a value, kept symbolic. *)
Inductive json_text : Type :=
  | json_dumps (v : pyval).

Definition opt_to_py {A : Type} (f : A → pyval) (o : option A) : pyval :=
  match o with
  | Some a => f a
  | None => PNone
  end.

(** A reference dictionary as a JSON value: the keys that are set, in the
    order they were set.  The score is written as the number it is; that
    the default is the integer 0 changes its spelling only. *)
Definition ref_to_py (r : ref) : pyval :=
  PDict (match uri r with Some u => [("uri", PStr u)] | None => [] end
         ++ [("snippet", PStr (snippet r)); ("score", PFloat (score r))]
         ++ match presigned_url r with
            | Some u => [("presigned_url", PStr u)]
            | None => []
            end).

(** ** Collaborators *)

(** The attributes of [urlparse]'s result the enricher reads. *)
Record ParseResult := { netloc : string; path : string }.

(** The arguments of [s3_client.generate_presigned_url]. *)
Record sign_request := {
  ClientMethod : string;
  Bucket : string;
  Key : string;
  ResponseContentDisposition : string;
  ExpiresIn : Z
}.

(** The response of [retrieve_and_generate], as the handler reads it. *)
Record kb_output := { output_text : option string }.
Record kb_response := {
  citations : option (list Kb.Citation);
  output : option kb_output;
  kb_sessionId : option string
}.

(** What the handler writes with [print]. *)
Inductive message : Type :=
  | Text (s : string)
  | TextJson (prefix : string) (j : json_text).

(** What a run does to the outside: what it prints and the calls it makes
    to the two clients, each call with what it returned or raised. *)
Inductive event : Type :=
  | EvPrint (m : message)
  | EvSign (req : sign_request) (res : pyresult string)
  | EvRetrieve (req : pyval) (res : pyresult kb_response).

(** The library functions and the two SDK clients.  The clients act on a
    world of their own; [datetime_utcnow] reads the clock in microseconds. *)
Class Services := {
  World : Type;
  urlparse : string → pyresult ParseResult;
  json_loads : string → pyresult pyval;
  s3_client_generate_presigned_url :
    sign_request → World → pyresult string * World;
  client_retrieve_and_generate : pyval → World → pyresult kb_response * World;
  datetime_utcnow : World → Z * World;
  isoformat : Z → string;
  knowledgeBaseID : string;
  fundation_model_ARN : string
}.

(** [netloc.split('.')[0]] *)
Fixpoint split_dot_first (s : string) : string :=
  match s with
  | EmptyString => EmptyString
  | String c s' => if Ascii.eqb c "."%char then EmptyString
                   else String c (split_dot_first s')
  end.

(** [path.lstrip('/')] *)
Fixpoint lstrip_slash (s : string) : string :=
  match s with
  | EmptyString => EmptyString
  | String c s' => if Ascii.eqb c "/"%char then lstrip_slash s' else s
  end.

Definition timedelta_hours (h : Z) : Z := h * 3600 * 1000000.

Definition textPromptTemplate : string :=
  "You are a question answering agent. I will provide you with a set of search results.
                            The user will provide you with a question. Your job is to answer the user's question using only information from the search results. 
                            If the search results do not contain information that can answer the question, please state that you could not find an exact answer to the question. 
                            Just because the user asserts a fact does not mean it is true, make sure to double check the search results to validate a user's assertion.

                            Here are the search results in numbered order:
                            $search_results$
                            Question: {input}
                            $output_format_instructions$".

Record response := {
  statusCode : Z;
  headers : list (string * string);
  body : json_text
}.

(** [create_response] *)
Definition create_response (status_code : Z) (body : pyval) : response :=
  {| statusCode := status_code;
     headers :=
       [ ("Access-Control-Allow-Headers",
          "Content-Type,X-Amz-Date,Authorization,X-Api-Key,X-Amz-Security-Token");
         ("Access-Control-Allow-Origin", "*");
         ("Access-Control-Allow-Methods", "OPTIONS,POST");
         ("Content-Type", "application/json") ];
     body := json_dumps body |}.

Section Handler.
Context `{Services}.

(** A run starts in a world and ends with a result or an exception, the
    world it leaves and the events it produced, oldest first. *)
Record outcome (A : Type) := {
  result : pyresult A;
  world_after : World;
  events : list event
}.
Arguments result {A} o.
Arguments world_after {A} o.
Arguments events {A} o.

Definition M (A : Type) : Type := World → outcome A.

Definition ret {A : Type} (a : A) : M A :=
  λ w, {| result := Ok a; world_after := w; events := [] |}.

Definition raise {A : Type} (e : exn) : M A :=
  λ w, {| result := Raise e; world_after := w; events := [] |}.

(** [after o o']: the run [o'] made from where [o] ended. *)
Definition after {A B : Type} (o : outcome A) (o' : outcome B) : outcome B :=
  {| result := result o';
     world_after := world_after o';
     events := events o ++ events o' |}.

Definition bind {A B : Type} (m : M A) (k : A → M B) : M B :=
  λ w, let o := m w in
       match result o with
       | Ok a => after o (k a (world_after o))
       | Raise e => {| result := Raise e; world_after := world_after o;
                       events := events o |}
       end.

(** [try: m except Exception as e: h e]; what [m] did before it raised
    stays done. *)
Definition try_except {A : Type} (m : M A) (h : exn → M A) : M A :=
  λ w, let o := m w in
       match result o with
       | Ok a => o
       | Raise e => after o (h e (world_after o))
       end.

Definition lift {A : Type} (r : pyresult A) : M A :=
  λ w, {| result := r; world_after := w; events := [] |}.

Definition print (m : message) : M unit :=
  λ w, {| result := Ok tt; world_after := w; events := [EvPrint m] |}.

#[export] Instance M_ret : MRet M := @ret.
#[export] Instance M_bind : MBind M := λ A B k m, bind m k.

(** A call to the storage signer. *)
Definition call_sign (req : sign_request) : M string :=
  λ w, let '(r, w') := s3_client_generate_presigned_url req w in
       {| result := r; world_after := w'; events := [EvSign req r] |}.

(** A call to the generation service. *)
Definition call_retrieve (req : pyval) : M kb_response :=
  λ w, let '(r, w') := client_retrieve_and_generate req w in
       {| result := r; world_after := w'; events := [EvRetrieve req r] |}.

Definition utcnow : M Z :=
  λ w, let '(t, w') := datetime_utcnow w in
       {| result := Ok t; world_after := w'; events := [] |}.

(** ** Link materializer *)

(** The default of the [expiration] parameter. *)
Definition default_expiration : Z := 1800.

Definition generate_presigned_url (bucket key : string) (expiration : Z)
  : M (option string) :=
  try_except
    (url ← call_sign {| ClientMethod := "get_object";
                        Bucket := bucket;
                        Key := key;
                        ResponseContentDisposition := "inline";
                        ExpiresIn := expiration |};
     mret (Some url))
    (λ e, print (Text ("Error generating presigned URL: " +:+ str_exn e)) ;;
          mret None).

(** ** Reference enricher *)

(** [ref['presigned_url'] = presigned_url] *)
Definition set_presigned_url (r : ref) (url : string) : ref :=
  {| uri := uri r; snippet := snippet r; score := score r;
     presigned_url := Some url |}.

(** The loop of [process_s3_urls], [processed_refs] being the list built
    so far.  The materializer is called without an expiration, hence with
    its default; [if presigned_url:] rejects [None] and the empty string. *)
Fixpoint process_s3_urls_from (processed_refs : list ref)
    (references : list ref) : M (list ref) :=
  match references with
  | [] => mret processed_refs
  | r :: rest =>
      match uri r with
      | Some s3_url =>
          parsed_url ← lift (urlparse s3_url);
          let bucket := split_dot_first (netloc parsed_url) in
          let key := lstrip_slash (path parsed_url) in
          presigned_url ← generate_presigned_url bucket key default_expiration;
          if truthy (opt_to_py PStr presigned_url)
          then process_s3_urls_from
                 (processed_refs
                  ++ [set_presigned_url r (default "" presigned_url)]) rest
          else process_s3_urls_from processed_refs rest
      | None => process_s3_urls_from processed_refs rest
      end
  end.

Definition process_s3_urls (references : list ref) : M (list ref) :=
  process_s3_urls_from [] references.

(** ** Request handler *)

(** "Handle different event types": the [body] the [if] ladder of
    [get_request_data] binds. *)
Definition event_body (event : pyval) : M pyval :=
  match event with
  | PDict d =>
      match dict_lookup d "body" with
      | Some (PStr s) => lift (json_loads s)
      | Some b => mret b
      | None => mret event
      end
  | _ => raise (ValueError "Invalid event format")
  end.

(** The body of the [try] in [get_request_data]. *)
Definition get_request_data_body (event : pyval) : M (pyval * pyval) :=
  print (TextJson "Received event: " (json_dumps event)) ;;
  body ← event_body event;
  user_query ← lift (py_get body "user_query");
  session_id ← lift (py_get body "sessionId");
  mret (user_query, session_id).

Definition get_request_data (event : pyval) : M (pyval * pyval) :=
  try_except (get_request_data_body event)
    (λ e, print (Text ("Error in get_request_data: " +:+ str_exn e)) ;;
          raise e).

Definition textInferenceConfig : pyval :=
  PDict [("textInferenceConfig",
          PDict [("temperature", PFloat 0); ("topP", PFloat (9 # 10))])].

(** [retrieve_request], with ['sessionId'] added when [session_id] is
    truthy. *)
Definition retrieve_request (user_query session_id : pyval) : pyval :=
  PDict
    ([ ("input", PDict [("text", user_query)]);
       ("retrieveAndGenerateConfiguration",
        PDict
          [ ("type", PStr "KNOWLEDGE_BASE");
            ("knowledgeBaseConfiguration",
             PDict
               [ ("knowledgeBaseId", PStr knowledgeBaseID);
                 ("modelArn", PStr fundation_model_ARN);
                 ("retrievalConfiguration",
                  PDict
                    [("vectorSearchConfiguration",
                      PDict [ ("numberOfResults", PInt 3);
                              ("overrideSearchType", PStr "HYBRID") ])]);
                 ("generationConfiguration",
                  PDict
                    [ ("inferenceConfig", textInferenceConfig);
                      ("promptTemplate",
                       PDict [("textPromptTemplate",
                               PStr textPromptTemplate)]) ]);
                 ("orchestrationConfiguration",
                  PDict
                    [ ("inferenceConfig", textInferenceConfig);
                      ("queryTransformationConfiguration",
                       PDict [("type", PStr "QUERY_DECOMPOSITION")]) ]) ]) ]) ]
     ++ if truthy session_id then [("sessionId", session_id)] else []).

(** [d[k]] on a member of the service's response. *)
Definition subscript {A : Type} (o : option A) (k : string) : M A :=
  match o with
  | Some a => mret a
  | None => raise (KeyError k)
  end.

(** The success body. *)
Definition response_body (generated_response : string)
    (references_with_urls : list ref) (expiration_time : string)
    (new_session_id : option string) : pyval :=
  PDict [ ("generated_response", PStr generated_response);
          ("detailed_references", PList (map ref_to_py references_with_urls));
          ("urlExpirationTime", PStr expiration_time);
          ("sessionId", opt_to_py PStr new_session_id);
          ("sourceCount", PInt (Z.of_nat (length references_with_urls))) ].

(** The handler from "Prepare the request for Bedrock" to the success
    response: everything in the outer [try] after the validation. *)
Definition answer_query (user_query session_id : pyval) : M response :=
  client_knowledgebase ← call_retrieve (retrieve_request user_query session_id);
  cits ← subscript (citations client_knowledgebase) "citations";
  references ← lift (extract_references cits);
  references_with_urls ← process_s3_urls references;
  out ← subscript (output client_knowledgebase) "output";
  generated_response ← subscript (output_text out) "text";
  let new_session_id := kb_sessionId client_knowledgebase in
  now ← utcnow;
  let expiration_time := isoformat (now + timedelta_hours 1) in
  mret (create_response 200
         (response_body generated_response references_with_urls
            expiration_time new_session_id)).

(** The failure body of the outer [except]. *)
Definition error_body (e : exn) (session_id : pyval) : pyval :=
  PDict [ ("error", PStr (str_exn e));
          ("generated_response",
           PStr "An error occurred while processing your request.");
          ("detailed_references", PList []);
          ("sessionId", session_id) ].

(** [lambda_handler].  The inner [try] returns the 400 itself; the outer
    [except] is reached with [session_id] bound, so the test on [locals()]
    always takes its first branch. *)
Definition lambda_handler (event : pyval) : M response :=
  r ← try_except (p ← get_request_data event; mret (inr p))
        (λ e, mret (inl (create_response 400
                 (PDict [("error",
                          PStr ("Error processing request: "
                                +:+ str_exn e))]))));
  match r with
  | inl resp => mret resp
  | inr (user_query, session_id) =>
      if negb (truthy user_query)
      then mret (create_response 400
                  (PDict [("error", PStr "user_query is required")]))
      else
        try_except (answer_query user_query session_id)
          (λ e, print (Text ("Error in lambda_handler: " +:+ str_exn e)) ;;
                mret (create_response 500 (error_body e session_id)))
  end.

End Handler.

Arguments result {_ _} o.
Arguments world_after {_ _} o.
Arguments events {_ _} o.

(** ** Vocabulary of the statements *)

(** The retrieved references of all citations, in the order the two loops
    of the extractor visit them. *)
Definition all_references (cs : list Kb.Citation) : list Kb.Reference :=
  cs ≫= λ c, default [] (Kb.retrievedReferences c).

(** The storage location of a retrieved reference, when it has one. *)
Definition storage_location (r : Kb.Reference) : option Kb.S3Location :=
  Kb.location r ≫= Kb.s3Location.

Definition storage_uri (r : Kb.Reference) : option string :=
  storage_location r ≫= Kb.uri.

(** Every storage location met carries a uri. *)
Definition uris_present (rs : list Kb.Reference) : Prop :=
  Forall (λ r, is_Some (storage_location r) → is_Some (storage_uri r)) rs.

(** Position and record of the first retrieved reference stored at [u]. *)
Definition first_stored_at (u : string) (rs : list Kb.Reference)
  : option (nat * Kb.Reference) :=
  list_find (λ r, storage_uri r = Some u) rs.

Definition first_seen (u : string) (cs : list Kb.Citation)
  : option (nat * Kb.Reference) :=
  first_stored_at u (all_references cs).

Definition content_text (r : Kb.Reference) : option string :=
  Kb.content r ≫= Kb.text.

(** The entry the extractor records for a reference stored at [u]. *)
Definition entry_of (u : string) (r : Kb.Reference) : ref :=
  {| uri := Some u;
     snippet := strip (default "" (content_text r));
     score := default (Num 0) (Kb.score r);
     presigned_url := None |}.

(** The entries the inner loop adds over [rs] when it starts with [seen]
    and does not raise. *)
Fixpoint fresh_entries (seen : gset string) (rs : list Kb.Reference)
  : list ref :=
  match rs with
  | [] => []
  | r :: rs' =>
      match storage_uri r with
      | Some u =>
          if decide (u ∈ seen) then fresh_entries seen rs'
          else entry_of u r :: fresh_entries ({[ u ]} ∪ seen) rs'
      | None => fresh_entries seen rs'
      end
  end.

(** [before a b l]: some occurrence of [a] in [l] has an occurrence of [b]
    after it. *)
Fixpoint before {A : Type} (a b : A) (l : list A) : Prop :=
  match l with
  | [] => False
  | y :: l' => (y = a ∧ b ∈ l') ∨ before a b l'
  end.

(** Descending order of score: [a['score'] >= b['score']]. *)
Definition score_ge (a b : ref) : Prop := float_le (score b) (score a) = true.

(** None of the scores is nan. *)
Definition scores_ordered (l : list ref) : Prop :=
  Forall (λ e, is_nan (score e) = false) l.

(** None of the retrieved references has the score nan. *)
Definition scores_not_nan (rs : list Kb.Reference) : Prop :=
  Forall (λ r, Kb.score r ≠ Some NaN) rs.

(** The results of the signer calls of a trace, oldest first. *)
Definition sign_results (evs : list event) : list (pyresult string) :=
  omap (λ ev, match ev with EvSign _ res => Some res | _ => None end) evs.

(** The requests of the signer calls of a trace, oldest first. *)
Definition sign_requests (evs : list event) : list sign_request :=
  omap (λ ev, match ev with EvSign req _ => Some req | _ => None end) evs.

(** The entry the enricher keeps for [r] when the signer answered [res]:
    none when it raised or returned an empty link. *)
Definition enriched (r : ref) (res : pyresult string) : option ref :=
  match res with
  | Ok url => if String.eqb url "" then None
              else Some {| uri := uri r; snippet := snippet r;
                           score := score r; presigned_url := Some url |}
  | Raise _ => None
  end.

Definition is_service_call (ev : event) : Prop :=
  match ev with
  | EvPrint _ => False
  | EvSign _ _ => True
  | EvRetrieve _ _ => True
  end.

(** The headers every response carries for cross-origin callers. *)
Definition cors_headers : list (string * string) :=
  [ ("Access-Control-Allow-Headers",
     "Content-Type,X-Amz-Date,Authorization,X-Api-Key,X-Amz-Security-Token");
    ("Access-Control-Allow-Origin", "*");
    ("Access-Control-Allow-Methods", "OPTIONS,POST") ].

(** The member [k] of a JSON text that is an object. *)
Definition json_member (j : json_text) (k : string) : option pyval :=
  match j with
  | json_dumps (PDict d) => dict_lookup d k
  | json_dumps _ => None
  end.

Section RequestVocabulary.
Context `{Services}.

(** The request body of an inbound event: the event itself, or its
    ['body'] member, decoded when it is a string.  [None] when there is
    none to be had. *)
Definition request_body (event : pyval) : option pyval :=
  match event with
  | PDict d =>
      match dict_lookup d "body" with
      | Some (PStr s) =>
          match json_loads s with Ok b => Some b | Raise _ => None end
      | Some b => Some b
      | None => Some event
      end
  | _ => None
  end.

(** The request has no body that can be read, or its body is not an
    object, or it is one without ['user_query']. *)
Definition query_missing (event : pyval) : Prop :=
  match request_body event with
  | Some (PDict bd) => dict_lookup bd "user_query" = None
  | _ => True
  end.

(** The body has ['user_query'], with a value Python takes for false. *)
Definition query_falsy (event : pyval) : Prop :=
  match request_body event with
  | Some (PDict bd) =>
      match dict_lookup bd "user_query" with
      | Some q => truthy q = false
      | None => False
      end
  | _ => False
  end.

(** What [get_request_data] prints first. *)
Definition received (request : pyval) : list event :=
  [EvPrint (TextJson "Received event: " (json_dumps request))].
End RequestVocabulary.

(** The citations with the retrieved references that have no storage
    location taken out. *)
Definition without_unlocated (cs : list Kb.Citation) : list Kb.Citation :=
  (λ c, {| Kb.retrievedReferences :=
             filter (λ r, is_Some (storage_location r))
               <$> Kb.retrievedReferences c |}) <$> cs.

(** ** Sample data *)

(** A retrieved reference stored at [u], without content. *)
Definition reference_at (u : string) (s : pyfloat) : Kb.Reference :=
  {| Kb.location := Some {| Kb.s3Location := Some {| Kb.uri := Some u |} |};
     Kb.content := None;
     Kb.score := Some s |}.

(** One citation whose two references are stored at the same uri. *)
Definition duplicate_citations : list Kb.Citation :=
  [ {| Kb.retrievedReferences :=
         Some [ reference_at "s3://b/k1" (9 # 10);
                reference_at "s3://b/k1" (5 # 10) ] |} ].

(** A storage location without a uri. *)
Definition citations_without_uri : list Kb.Citation :=
  [ {| Kb.retrievedReferences :=
         Some [ {| Kb.location :=
                     Some {| Kb.s3Location := Some {| Kb.uri := None |} |};
                   Kb.content := Some {| Kb.text := Some "excerpt" |};
                   Kb.score := Some (Num (9 # 10)) |} ] |} ].

(** Two sources of equal score, a better one after them, a reference
    without location and one without content or score. *)
Definition mixed_citations : list Kb.Citation :=
  [ {| Kb.retrievedReferences :=
         Some [ {| Kb.location :=
                     Some {| Kb.s3Location :=
                               Some {| Kb.uri := Some "s3://b/k1" |} |};
                   Kb.content := Some {| Kb.text := Some "  alpha " |};
                   Kb.score := Some (Num (1 # 2)) |};
                {| Kb.location := None;
                   Kb.content := Some {| Kb.text := Some "nowhere" |};
                   Kb.score := Some (Num (1 # 1)) |};
                reference_at "s3://b/k2" (2 # 4) ] |};
    {| Kb.retrievedReferences := None |};
    {| Kb.retrievedReferences :=
         Some [ reference_at "s3://b/k1" (9 # 10);
                {| Kb.location :=
                     Some {| Kb.s3Location :=
                               Some {| Kb.uri := Some "s3://b/k3" |} |};
                   Kb.content := Some {| Kb.text := None |};
                   Kb.score := None |};
                reference_at "s3://b/k4" (7 # 10) ] |} ].

(** U+00A0 and U+3000. *)
Definition no_break_space : string :=
  String (ascii_of_nat 194) (String (ascii_of_nat 160) "").

Definition ideographic_space : string :=
  String (ascii_of_nat 227)
    (String (ascii_of_nat 128) (String (ascii_of_nat 128) "")).

(** A source whose text has whitespace of one, two and three bytes around
    it. *)
Definition padded_citations : list Kb.Citation :=
  [ {| Kb.retrievedReferences :=
         Some [ {| Kb.location :=
                     Some {| Kb.s3Location :=
                               Some {| Kb.uri := Some "s3://b/k1" |} |};
                   Kb.content :=
                     Some {| Kb.text :=
                               Some (no_break_space +:+ " alpha beta "
                                     +:+ ideographic_space) |};
                   Kb.score := Some (Num (1 # 2)) |} ] |} ].

(** Sources with the scores 1.0, nan and 2.0. *)
Definition nan_citations : list Kb.Citation :=
  [ {| Kb.retrievedReferences :=
         Some [ reference_at "s3://b/k1" 1;
                reference_at "s3://b/k2" NaN;
                reference_at "s3://b/k3" 2 ] |} ].

(** What stays of a reference when its link is left out. *)
Definition core (r : ref) : option string * string * pyfloat :=
  (uri r, snippet r, score r).

(** The references the enricher keeps when the signer answers the
    references that have a uri, in order, with [results]. *)
Definition survivors (refs : list ref) (results : list (pyresult string))
  : list ref :=
  omap (λ p, enriched p.1 p.2)
       (zip (filter (λ r, is_Some (uri r)) refs) results).

(** The request the materializer sends to the signer. *)
Definition get_object (bucket key : string) (expiration : Z) : sign_request :=
  {| ClientMethod := "get_object"; Bucket := bucket; Key := key;
     ResponseContentDisposition := "inline"; ExpiresIn := expiration |}.

(** A signer call of the trace asks for [expiration] seconds. *)
Definition expires_in (expiration : Z) (ev : event) : Prop :=
  match ev with
  | EvSign req _ => ExpiresIn req = expiration
  | _ => True
  end.

Section EnricherVocabulary.
Context `{Services}.

(** [urlparse] accepts the uri of the reference, if it has one. *)
Definition parses (r : ref) : Prop :=
  match uri r with
  | Some u => match urlparse u with Ok _ => True | Raise _ => False end
  | None => True
  end.
End EnricherVocabulary.

(** ** A deployment to run the handler in

    The world is the clock, in microseconds.  The signer refuses the bucket
    [locked]; the generation service answers three questions and is out of
    capacity for any other. *)
Module Demo.
Fixpoint after_slashes (s : string) : option string :=
  match s with
  | EmptyString => None
  | String ":" (String "/" (String "/" rest)) => Some rest
  | String _ s' => after_slashes s'
  end.

Fixpoint until_slash (s : string) : string * string :=
  match s with
  | EmptyString => (EmptyString, EmptyString)
  | String c s' =>
      if Ascii.eqb c "/"%char then (EmptyString, s)
      else let '(n, p) := until_slash s' in (String c n, p)
  end.

Fixpoint contains (c : ascii) (s : string) : bool :=
  match s with
  | EmptyString => false
  | String c' s' => Ascii.eqb c c' || contains c s'
  end.

(** [urlparse] on uris of the form scheme://netloc/path; a bracket
    without its partner in the netloc is refused as the library does. *)
Definition parse_uri (s : string) : pyresult ParseResult :=
  match after_slashes s with
  | Some rest =>
      let '(n, p) := until_slash rest in
      if xorb (contains "[" n) (contains "]" n)
      then Raise (ValueError "Invalid IPv6 URL")
      else Ok {| netloc := n; path := p |}
  | None => Ok {| netloc := ""; path := s |}
  end.

Definition decode (s : string) : pyresult pyval :=
  if String.eqb s "{}" then Ok (PDict [])
  else if String.eqb s "null" then Ok PNone
  else if String.eqb s "[]" then Ok (PList [])
  else Raise (JSONDecodeError "Expecting value: line 1 column 1 (char 0)").

Definition sign (req : sign_request) (w : Z) : pyresult string * Z :=
  if String.eqb (Bucket req) "locked"
  then (Raise (ServiceError "AccessDenied"), w + 1)
  else (Ok ("https://" +:+ Bucket req +:+ ".s3.amazonaws.com/" +:+ Key req
            +:+ "?X-Amz-Expires=" +:+ pretty (ExpiresIn req)), w + 1).

Definition stored (u : string) (t : string) (s : Q) : Kb.Reference :=
  {| Kb.location := Some {| Kb.s3Location := Some {| Kb.uri := Some u |} |};
     Kb.content := Some {| Kb.text := Some t |};
     Kb.score := Some (Num s) |}.

Definition answer (q : string) : pyresult kb_response :=
  if String.eqb q "What is X?" then
    Ok {| citations :=
            Some [ {| Kb.retrievedReferences :=
                        Some [ stored "s3://docs.s3.amazonaws.com/x/intro.pdf"
                                 " X is a letter. " (1 # 2);
                               stored "s3://locked/x/secret.pdf"
                                 "X marks the spot." (9 # 10) ] |} ];
          output := Some {| output_text := Some "X is a letter." |};
          kb_sessionId := Some "session-1" |}
  else if String.eqb q "What is Y?" then
    Ok {| citations :=
            Some [ {| Kb.retrievedReferences :=
                        Some [ stored "s3://locked/y/one.pdf" "Y one" (3 # 4);
                               stored "s3://locked/y/two.pdf" "Y two" (1 # 4)
                             ] |} ];
          output := Some {| output_text := Some "Y is another letter." |};
          kb_sessionId := Some "session-2" |}
  else if String.eqb q "What is Z?" then
    Ok {| citations := Some citations_without_uri;
          output := Some {| output_text := Some "Z is the last letter." |};
          kb_sessionId := Some "session-3" |}
  else Raise (ServiceError "ThrottlingException: Rate exceeded").

Definition generate (req : pyval) (w : Z) : pyresult kb_response * Z :=
  match req with
  | PDict d =>
      match dict_lookup d "input" with
      | Some (PDict i) =>
          match dict_lookup i "text" with
          | Some (PStr q) => (answer q, w + 1000)
          | _ => (Raise (ServiceError "ParamValidationError"), w)
          end
      | _ => (Raise (ServiceError "ParamValidationError"), w)
      end
  | _ => (Raise (ServiceError "ParamValidationError"), w)
  end.

Definition services : Services :=
  {| World := Z;
     urlparse := parse_uri;
     json_loads := decode;
     s3_client_generate_presigned_url := sign;
     client_retrieve_and_generate := generate;
     datetime_utcnow := λ w, (w, w);
     isoformat := λ t, "T+" +:+ pretty t;
     knowledgeBaseID := "KB12345678";
     fundation_model_ARN := "arn:aws:bedrock:model/demo" |}.

(** Direct invocations. *)
Definition ask (q : string) : pyval := PDict [("user_query", PStr q)].

Definition ask_in (q sid : string) : pyval :=
  PDict [("user_query", PStr q); ("sessionId", PStr sid)].

Definition handle (request : pyval) (w : Z) : outcome response :=
  lambda_handler (H := services) request w.

(** References as the extractor hands them over. *)
Definition extracted : list ref :=
  [ {| uri := Some "s3://locked/x/secret.pdf"; snippet := "X marks the spot.";
       score := 9 # 10; presigned_url := None |};
    {| uri := Some "s3://docs.s3.amazonaws.com/x/intro.pdf";
       snippet := "X is a letter."; score := 1 # 2;
       presigned_url := None |} ].
End Demo.

(** ** Vocabulary of the further statements *)

(** The storage uris the citations cite. *)
Definition cited_uris (cs : list Kb.Citation) : gset string :=
  list_to_set (omap storage_uri (all_references cs)).

(** [s] starts with a whitespace character. *)
Definition starts_with_space (s : string) : bool :=
  match after_space s with
  | Some _ => true
  | None => false
  end.

(** [s] ends with a whitespace character. *)
Fixpoint ends_with_space (s : string) : bool :=
  match s with
  | EmptyString => false
  | String _ s' => is_space s || ends_with_space s'
  end.

(** [c in s] for a character. *)
Fixpoint occurs (c : ascii) (s : string) : bool :=
  match s with
  | EmptyString => false
  | String c' s' => Ascii.eqb c' c || occurs c s'
  end.

(** [s.startswith(c)] for a character. *)
Definition starts_with (c : ascii) (s : string) : bool :=
  match s with
  | EmptyString => false
  | String c' _ => Ascii.eqb c' c
  end.

(** What a trace prints, oldest first. *)
Definition printed (evs : list event) : list message :=
  omap (λ ev, match ev with EvPrint m => Some m | _ => None end) evs.

(** The line the materializer prints for a signer call that raised. *)
Definition signing_error_line (res : pyresult string) : option message :=
  match res with
  | Ok _ => None
  | Raise e => Some (Text ("Error generating presigned URL: " +:+ str_exn e))
  end.

Section EnricherRequests.
Context `{Services}.

(** The signer request the enricher makes for a reference: none without a
    uri or when [urlparse] refuses it. *)
Definition sign_request_of (r : ref) : option sign_request :=
  u ← uri r;
  match urlparse u with
  | Ok p => Some (get_object (split_dot_first (netloc p))
                    (lstrip_slash (path p)) default_expiration)
  | Raise _ => None
  end.
End EnricherRequests.

(** [v.get(k)] read as an option: the member [k] of an object. *)
Definition py_member (v : pyval) (k : string) : option pyval :=
  match v with
  | PDict d => dict_lookup d k
  | _ => None
  end.

(** The keys of an object, in order. *)
Definition py_keys (v : pyval) : list string :=
  match v with
  | PDict d => d.*1
  | _ => []
  end.

(** The calls to the generation service of a trace, oldest first. *)
Definition retrieve_calls (evs : list event)
  : list (pyval * pyresult kb_response) :=
  omap (λ ev, match ev with
              | EvRetrieve req res => Some (req, res)
              | _ => None
              end) evs.

(** ** The chat front end ([app.py])

    The functions of the front end that keep the session state and talk to
    the handler: [call_api], [handle_chat_input], [clear_chat], [logout],
    [authenticate], [handle_feedback] and [submit_negative_feedback].  The
    widgets that draw the page are left out. *)
Module App.

(** The exceptions that decide the control flow of the front end.
    [RequestException] stands for the class of that name of the HTTP
    library and its subclasses, with the text [str(e)] shows. *)
Inductive exc : Type :=
  | RequestException (msg : string)
  | JSONDecodeError
  | TypeError
  | AttributeError
  | IndexError.

Inductive outcome (A : Type) : Type :=
  | Returned (a : A)
  | Raised (e : exc).
Arguments Returned {A} a.
Arguments Raised {A} e.

(** A chat message; ['references'] is set on the assistant's only. *)
Record chat_message := {
  role : string;
  content : pyval;
  references : option pyval;
  timestamp : string
}.

(** A stored feedback; ['categories'] and ['correction'] are set on the
    negative ones only. *)
Record feedback := {
  feedback_id : string;
  message_id : Z;
  fb_session_id : pyval;
  feedback_type : string;
  categories : option (list string);
  correction : option string;
  fb_timestamp : string;
  message_content : pyval
}.

(** [st.session_state], with the keys the module initialises. *)
Record session_state := {
  chat_visible : bool;
  is_authenticated : bool;
  messages : list chat_message;
  session_id : pyval;
  feedback_states : gmap Z feedback;
  show_feedback_categories : gmap Z bool
}.

(** The arguments of [requests.post]. *)
Record post_request := {
  url : option string;
  post_headers : list (string * string);
  json : pyval;
  timeout : Z
}.

(** What the front end reads of an HTTP response: its status, the text of
    the error [raise_for_status] raises for it, and what [response.json()]
    gives. *)
Record http_response := {
  status_code : Z;
  error_text : string;
  response_json : outcome pyval
}.

(** What [call_api] prints. *)
Inductive print_line : Type :=
  | RequestLine (request_body : pyval) (api_url : option string)
  | ApiErrorLine (msg : string).

(** What the front end does to the outside, oldest first. *)
Inductive ui_event : Type :=
  | Printed (line : print_line)
  | Posted (req : post_request)
  | Spinner (text : string)
  | ErrorShown (msg : string).

(** The environment variables, the clock, the uuid source, the HTTP library
    and [json.loads] ([None] for a text that does not decode). *)
Class Frontend := {
  Env : Type;
  USERNAME : option string;
  PASSWORD : option string;
  API_URL : option string;
  uuid4 : Env → string * Env;
  datetime_now_isoformat : Env → string * Env;
  datetime_now_strftime : Env → string * Env;
  requests_post : post_request → Env → outcome http_response * Env;
  json_loads : string → option pyval
}.

(** [l[i]] on a list: a negative index counts from the end. *)
Definition py_index {A : Type} (l : list A) (i : Z) : option A :=
  if 0 <=? i then l !! Z.to_nat i
  else if - Z.of_nat (length l) <=? i then l !! Z.to_nat (Z.of_nat (length l) + i)
  else None.

(** ['body' in s] on a string: a substring test. *)
Fixpoint is_substring (p s : string) : bool :=
  String.prefix p s
  || match s with
     | EmptyString => false
     | String _ s' => is_substring p s'
     end.

Definition set_messages (st : session_state) (ms : list chat_message)
  : session_state :=
  {| chat_visible := chat_visible st;
     is_authenticated := is_authenticated st;
     messages := ms;
     session_id := session_id st;
     feedback_states := feedback_states st;
     show_feedback_categories := show_feedback_categories st |}.

Definition set_session_id (st : session_state) (sid : pyval) : session_state :=
  {| chat_visible := chat_visible st;
     is_authenticated := is_authenticated st;
     messages := messages st;
     session_id := sid;
     feedback_states := feedback_states st;
     show_feedback_categories := show_feedback_categories st |}.

Definition set_feedback_states (st : session_state) (fs : gmap Z feedback)
  : session_state :=
  {| chat_visible := chat_visible st;
     is_authenticated := is_authenticated st;
     messages := messages st;
     session_id := session_id st;
     feedback_states := fs;
     show_feedback_categories := show_feedback_categories st |}.

Definition set_show_feedback_categories (st : session_state)
    (sh : gmap Z bool) : session_state :=
  {| chat_visible := chat_visible st;
     is_authenticated := is_authenticated st;
     messages := messages st;
     session_id := session_id st;
     feedback_states := feedback_states st;
     show_feedback_categories := sh |}.

(** [clear_chat] *)
Definition clear_chat (st : session_state) : session_state :=
  set_session_id (set_messages st []) PNone.

(** [logout] *)
Definition logout (st : session_state) : session_state :=
  {| chat_visible := false;
     is_authenticated := false;
     messages := [];
     session_id := PNone;
     feedback_states := feedback_states st;
     show_feedback_categories := show_feedback_categories st |}.

(** The [request_body] of [call_api]. *)
Definition call_api_body (query session_id : pyval) : pyval :=
  PDict ([("user_query", query)]
         ++ if truthy session_id then [("sessionId", session_id)] else []).

(** [v == s] for a string [s]. *)
Definition is_str (s : string) (v : pyval) : bool :=
  match v with
  | PStr s' => String.eqb s' s
  | _ => false
  end.

(** The two decoding steps of [handle_chat_input] on a truthy
    [api_response]: a string is decoded, and what has a ['body'] is replaced
    by its decoded ['body']. *)
Section Decoding.
Context `{Frontend}.

Definition decode_text (v : pyval) : outcome pyval :=
  match v with
  | PStr s =>
      match json_loads s with
      | Some v' => Returned v'
      | None => Raised JSONDecodeError
      end
  | _ => Returned v
  end.

Definition decode_body (v : pyval) : outcome pyval :=
  match v with
  | PDict d =>
      match dict_lookup d "body" with
      | Some (PStr s) =>
          match json_loads s with
          | Some v' => Returned v'
          | None => Raised JSONDecodeError
          end
      | Some _ => Raised TypeError
      | None => Returned v
      end
  | PList l =>
      if existsb (is_str "body") l then Raised TypeError else Returned v
  | PStr s => if is_substring "body" s then Raised TypeError else Returned v
  | _ => Raised TypeError
  end.
End Decoding.

Section Functions.
Context `{Frontend}.

(** What a call of [call_api] leaves: its value or exception, the
    environment and what it printed and posted. *)
Record api_run := {
  api_result : outcome pyval;
  api_env : Env;
  api_shown : list ui_event
}.

(** [call_api].  [None] is the value for every [RequestException]: of the
    post, of [raise_for_status] (status 400 to 599) and of
    [response.json()]; any other exception leaves the function. *)
Definition call_api (query session_id : pyval) (env : Env) : api_run :=
  let request_body := call_api_body query session_id in
  let req := {| url := API_URL;
                post_headers := [("Content-Type", "application/json")];
                json := request_body;
                timeout := 30 |} in
  let before := [Printed (RequestLine request_body API_URL); Posted req] in
  let '(res, env') := requests_post req env in
  match res with
  | Raised (RequestException msg) =>
      {| api_result := Returned PNone; api_env := env';
         api_shown := before ++ [Printed (ApiErrorLine msg)] |}
  | Raised e =>
      {| api_result := Raised e; api_env := env'; api_shown := before |}
  | Returned response =>
      if (400 <=? status_code response) && (status_code response <? 600)
      then {| api_result := Returned PNone; api_env := env';
              api_shown :=
                before ++ [Printed (ApiErrorLine (error_text response))] |}
      else
        match response_json response with
        | Returned v =>
            {| api_result := Returned v; api_env := env';
               api_shown := before |}
        | Raised (RequestException msg) =>
            {| api_result := Returned PNone; api_env := env';
               api_shown := before ++ [Printed (ApiErrorLine msg)] |}
        | Raised e =>
            {| api_result := Raised e; api_env := env'; api_shown := before |}
        end
  end.

(** The post [call_api] makes for a query and a session id. *)
Definition post_of (query session_id : pyval) : post_request :=
  {| url := API_URL;
     post_headers := [("Content-Type", "application/json")];
     json := call_api_body query session_id;
     timeout := 30 |}.

(** [authenticate] *)
Definition authenticate (username password : string) (st : session_state)
  : bool * session_state :=
  if bool_decide (Some username = USERNAME)
     && bool_decide (Some password = PASSWORD)
  then (true,
        {| chat_visible := chat_visible st;
           is_authenticated := true;
           messages := messages st;
           session_id := session_id st;
           feedback_states := feedback_states st;
           show_feedback_categories := show_feedback_categories st |})
  else (false, st).

(** What a call of a function on the session state leaves. *)
Record run (A : Type) := {
  returned : outcome A;
  state_after : session_state;
  env_after : Env;
  shown : list ui_event
}.
Arguments returned {A} r.
Arguments state_after {A} r.
Arguments env_after {A} r.
Arguments shown {A} r.

Definition user_message (user_input : pyval) (t : string) : chat_message :=
  {| role := "user"; content := user_input; references := None;
     timestamp := t |}.

Definition assistant_message (response_content detailed_references : pyval)
    (t : string) : chat_message :=
  {| role := "assistant"; content := response_content;
     references := Some detailed_references; timestamp := t |}.

(** [handle_chat_input] *)
Definition handle_chat_input (user_input : pyval) (st : session_state)
    (env : Env) : run unit :=
  if truthy user_input then
    let '(t1, env1) := datetime_now_strftime env in
    let st1 := set_messages st (messages st ++ [user_message user_input t1]) in
    let api := call_api user_input (session_id st1) env1 in
    let evs := Spinner "Processing your request..." :: api_shown api in
    let failed (e : exc) :=
      {| returned := Raised e; state_after := st1; env_after := api_env api;
         shown := evs |} in
    match api_result api with
    | Raised e => failed e
    | Returned api_response =>
        if truthy api_response then
          match decode_text api_response with
          | Raised e => failed e
          | Returned decoded =>
              match decode_body decoded with
              | Raised e => failed e
              | Returned (PDict d) =>
                  let response_content :=
                    default (PStr "No response available")
                            (dict_lookup d "generated_response") in
                  let detailed_references :=
                    default (PList []) (dict_lookup d "detailed_references") in
                  let st2 :=
                    match dict_lookup d "sessionId" with
                    | Some sid => set_session_id st1 sid
                    | None => st1
                    end in
                  let '(t2, env2) := datetime_now_strftime (api_env api) in
                  {| returned := Returned tt;
                     state_after :=
                       set_messages st2
                         (messages st2
                          ++ [assistant_message response_content
                                detailed_references t2]);
                     env_after := env2;
                     shown := evs |}
              | Returned _ => failed AttributeError
              end
          end
        else
          {| returned := Returned tt; state_after := st1;
             env_after := api_env api;
             shown := evs ++ [ErrorShown "Failed to get response from API"] |}
    end
  else
    {| returned := Returned tt; state_after := st; env_after := env;
       shown := [] |}.

(** [handle_feedback].  The dictionary is built before it is stored: the
    uuid and the clock are read, then the message is looked up. *)
Definition handle_feedback (message_idx : Z) (feedback_type : string)
    (st : session_state) (env : Env) : run unit :=
  if String.eqb feedback_type "down" then
    {| returned := Returned tt;
       state_after :=
         set_show_feedback_categories st
           (<[message_idx := true]> (show_feedback_categories st));
       env_after := env; shown := [] |}
  else
    let '(id, env1) := uuid4 env in
    let '(t, env2) := datetime_now_isoformat env1 in
    match py_index (messages st) message_idx with
    | Some m =>
        {| returned := Returned tt;
           state_after :=
             set_feedback_states st
               (<[message_idx :=
                    {| feedback_id := id;
                       message_id := message_idx;
                       fb_session_id := session_id st;
                       feedback_type := "positive";
                       categories := None;
                       correction := None;
                       fb_timestamp := t;
                       message_content := content m |}]>
                  (feedback_states st));
           env_after := env2; shown := [] |}
    | None =>
        {| returned := Raised IndexError; state_after := st;
           env_after := env2; shown := [] |}
    end.

(** [submit_negative_feedback] *)
Definition submit_negative_feedback (message_idx : Z)
    (selected : list string) (correction_text : string)
    (st : session_state) (env : Env) : run unit :=
  let '(id, env1) := uuid4 env in
  let '(t, env2) := datetime_now_isoformat env1 in
  match py_index (messages st) message_idx with
  | Some m =>
      let st1 :=
        set_feedback_states st
          (<[message_idx :=
               {| feedback_id := id;
                  message_id := message_idx;
                  fb_session_id := session_id st;
                  feedback_type := "negative";
                  categories := Some selected;
                  correction := Some correction_text;
                  fb_timestamp := t;
                  message_content := content m |}]>
             (feedback_states st)) in
      {| returned := Returned tt;
         state_after :=
           set_show_feedback_categories st1
             (<[message_idx := false]> (show_feedback_categories st1));
         env_after := env2; shown := [] |}
  | None =>
      {| returned := Raised IndexError; state_after := st;
         env_after := env2; shown := [] |}
  end.
End Functions.

Arguments returned {_ _} r.
Arguments state_after {_ _} r.
Arguments env_after {_ _} r.
Arguments shown {_ _} r.

(** The posts of a trace, oldest first. *)
Definition posts (evs : list ui_event) : list post_request :=
  omap (λ ev, match ev with Posted req => Some req | _ => None end) evs.
End App.

(** ** A second deployment

    Every link is signed; the generation service cites [mixed_citations]
    and returns the output it is given. *)
Module Open.
Definition sign (req : sign_request) (w : Z) : pyresult string * Z :=
  (Ok ("https://" +:+ Bucket req +:+ ".s3.amazonaws.com/" +:+ Key req), w + 1).

Definition generate (out : option kb_output) (req : pyval) (w : Z)
  : pyresult kb_response * Z :=
  (Ok {| citations := Some mixed_citations; output := out;
         kb_sessionId := None |}, w + 1000).

Definition services (out : option kb_output) : Services :=
  {| World := Z;
     urlparse := Demo.parse_uri;
     json_loads := Demo.decode;
     s3_client_generate_presigned_url := sign;
     client_retrieve_and_generate := generate out;
     datetime_utcnow := λ w, (w, w);
     isoformat := λ t, "T+" +:+ pretty t;
     knowledgeBaseID := "KB12345678";
     fundation_model_ARN := "arn:aws:bedrock:model/demo" |}.

Definition handle (out : option kb_output) (request : pyval) (w : Z)
  : outcome response :=
  lambda_handler (H := services out) request w.
End Open.

(** ** A browser session against the sample deployment

    The post hands the JSON it carries to the handler of [Demo] and answers
    with the status and the body of its response, as a gateway in front of
    the handler does. *)
Module Browser.
Definition post (req : App.post_request) (env : Z)
  : App.outcome App.http_response * Z :=
  let o := Demo.handle (App.json req) env in
  match result o with
  | Ok resp =>
      (App.Returned
         {| App.status_code := statusCode resp;
            App.error_text := pretty (statusCode resp) +:+ " Error";
            App.response_json :=
              match body resp with json_dumps v => App.Returned v end |},
       world_after o)
  | Raise e =>
      (App.Returned
         {| App.status_code := 502;
            App.error_text := "502 Error";
            App.response_json :=
              App.Returned (PDict [("message", PStr "Internal server error")]) |},
       world_after o)
  end.

Definition loads (s : string) : option pyval :=
  match Demo.decode s with
  | Ok v => Some v
  | Raise _ => None
  end.

Definition frontend : App.Frontend :=
  {| App.Env := Z;
     App.USERNAME := Some "admin";
     App.PASSWORD := Some "secret";
     App.API_URL := Some "https://api.example.com/chat";
     App.uuid4 := λ env, ("uuid-" +:+ pretty env, env + 1);
     App.datetime_now_isoformat := λ env, ("T+" +:+ pretty env, env);
     App.datetime_now_strftime := λ env, ("00:00", env);
     App.requests_post := post;
     App.json_loads := loads |}.

(** A session that has just logged in. *)
Definition fresh : App.session_state :=
  {| App.chat_visible := true;
     App.is_authenticated := true;
     App.messages := [];
     App.session_id := PNone;
     App.feedback_states := ∅;
     App.show_feedback_categories := ∅ |}.

(** The same session after the question "What is Y?" and its answer. *)
Definition answered : App.session_state :=
  {| App.chat_visible := true;
     App.is_authenticated := true;
     App.messages :=
       [ {| App.role := "user"; App.content := PStr "What is Y?";
            App.references := None; App.timestamp := "00:00" |};
         {| App.role := "assistant";
            App.content := PStr "Y is another letter.";
            App.references := Some (PList []); App.timestamp := "00:00" |} ];
     App.session_id := PStr "session-2";
     App.feedback_states := ∅;
     App.show_feedback_categories := ∅ |}.
End Browser.

(** * Proofs *)

Arguments extract_reference : simpl never.

(** ** Loops that may raise *)

Lemma for_each_app {A S : Type} (body : S → A → pyresult S) (st : S)
    (l1 l2 : list A) :
  for_each body st (l1 ++ l2)
  = bind_result (for_each body st l1) (λ st', for_each body st' l2).
Proof.
  revert st. induction l1 as [|x l1 IH]; intros st; simpl; [done|].
  destruct (body st x) as [st'|e]; simpl; [apply IH | done].
Qed.

(** The two nested loops visit [all_references]. *)
Lemma for_each_citations (st : extract_state) (cs : list Kb.Citation) :
  for_each extract_citation st cs
  = for_each extract_reference st (all_references cs).
Proof.
  revert st. induction cs as [|c cs IH]; intros st; [done|].
  change (all_references (c :: cs))
    with (default [] (Kb.retrievedReferences c) ++ all_references cs).
  rewrite for_each_app. simpl. unfold extract_citation at 1.
  destruct (for_each extract_reference st _) as [st'|e]; simpl; [apply IH | done].
Qed.

(** One step of the inner loop, by cases on the storage location. *)
Lemma extract_reference_unfold (acc : list ref) (seen : gset string)
    (r : Kb.Reference) :
  extract_reference (acc, seen) r
  = match storage_location r with
    | None => Ok (acc, seen)
    | Some s3 =>
        match Kb.uri s3 with
        | None => Raise (KeyError "uri")
        | Some u =>
            if decide (u ∈ seen) then Ok (acc, seen)
            else Ok (acc ++ [entry_of u r], {[ u ]} ∪ seen)
        end
    end.
Proof.
  unfold extract_reference, storage_location, entry_of, content_text.
  destruct (Kb.location r) as [loc|]; simpl; [|done].
  destruct (Kb.s3Location loc) as [s3|]; simpl; [|done].
  destruct (Kb.uri s3) as [u|]; [|done].
  destruct (decide (u ∈ seen)); [done|].
  by destruct (Kb.content r).
Qed.

Lemma inner_loop_ok (rs : list Kb.Reference) (acc : list ref)
    (seen : gset string) (st' : extract_state) :
  for_each extract_reference (acc, seen) rs = Ok st' →
  fst st' = acc ++ fresh_entries seen rs ∧ uris_present rs.
Proof.
  revert acc seen. induction rs as [|r rs IH]; intros acc seen Hrun.
  { simpl in Hrun. injection Hrun as <-. simpl. rewrite app_nil_r.
    split; [done | constructor]. }
  simpl in Hrun. rewrite extract_reference_unfold in Hrun.
  unfold fresh_entries; fold fresh_entries. unfold uris_present, storage_uri.
  destruct (storage_location r) as [s3|] eqn:Hloc; simpl in *.
  - destruct (Kb.uri s3) as [u|] eqn:Hu; simpl in *; [|done].
    destruct (decide (u ∈ seen)); simpl in Hrun;
      apply IH in Hrun as [-> Hpres];
      (split; [|by constructor; [rewrite Hloc; simpl; rewrite Hu|]]);
      [done | by rewrite <- app_assoc].
  - apply IH in Hrun as [-> Hpres]. split; [done|].
    constructor; [|done]. rewrite Hloc. by intros [? ?].
Qed.

Lemma inner_loop_total (rs : list Kb.Reference) (acc : list ref)
    (seen : gset string) :
  uris_present rs →
  ∃ st', for_each extract_reference (acc, seen) rs = Ok st'.
Proof.
  intros Hpres. revert acc seen.
  induction Hpres as [|r rs Hr Hrs IH]; intros acc seen; [by eexists|].
  simpl. rewrite extract_reference_unfold. unfold storage_uri in Hr.
  destruct (storage_location r) as [s3|] eqn:Hloc; simpl in *; [|by apply IH].
  destruct Hr as [u Hu]; [done|]. rewrite Hu.
  destruct (decide (u ∈ seen)); simpl; by apply IH.
Qed.

(** ** The entries the loop records *)

Lemma first_stored_at_here (u : string) (r : Kb.Reference)
    (rs : list Kb.Reference) :
  storage_uri r = Some u → first_stored_at u (r :: rs) = Some (0%nat, r).
Proof.
  intros Hu. unfold first_stored_at. simpl. by rewrite decide_True.
Qed.

Lemma first_stored_at_later (u : string) (r r' : Kb.Reference)
    (rs : list Kb.Reference) (i : nat) :
  storage_uri r ≠ Some u →
  first_stored_at u rs = Some (i, r') →
  first_stored_at u (r :: rs) = Some (S i, r').
Proof.
  intros Hu Hrs. unfold first_stored_at in *. simpl.
  rewrite decide_False by done. by rewrite Hrs.
Qed.

Lemma first_stored_at_elem (u : string) (rs : list Kb.Reference) (i : nat)
    (r : Kb.Reference) :
  first_stored_at u rs = Some (i, r) →
  rs !! i = Some r ∧ storage_uri r = Some u.
Proof.
  unfold first_stored_at. intros Hf.
  apply list_find_Some in Hf as (Hi & Hu & _). done.
Qed.

(** A recorded entry is the entry of the first reference stored at its uri,
    and that uri had not been seen before. *)
Lemma fresh_entries_elem (seen : gset string) (rs : list Kb.Reference)
    (e : ref) :
  e ∈ fresh_entries seen rs →
  ∃ u i r,
    (u ∉ seen) ∧ first_stored_at u rs = Some (i, r) ∧ e = entry_of u r.
Proof.
  revert seen. induction rs as [|r0 rs IH]; intros seen He; simpl in He.
  { by apply elem_of_nil in He. }
  destruct (storage_uri r0) as [u0|] eqn:Hu0.
  - destruct (decide (u0 ∈ seen)) as [Hin|Hnin].
    + destruct (IH _ He) as (u & i & r & Hu & Hf & ->).
      exists u, (S i), r. split_and!; [done| |done].
      apply first_stored_at_later; [|done]. rewrite Hu0. set_solver.
    + apply elem_of_cons in He as [->|He].
      * exists u0, O, r0. split_and!; [done| |done].
        by apply first_stored_at_here.
      * destruct (IH _ He) as (u & i & r & Hu & Hf & ->).
        exists u, (S i), r. split_and!; [set_solver| |done].
        apply first_stored_at_later; [|done]. rewrite Hu0. set_solver.
  - destruct (IH _ He) as (u & i & r & Hu & Hf & ->).
    exists u, (S i), r. split_and!; [done| |done].
    apply first_stored_at_later; [|done]. by rewrite Hu0.
Qed.

Lemma fresh_entries_NoDup (seen : gset string) (rs : list Kb.Reference) :
  NoDup (uri <$> fresh_entries seen rs).
Proof.
  revert seen. induction rs as [|r0 rs IH]; intros seen; simpl.
  { constructor. }
  destruct (storage_uri r0) as [u0|]; [|done].
  destruct (decide (u0 ∈ seen)); [done|].
  rewrite fmap_cons. apply NoDup_cons. split; [|done].
  intros (e & He1 & He2)%list_elem_of_fmap.
  apply fresh_entries_elem in He2 as (u & i & r & Hu & _ & ->).
  simpl in He1. injection He1 as ->. set_solver.
Qed.

(** Every storage uri that was not seen before gets an entry. *)
Lemma fresh_entries_complete (seen : gset string) (rs : list Kb.Reference)
    (r : Kb.Reference) (u : string) :
  r ∈ rs → storage_uri r = Some u → u ∉ seen →
  ∃ e, e ∈ fresh_entries seen rs ∧ uri e = Some u.
Proof.
  revert seen. induction rs as [|r0 rs IH]; intros seen Hr Hu Hseen.
  { by apply elem_of_nil in Hr. }
  simpl. destruct (storage_uri r0) as [u0|] eqn:Hu0.
  - destruct (decide (u0 ∈ seen)) as [Hin|Hnin].
    + apply elem_of_cons in Hr as [->|Hr]; [|by apply IH].
      rewrite Hu in Hu0. injection Hu0 as ->. done.
    + destruct (decide (u = u0)) as [->|Hne].
      * exists (entry_of u0 r0). split; [by left | done].
      * apply elem_of_cons in Hr as [->|Hr]; [congruence|].
        destruct (IH ({[ u0 ]} ∪ seen) Hr Hu) as (e & He & Hue).
        { apply not_elem_of_union. split; [|done].
          by apply not_elem_of_singleton. }
        exists e. split; [by right | done].
  - apply elem_of_cons in Hr as [->|Hr]; [congruence | by apply IH].
Qed.

Lemma fresh_entries_unseen (seen : gset string) (rs : list Kb.Reference)
    (e : ref) (u : string) :
  e ∈ fresh_entries seen rs → uri e = Some u → u ∉ seen.
Proof.
  intros (u' & i & r & Hu' & _ & ->)%fresh_entries_elem Hu.
  simpl in Hu. by injection Hu as <-.
Qed.

Lemma before_elem {A : Type} (a b : A) (l : list A) :
  before a b l → a ∈ l ∧ b ∈ l.
Proof.
  induction l as [|y l IH]; simpl; [done|].
  intros [[-> Hb]|Hb].
  - split; [by left | by right].
  - destruct (IH Hb). split; by right.
Qed.

Lemma before_lookup {A : Type} (l : list A) (i j : nat) (a b : A) :
  (i < j)%nat → l !! i = Some a → l !! j = Some b → before a b l.
Proof.
  revert i j. induction l as [|y l IH]; intros i j Hlt Hi Hj; [done|].
  destruct j as [|j]; [lia|]. simpl in Hj.
  destruct i as [|i]; simpl in Hi.
  - injection Hi as ->. left. split; [done|].
    by eapply list_elem_of_lookup_2.
  - right. apply (IH i j); [lia|done..].
Qed.

(** The recorded entries stand in the order their uris were first met. *)
Lemma fresh_entries_before (seen : gset string) (rs : list Kb.Reference)
    (e1 e2 : ref) :
  before e1 e2 (fresh_entries seen rs) →
  ∃ u1 u2 i1 i2 r1 r2,
    uri e1 = Some u1 ∧ uri e2 = Some u2 ∧
    first_stored_at u1 rs = Some (i1, r1) ∧
    first_stored_at u2 rs = Some (i2, r2) ∧ (i1 < i2)%nat.
Proof.
  revert seen. induction rs as [|r0 rs IH]; intros seen Hb; simpl in Hb; [done|].
  assert (∀ seen', before e1 e2 (fresh_entries seen' rs) →
            (∀ u, u ∉ seen' → storage_uri r0 ≠ Some u) →
            ∃ u1 u2 i1 i2 r1 r2,
              uri e1 = Some u1 ∧ uri e2 = Some u2 ∧
              first_stored_at u1 (r0 :: rs) = Some (i1, r1) ∧
              first_stored_at u2 (r0 :: rs) = Some (i2, r2) ∧ (i1 < i2)%nat)
    as Hshift.
  { intros seen' Hb' Hne.
    destruct (before_elem _ _ _ Hb') as [He1 He2].
    destruct (IH _ Hb')
      as (u1 & u2 & i1 & i2 & r1 & r2 & H1 & H2 & F1 & F2 & Hlt).
    exists u1, u2, (S i1), (S i2), r1, r2.
    split_and!; [done|done| | |lia];
      (apply first_stored_at_later; [|done]);
      apply Hne;
      first [ by apply (fresh_entries_unseen _ rs e1)
            | by apply (fresh_entries_unseen _ rs e2) ]. }
  destruct (storage_uri r0) as [u0|] eqn:Hu0.
  - destruct (decide (u0 ∈ seen)) as [Hin|Hnin].
    + apply (Hshift seen Hb). intros u Hu [= ->]. done.
    + destruct Hb as [[<- He2]|Hb].
      * destruct (fresh_entries_elem _ _ _ He2) as (u2 & i2 & r2 & Hu2 & F2 & ->).
        exists u0, u2, O, (S i2), r0, r2.
        split_and!; [done|done| | |lia].
        -- by apply first_stored_at_here.
        -- apply first_stored_at_later; [|done]. rewrite Hu0. set_solver.
      * apply (Hshift _ Hb). intros u Hu [= ->]. set_solver.
  - apply (Hshift seen Hb). intros u _. done.
Qed.

(** ** The order of floats *)

Lemma float_lt_le (x y : pyfloat) : float_lt x y = true → float_le x y = true.
Proof.
  destruct x as [p| | |], y as [q| | |]; simpl; try done.
  intros Hlt%negb_true_iff. apply Qle_bool_iff, Qlt_le_weak, Qnot_le_lt.
  intros Hle%Qle_bool_iff. by rewrite Hle in Hlt.
Qed.

Lemma float_le_total (x y : pyfloat) :
  is_nan x = false → is_nan y = false →
  float_lt x y = false → float_le y x = true.
Proof.
  destruct x as [p| | |], y as [q| | |]; simpl; try done.
  intros _ _ Hlt. by apply negb_false_iff in Hlt.
Qed.

Lemma float_le_trans (x y z : pyfloat) :
  float_le x y = true → float_le y z = true → float_le x z = true.
Proof.
  destruct x as [p| | |], y as [q| | |], z as [r| | |]; simpl; try done.
  rewrite !Qle_bool_iff. apply Qle_trans.
Qed.

Lemma float_eq_not_lt (x y : pyfloat) :
  float_eq x y = true → float_lt y x = false.
Proof.
  destruct x as [p| | |], y as [q| | |]; simpl; try done.
  intros Heq%Qeq_bool_iff. apply negb_false_iff, Qle_bool_iff.
  rewrite Heq. apply Qle_refl.
Qed.

(** ** The sort *)

Lemma insert_desc_perm (x : ref) (l : list ref) : insert_desc x l ≡ₚ x :: l.
Proof.
  induction l as [|y l IH]; simpl; [done|].
  destruct (float_lt (score x) (score y)); [|done].
  rewrite IH. apply Permutation_swap.
Qed.

Lemma sort_by_score_reverse_perm (l : list ref) :
  sort_by_score_reverse l ≡ₚ l.
Proof.
  induction l as [|x l IH]; simpl; [done|].
  rewrite insert_desc_perm. by rewrite IH.
Qed.

Lemma insert_desc_sorted (x : ref) (l : list ref) :
  scores_ordered (x :: l) →
  Sorted score_ge l → Sorted score_ge (insert_desc x l).
Proof.
  induction l as [|y l IH]; intros Hn Hs; simpl.
  { by repeat constructor. }
  apply Forall_cons in Hn as [Hx Hn]. apply Forall_cons in Hn as [Hy Hn].
  destruct (float_lt (score x) (score y)) eqn:Hlt.
  - apply Sorted_inv in Hs as [Hs Hhd].
    constructor; [apply IH; [by constructor|done]|].
    destruct l as [|z l]; simpl.
    + constructor. by apply float_lt_le.
    + destruct (float_lt (score x) (score z)).
      * constructor. by apply HdRel_inv in Hhd.
      * constructor. by apply float_lt_le.
  - constructor; [done|]. constructor. by apply float_le_total.
Qed.

Lemma score_ge_trans : Transitive score_ge.
Proof.
  intros a b c Hab Hbc. unfold score_ge in *.
  by apply float_le_trans with (score b).
Qed.

Lemma sort_by_score_reverse_sorted (l : list ref) :
  scores_ordered l → StronglySorted score_ge (sort_by_score_reverse l).
Proof.
  intros Hn. apply Sorted_StronglySorted; [apply score_ge_trans|].
  induction l as [|x l IH]; simpl; [constructor|].
  apply Forall_cons in Hn as [Hx Hn].
  apply insert_desc_sorted; [|by apply IH].
  constructor; [done|]. unfold scores_ordered in *.
  by rewrite sort_by_score_reverse_perm.
Qed.

(** Where two entries of [insert_desc x l] can stand in order. *)
Lemma before_insert_desc (a b x : ref) (l : list ref) :
  before a b (insert_desc x l) →
  before a b l ∨ (a = x ∧ b ∈ l)
  ∨ (b = x ∧ float_lt (score x) (score a) = true).
Proof.
  induction l as [|y l IH]; simpl.
  { intros [[_ Hb]|[]]. by apply elem_of_nil in Hb. }
  destruct (float_lt (score x) (score y)) eqn:Hlt; simpl.
  - intros [[-> Hb]|Hb].
    + apply (elem_of_Permutation_proper _ _ _ (insert_desc_perm x l)) in Hb.
      apply elem_of_cons in Hb as [->|Hb]; [by right; right | by left; left].
    + destruct (IH Hb) as [?|[[-> ?]|?]]; [by left; right | | by right; right].
      right; left. split; [done | by right].
  - intros [[-> Hb]|Hb]; [by right; left | by left].
Qed.

(** The sort is stable: entries of equal score keep their order. *)
Lemma sort_by_score_reverse_stable (a b : ref) (l : list ref) :
  before a b (sort_by_score_reverse l) →
  float_eq (score a) (score b) = true →
  before a b l.
Proof.
  intros Hb Heq. induction l as [|x l IH]; simpl in Hb; [done|].
  apply before_insert_desc in Hb as [Hb|[[-> Hb]|[-> Hlt]]]; simpl.
  - right. by apply IH.
  - left. split; [done|]. by rewrite <- (sort_by_score_reverse_perm l).
  - by rewrite (float_eq_not_lt _ _ Heq) in Hlt.
Qed.

Lemma StronglySorted_elem {A : Type} (R : A → A → Prop) (l : list A)
    (a b : A) :
  StronglySorted R l → a ∈ l → b ∈ l → a = b ∨ R a b ∨ R b a.
Proof.
  induction 1 as [|x l Hs IH Hall]; intros Ha Hb.
  { by apply elem_of_nil in Ha. }
  rewrite Forall_forall in Hall.
  apply elem_of_cons in Ha as [->|Ha]; apply elem_of_cons in Hb as [->|Hb].
  - by left.
  - right; left. by apply Hall.
  - right; right. by apply Hall.
  - by apply IH.
Qed.

Lemma StronglySorted_lookup {A : Type} (R : A → A → Prop) (l : list A)
    (i j : nat) (a b : A) :
  StronglySorted R l → (i < j)%nat → l !! i = Some a → l !! j = Some b →
  R a b.
Proof.
  intros Hs. revert i j. induction Hs as [|y l Hs IH Hall]; intros i j Hlt Hi Hj.
  { done. }
  destruct j as [|j]; [lia|]. simpl in Hj. destruct i as [|i]; simpl in Hi.
  - injection Hi as ->. by eapply Forall_lookup_1.
  - apply (IH i j); [lia|done..].
Qed.

(** ** The extractor *)

(** What the extractor returns when it returns. *)
Lemma extract_references_ok (cs : list Kb.Citation) (out : list ref) :
  extract_references cs = Ok out →
  out = sort_by_score_reverse (fresh_entries ∅ (all_references cs))
  ∧ uris_present (all_references cs).
Proof.
  unfold extract_references. rewrite for_each_citations.
  destruct (for_each extract_reference _ _) as [st'|e] eqn:Hrun; simpl; [|done].
  intros [= <-]. apply inner_loop_ok in Hrun as [-> Hp]. done.
Qed.

Lemma extract_references_total (cs : list Kb.Citation) :
  uris_present (all_references cs) → ∃ out, extract_references cs = Ok out.
Proof.
  intros Hp. unfold extract_references. rewrite for_each_citations.
  destruct (inner_loop_total (all_references cs) [] ∅ Hp) as [st' ->].
  by eexists.
Qed.

(** Every entry of the output is the entry of the first reference stored
    at its uri. *)
Lemma extract_references_elem (cs : list Kb.Citation) (out : list ref)
    (e : ref) :
  extract_references cs = Ok out → e ∈ out →
  ∃ u i r, first_seen u cs = Some (i, r) ∧ e = entry_of u r.
Proof.
  intros [-> _]%extract_references_ok He.
  rewrite sort_by_score_reverse_perm in He.
  apply fresh_entries_elem in He as (u & i & r & _ & Hf & ->).
  by exists u, i, r.
Qed.

(** C1. The output of the extractor has no two entries with the same uri;
    every entry carries the trimmed excerpt and the score of the first
    retrieved reference stored at its uri, in the order the citations were
    received, and every stored uri has its entry.  On one citation whose
    two references are stored at s3://b/k1 with scores 0.9 and 0.5, the
    output is the single entry for k1 with score 0.9. *)
Theorem extract_references_first_seen_wins :
  (∀ (cs : list Kb.Citation) (out : list ref),
     extract_references cs = Ok out →
     NoDup (uri <$> out)
     ∧ (∀ e, e ∈ out →
          ∃ u i r, uri e = Some u ∧ first_seen u cs = Some (i, r)
                   ∧ snippet e = strip (default "" (content_text r))
                   ∧ score e = default (Num 0) (Kb.score r))
     ∧ (∀ r u, r ∈ all_references cs → storage_uri r = Some u →
          ∃ e, e ∈ out ∧ uri e = Some u))
  ∧ extract_references duplicate_citations
    = Ok [ {| uri := Some "s3://b/k1"; snippet := "";
              score := 9 # 10; presigned_url := None |} ].
Proof.
  split; [|by vm_compute].
  intros cs out Hrun. split_and!.
  - apply extract_references_ok in Hrun as [-> _].
    rewrite sort_by_score_reverse_perm. apply fresh_entries_NoDup.
  - intros e He.
    destruct (extract_references_elem cs out e Hrun He) as (u & i & r & Hf & ->).
    by exists u, i, r.
  - intros r u Hr Hu. apply extract_references_ok in Hrun as [-> _].
    destruct (fresh_entries_complete ∅ _ r u Hr Hu) as (e & He & Hue).
    { apply not_elem_of_empty. }
    exists e. by rewrite sort_by_score_reverse_perm.
Qed.

Lemma extract_references_first_seen_wins_witness :
  extract_references mixed_citations
  = Ok [ entry_of "s3://b/k4" (reference_at "s3://b/k4" (7 # 10));
         {| uri := Some "s3://b/k1"; snippet := "alpha"; score := 1 # 2;
            presigned_url := None |};
         entry_of "s3://b/k2" (reference_at "s3://b/k2" (2 # 4));
         {| uri := Some "s3://b/k3"; snippet := ""; score := 0;
            presigned_url := None |} ]
  ∧ NoDup [ Some "s3://b/k4"; Some "s3://b/k1"; Some "s3://b/k2";
            Some "s3://b/k3" ].
Proof.
  split; [by vm_compute|].
  apply (proj1 extract_references_first_seen_wins mixed_citations _ eq_refl).
Defined.

(** C2, amended. When none of the scores of its entries is nan, the output
    of the extractor is in descending order of score, and of two entries
    with equal scores the one that comes first is the one whose uri was met
    first while iterating the citations. *)
Theorem extract_references_sorted_stable (cs : list Kb.Citation)
    (out : list ref) :
  extract_references cs = Ok out →
  scores_ordered out →
  ∀ (i j : nat) (a b : ref),
    (i < j)%nat → out !! i = Some a → out !! j = Some b →
    float_le (score b) (score a) = true
    ∧ (float_eq (score a) (score b) = true →
       ∃ ua ub ia ib ra rb,
         uri a = Some ua ∧ uri b = Some ub
         ∧ first_seen ua cs = Some (ia, ra)
         ∧ first_seen ub cs = Some (ib, rb) ∧ (ia < ib)%nat).
Proof.
  intros [-> _]%extract_references_ok Hn i j a b Hlt Hi Hj. split.
  - change (score_ge a b).
    eapply StronglySorted_lookup; [|exact Hlt | exact Hi | exact Hj].
    apply sort_by_score_reverse_sorted. unfold scores_ordered in *.
    by rewrite sort_by_score_reverse_perm in Hn.
  - intros Heq. apply fresh_entries_before with (seen := ∅).
    apply sort_by_score_reverse_stable; [|done].
    by apply (before_lookup _ i j).
Qed.

Lemma extract_references_sorted_stable_witness :
  float_le (1 # 2) (1 # 2) = true
  ∧ (float_eq (1 # 2) (2 # 4) = true →
     ∃ ua ub ia ib ra rb,
       Some "s3://b/k1" = Some ua ∧ Some "s3://b/k2" = Some ub
       ∧ first_seen ua mixed_citations = Some (ia, ra)
       ∧ first_seen ub mixed_citations = Some (ib, rb) ∧ (ia < ib)%nat).
Proof.
  refine (extract_references_sorted_stable mixed_citations _ eq_refl _ 1 2
            {| uri := Some "s3://b/k1"; snippet := "alpha"; score := 1 # 2;
               presigned_url := None |}
            (entry_of "s3://b/k2" (reference_at "s3://b/k2" (2 # 4)))
            _ _ _);
    [by repeat constructor | lia | reflexivity | reflexivity].
Defined.

(** C2 as stated fails: with a nan among the scores the output is not in
    descending order.  Scores 1.0, nan and 2.0 stay in this order, and no
    order of these entries is descending. *)
Lemma extract_references_unsorted_with_nan :
  ∃ out,
    extract_references nan_citations = Ok out
    ∧ score <$> out = [Num 1; NaN; Num 2]
    ∧ (∃ a b, out !! 0%nat = Some a ∧ out !! 2%nat = Some b
              ∧ float_le (score b) (score a) = false)
    ∧ ∀ l, l ≡ₚ out → ¬ StronglySorted score_ge l.
Proof.
  eexists. split; [by vm_compute|]. split; [by vm_compute|]. split.
  { eexists _, _. split_and!; by vm_compute. }
  intros l Hl Hs.
  destruct (StronglySorted_elem score_ge l
              (entry_of "s3://b/k1" (reference_at "s3://b/k1" 1))
              (entry_of "s3://b/k2" (reference_at "s3://b/k2" NaN)) Hs)
    as [Heq|[Hge|Hge]].
  - rewrite Hl. by left.
  - rewrite Hl. right. by left.
  - discriminate Heq.
  - discriminate Hge.
  - discriminate Hge.
Qed.

(** References without a storage location leave the loop state as it is. *)
Lemma inner_loop_filter (rs : list Kb.Reference) (st : extract_state) :
  for_each extract_reference st
    (filter (λ r, is_Some (storage_location r)) rs)
  = for_each extract_reference st rs.
Proof.
  revert st. induction rs as [|r rs IH]; intros [acc seen]; [done|].
  destruct (decide (is_Some (storage_location r))) as [Hl|Hl].
  - rewrite filter_cons_True by done.
    simpl. destruct (extract_reference (acc, seen) r); simpl; [apply IH | done].
  - rewrite filter_cons_False by done.
    rewrite IH. simpl. rewrite extract_reference_unfold.
    destruct (storage_location r); [|done]. by destruct Hl.
Qed.

Lemma all_references_without_unlocated (cs : list Kb.Citation) :
  all_references (without_unlocated cs)
  = filter (λ r, is_Some (storage_location r)) (all_references cs).
Proof.
  induction cs as [|c cs IH]; [done|].
  change (all_references (c :: cs))
    with (default [] (Kb.retrievedReferences c) ++ all_references cs).
  rewrite filter_app, <- IH. unfold without_unlocated. rewrite fmap_cons.
  unfold all_references at 1. simpl. fold (all_references (without_unlocated cs)).
  by destruct (Kb.retrievedReferences c).
Qed.

(** C7, amended. References that lack a storage location do not count:
    the extractor returns the same with them taken out.  When every storage
    location carries a uri the extractor returns without raising, whatever
    else is missing; every entry then comes from a reference that has a
    storage location, with an empty excerpt where the content or its text
    is missing and a score of 0 where the score is missing. *)
Theorem extract_references_degrades (cs : list Kb.Citation) :
  extract_references (without_unlocated cs) = extract_references cs
  ∧ (uris_present (all_references cs) →
     ∃ out, extract_references cs = Ok out
       ∧ ∀ e, e ∈ out →
           ∃ u i r, uri e = Some u ∧ first_seen u cs = Some (i, r)
                    ∧ is_Some (storage_location r)
                    ∧ (content_text r = None → snippet e = "")
                    ∧ (Kb.score r = None → score e = Num 0)).
Proof.
  split.
  - unfold extract_references. rewrite !for_each_citations.
    by rewrite all_references_without_unlocated, inner_loop_filter.
  - intros Hp. destruct (extract_references_total cs Hp) as [out Hrun].
    exists out. split; [done|]. intros e He.
    destruct (extract_references_elem cs out e Hrun He) as (u & i & r & Hf & ->).
    exists u, i, r. split_and!; [done|done| | |].
    + apply first_stored_at_elem in Hf as [_ Hu]. unfold storage_uri in Hu.
      destruct (storage_location r); [by eexists | done].
    + simpl. by intros ->.
    + simpl. by intros ->.
Qed.

Lemma extract_references_degrades_witness :
  uris_present (all_references mixed_citations)
  ∧ ∃ out, extract_references mixed_citations = Ok out
      ∧ ∀ e, e ∈ out →
          ∃ u i r, uri e = Some u ∧ first_seen u mixed_citations = Some (i, r)
                   ∧ is_Some (storage_location r)
                   ∧ (content_text r = None → snippet e = "")
                   ∧ (Kb.score r = None → score e = Num 0).
Proof.
  assert (uris_present (all_references mixed_citations)) as Hp.
  { unfold uris_present. apply (bool_decide_unpack _). by vm_compute. }
  split; [exact Hp|].
  exact (proj2 (extract_references_degrades mixed_citations) Hp).
Defined.

(** C7 as stated fails: a storage location without a uri makes the
    extractor raise. *)
Lemma extract_references_raises_without_uri :
  extract_references citations_without_uri = Raise (KeyError "uri").
Proof. by vm_compute. Qed.

(** ** Running computations *)

Section Runs.
Context `{Services}.

Lemma result_bind {A B : Type} (m : M A) (k : A → M B) (w : World) :
  result ((m ≫= k) w)
  = match result (m w) with
    | Ok a => result (k a (world_after (m w)))
    | Raise e => Raise e
    end.
Proof. unfold mbind, M_bind, bind. simpl. by destruct (result (m w)). Qed.

Lemma events_bind {A B : Type} (m : M A) (k : A → M B) (w : World) :
  events ((m ≫= k) w)
  = match result (m w) with
    | Ok a => events (m w) ++ events (k a (world_after (m w)))
    | Raise e => events (m w)
    end.
Proof. unfold mbind, M_bind, bind. simpl. by destruct (result (m w)). Qed.

Lemma world_after_bind {A B : Type} (m : M A) (k : A → M B) (w : World) :
  world_after ((m ≫= k) w)
  = match result (m w) with
    | Ok a => world_after (k a (world_after (m w)))
    | Raise e => world_after (m w)
    end.
Proof. unfold mbind, M_bind, bind. simpl. by destruct (result (m w)). Qed.

Lemma result_try_except {A : Type} (m : M A) (h : exn → M A) (w : World) :
  result (try_except m h w)
  = match result (m w) with
    | Ok a => Ok a
    | Raise e => result (h e (world_after (m w)))
    end.
Proof. unfold try_except. simpl. by destruct (result (m w)) eqn:E. Qed.

Lemma events_try_except {A : Type} (m : M A) (h : exn → M A) (w : World) :
  events (try_except m h w)
  = match result (m w) with
    | Ok a => events (m w)
    | Raise e => events (m w) ++ events (h e (world_after (m w)))
    end.
Proof. unfold try_except. simpl. by destruct (result (m w)). Qed.

Lemma world_after_try_except {A : Type} (m : M A) (h : exn → M A)
    (w : World) :
  world_after (try_except m h w)
  = match result (m w) with
    | Ok a => world_after (m w)
    | Raise e => world_after (h e (world_after (m w)))
    end.
Proof. unfold try_except. simpl. by destruct (result (m w)). Qed.

(** *** The materializer *)

(** The materializer never raises: it returns the link, or [None] after
    printing why there is none. *)
Lemma generate_presigned_url_run (bucket key : string) (expiration : Z)
    (w : World) :
  ∃ res,
    res = (s3_client_generate_presigned_url
             (get_object bucket key expiration) w).1
    ∧ result (generate_presigned_url bucket key expiration w)
      = Ok (match res with Ok url => Some url | Raise _ => None end)
    ∧ sign_results (events (generate_presigned_url bucket key expiration w))
      = [res]
    ∧ Forall (expires_in expiration)
        (events (generate_presigned_url bucket key expiration w)).
Proof.
  eexists. split; [reflexivity|].
  unfold generate_presigned_url.
  rewrite result_try_except, events_try_except, result_bind, events_bind.
  unfold call_sign, get_object. simpl.
  destruct (s3_client_generate_presigned_url _ w) as [[url|e] w']; simpl.
  - split_and!; [done|done|]. by repeat constructor.
  - split_and!; [done|done|]. by repeat constructor.
Qed.

(** *** The enricher *)

Arguments generate_presigned_url : simpl never.

Lemma sign_results_app (evs1 evs2 : list event) :
  sign_results (evs1 ++ evs2) = sign_results evs1 ++ sign_results evs2.
Proof. apply omap_app. Qed.

Lemma survivors_skip (r : ref) (refs : list ref)
    (results : list (pyresult string)) :
  uri r = None → survivors (r :: refs) results = survivors refs results.
Proof.
  intros Hu. unfold survivors. rewrite filter_cons_False; [done|].
  rewrite Hu. by intros [? ?].
Qed.

Lemma survivors_step (r : ref) (refs : list ref) (res : pyresult string)
    (results : list (pyresult string)) :
  is_Some (uri r) →
  survivors (r :: refs) (res :: results)
  = match enriched r res with
    | Some r' => r' :: survivors refs results
    | None => survivors refs results
    end.
Proof.
  intros Hu. unfold survivors. rewrite filter_cons_True by done. done.
Qed.

(** What the loop returns when it returns. *)
Lemma process_s3_urls_from_ok (refs : list ref) (acc : list ref) (w : World)
    (out : list ref) :
  result (process_s3_urls_from acc refs w) = Ok out →
  Forall parses refs
  ∧ out = acc ++ survivors refs
                   (sign_results (events (process_s3_urls_from acc refs w)))
  ∧ length (sign_results (events (process_s3_urls_from acc refs w)))
    = length (filter (λ r, is_Some (uri r)) refs).
Proof.
  revert acc w. induction refs as [|r rest IH]; intros acc w Hrun.
  { simpl in *. injection Hrun as <-. by rewrite app_nil_r. }
  simpl in *. destruct (uri r) as [u|] eqn:Hu.
  - rewrite result_bind in Hrun. rewrite events_bind. simpl in *.
    destruct (urlparse u) as [parsed|e] eqn:Hparse; [|done].
    rewrite result_bind in Hrun. rewrite events_bind.
    destruct (generate_presigned_url_run (split_dot_first (netloc parsed))
                (lstrip_slash (path parsed)) default_expiration w)
      as (res & _ & Hres & Hsign & _).
    rewrite Hres in *. rewrite sign_results_app, Hsign. cbn [app].
    rewrite filter_cons_True by (by rewrite Hu).
    assert (parses r) as Hp by (unfold parses; by rewrite Hu, Hparse).
    rewrite survivors_step by (by rewrite Hu).
    destruct res as [url|e]; simpl in *.
    + destruct (String.eqb url "") eqn:Hurl; simpl in *;
        apply IH in Hrun as (Hps & Hout & Hlen);
        (split_and!; [by constructor | | by rewrite Hlen]).
      * done.
      * by rewrite <- app_assoc in Hout.
    + apply IH in Hrun as (Hps & Hout & Hlen).
      split_and!; [by constructor | done | by rewrite Hlen].
  - apply IH in Hrun as (Hps & Hout & Hlen).
    assert (parses r) as Hp by (unfold parses; by rewrite Hu).
    rewrite survivors_skip by done.
    rewrite filter_cons_False by (rewrite Hu; by intros [? ?]).
    split_and!; [by constructor | done | done].
Qed.
(** The loop raises only where [urlparse] does. *)
Lemma process_s3_urls_from_total (refs : list ref) (acc : list ref)
    (w : World) :
  Forall parses refs → ∃ out, result (process_s3_urls_from acc refs w) = Ok out.
Proof.
  intros Hps. revert acc w.
  induction Hps as [|r rest Hp Hps IH]; intros acc w; [by eexists|].
  simpl. unfold parses in Hp. destruct (uri r) as [u|]; [|apply IH].
  rewrite result_bind. simpl.
  destruct (urlparse u) as [parsed|e]; [|done].
  rewrite result_bind.
  destruct (generate_presigned_url_run (split_dot_first (netloc parsed))
              (lstrip_slash (path parsed)) default_expiration w)
    as (res & _ & -> & _ & _).
  destruct (truthy _); apply IH.
Qed.

(** Every signer call of the loop asks for the default expiration. *)
Lemma process_s3_urls_from_expires (refs : list ref) (acc : list ref)
    (w : World) :
  Forall (expires_in default_expiration)
    (events (process_s3_urls_from acc refs w)).
Proof.
  revert acc w. induction refs as [|r rest IH]; intros acc w; [constructor|].
  simpl. destruct (uri r) as [u|]; [|apply IH].
  rewrite events_bind. simpl.
  destruct (urlparse u) as [parsed|e]; [|constructor].
  rewrite events_bind.
  destruct (generate_presigned_url_run (split_dot_first (netloc parsed))
              (lstrip_slash (path parsed)) default_expiration w)
    as (res & _ & -> & _ & Hexp).
  apply Forall_app. split; [done|].
  destruct (truthy _); apply IH.
Qed.

(** The enricher makes no call to the generation service. *)
Lemma process_s3_urls_from_no_retrieve (refs : list ref) (acc : list ref)
    (w : World) (req : pyval) (res : pyresult kb_response) :
  EvRetrieve req res ∉ events (process_s3_urls_from acc refs w).
Proof.
  revert acc w. induction refs as [|r rest IH]; intros acc w.
  { apply not_elem_of_nil. }
  simpl. destruct (uri r) as [u|]; [|apply IH].
  rewrite events_bind. simpl.
  destruct (urlparse u) as [parsed|e]; [|apply not_elem_of_nil].
  rewrite events_bind.
  assert (EvRetrieve req res
            ∉ events (generate_presigned_url
                        (split_dot_first (netloc parsed))
                        (lstrip_slash (path parsed)) default_expiration w))
    as Hgen.
  { unfold generate_presigned_url.
    rewrite events_try_except, result_bind, events_bind.
    unfold call_sign. simpl.
    destruct (s3_client_generate_presigned_url _ w) as [[url|e] w']; simpl;
      intros Hin; repeat (apply elem_of_cons in Hin as [Hin|Hin]; [done|]);
      by apply elem_of_nil in Hin. }
  destruct (result (generate_presigned_url _ _ _ _)); [|done].
  apply not_elem_of_app. split; [done|].
  destruct (truthy _); apply IH.
Qed.

(** *** What survives *)

Lemma survivors_nil (refs : list ref) : survivors refs [] = [].
Proof. unfold survivors. by rewrite zip_with_nil_r. Qed.

Lemma survivors_sublist (refs : list ref) (results : list (pyresult string)) :
  core <$> survivors refs results `sublist_of` core <$> refs.
Proof.
  revert results. induction refs as [|r refs IH]; intros results; [done|].
  destruct (uri r) as [u|] eqn:Hu.
  - destruct results as [|res results].
    { rewrite survivors_nil. apply sublist_nil_l. }
    rewrite survivors_step by (by rewrite Hu).
    destruct res as [url|e]; simpl.
    + destruct (String.eqb url ""); simpl.
      * by apply sublist_cons.
      * by apply sublist_skip.
    + by apply sublist_cons.
  - rewrite survivors_skip by done. by apply sublist_cons.
Qed.

Lemma survivors_linked (refs : list ref) (results : list (pyresult string)) :
  Forall (λ o, ∃ url, presigned_url o = Some url ∧ url ≠ "")
    (survivors refs results).
Proof.
  revert results. induction refs as [|r refs IH]; intros results.
  { constructor. }
  destruct (uri r) as [u|] eqn:Hu.
  - destruct results as [|res results].
    { rewrite survivors_nil. constructor. }
    rewrite survivors_step by (by rewrite Hu).
    destruct res as [url|e]; simpl; [|done].
    destruct (String.eqb url "") eqn:Hurl; [done|].
    constructor; [|done]. exists url. split; [done|].
    by apply String.eqb_neq.
  - by rewrite survivors_skip.
Qed.

(** An exception that leaves the loop is one [urlparse] raised. *)
Lemma process_s3_urls_from_raise (refs : list ref) (acc : list ref)
    (w : World) (e : exn) :
  result (process_s3_urls_from acc refs w) = Raise e →
  ∃ r u, r ∈ refs ∧ uri r = Some u ∧ urlparse u = Raise e.
Proof.
  revert acc w. induction refs as [|r rest IH]; intros acc w Hrun; [done|].
  assert (∀ acc' w', result (process_s3_urls_from acc' rest w') = Raise e →
            ∃ r' u, r' ∈ r :: rest ∧ uri r' = Some u ∧ urlparse u = Raise e)
    as Hrest.
  { intros acc' w' (r' & u & Hr' & Hu' & Hp)%IH.
    exists r', u. split; [by right | done]. }
  simpl in Hrun. destruct (uri r) as [u|] eqn:Hu; [|by eapply Hrest].
  rewrite result_bind in Hrun. simpl in Hrun.
  destruct (urlparse u) as [parsed|e'] eqn:Hparse.
  - rewrite result_bind in Hrun.
    destruct (generate_presigned_url_run (split_dot_first (netloc parsed))
                (lstrip_slash (path parsed)) default_expiration w)
      as (res & _ & Hres & _ & _).
    rewrite Hres in Hrun. destruct (truthy _); by eapply Hrest.
  - injection Hrun as ->. exists r, u. split; [by left | done].
Qed.

(** C3, amended. When [urlparse] accepts the uris, the enricher returns,
    whatever the signer does.  Its output is not longer than its input; every
    entry carries a link that is not empty; the entries, links aside, are
    a subsequence of the input in the input's order; and the entry of a
    reference is there exactly when the signer answered its call with a
    link: a reference whose signing raised or gave nothing is dropped.
    No failure of the signer raises: an exception that leaves the enricher
    is one [urlparse] raised on a uri. *)
Theorem process_s3_urls_drops_failures (refs : list ref) (w : World) :
  (Forall parses refs →
   ∃ out,
     result (process_s3_urls refs w) = Ok out
     ∧ (length out ≤ length refs)%nat
     ∧ Forall (λ o, ∃ url, presigned_url o = Some url ∧ url ≠ "") out
     ∧ core <$> out `sublist_of` core <$> refs
     ∧ length (sign_results (events (process_s3_urls refs w)))
       = length (filter (λ r, is_Some (uri r)) refs)
     ∧ out = survivors refs (sign_results (events (process_s3_urls refs w))))
  ∧ (∀ e, result (process_s3_urls refs w) = Raise e →
       ∃ r u, r ∈ refs ∧ uri r = Some u ∧ urlparse u = Raise e).
Proof.
  split; [|intros e; apply process_s3_urls_from_raise].
  intros Hps. unfold process_s3_urls.
  destruct (process_s3_urls_from_total refs [] w Hps) as [out Hrun].
  exists out. split; [done|].
  apply process_s3_urls_from_ok in Hrun as (_ & Hout & Hlen).
  simpl in Hout. rewrite Hout at 1 2 3.
  split_and!; [ |apply survivors_linked|apply survivors_sublist|done|done].
  rewrite <- (length_fmap core), <- (length_fmap core refs).
  apply sublist_length, survivors_sublist.
Qed.
End Runs.

Lemma process_s3_urls_drops_failures_witness :
  Forall (parses (H := Demo.services)) Demo.extracted
  ∧ ∃ out,
      result (process_s3_urls (H := Demo.services) Demo.extracted 0) = Ok out
      ∧ (length out ≤ 2)%nat
      ∧ Forall (λ o, ∃ url, presigned_url o = Some url ∧ url ≠ "") out
      ∧ core <$> out `sublist_of` core <$> Demo.extracted
      ∧ length (sign_results
                  (events (process_s3_urls (H := Demo.services)
                             Demo.extracted 0)))
        = length (filter (λ r, is_Some (uri r)) Demo.extracted)
      ∧ out = survivors Demo.extracted
                (sign_results
                   (events (process_s3_urls (H := Demo.services)
                              Demo.extracted 0))).
Proof.
  assert (Forall (parses (H := Demo.services)) Demo.extracted) as Hps.
  { repeat constructor. }
  split; [exact Hps|].
  exact (proj1 (@process_s3_urls_drops_failures Demo.services
                  Demo.extracted 0) Hps).
Defined.

(** C3 as stated fails: a uri that [urlparse] refuses makes the enricher
    raise, before any link is asked for. *)
Lemma process_s3_urls_raises_on_refused_uri :
  result (process_s3_urls (H := Demo.services)
            [ {| uri := Some "s3://[b/k"; snippet := ""; score := 0;
                 presigned_url := None |} ] 0)
  = Raise (ValueError "Invalid IPv6 URL")
  ∧ events (process_s3_urls (H := Demo.services)
              [ {| uri := Some "s3://[b/k"; snippet := ""; score := 0;
                   presigned_url := None |} ] 0)
    = [].
Proof. split; by vm_compute. Qed.

(** ** The handler *)

Section HandlerRuns.
Context `{Services}.

Arguments process_s3_urls : simpl never.
Arguments extract_references : simpl never.
Arguments retrieve_request : simpl never.
Arguments create_response : simpl never.
Arguments response_body : simpl never.
Arguments error_body : simpl never.
Arguments py_get : simpl never.

(** *** Reading the request *)

Lemma event_body_run (request : pyval) (w : World) :
  world_after (event_body request w) = w
  ∧ events (event_body request w) = []
  ∧ match request_body request with
    | Some body => result (event_body request w) = Ok body
    | None => ∃ e, result (event_body request w) = Raise e
    end.
Proof.
  unfold event_body, request_body.
  destruct request as [| | | | |l|d]; simpl; try by eauto.
  destruct (dict_lookup d "body") as [[| | | |s|l|d']|]; simpl; try done.
  destruct (json_loads s); simpl; by eauto.
Qed.

Lemma get_request_data_body_run (request : pyval) (w : World) :
  world_after (get_request_data_body request w) = w
  ∧ events (get_request_data_body request w) = received request
  ∧ match request_body request with
    | Some body =>
        result (get_request_data_body request w)
        = bind_result (py_get body "user_query")
            (λ q, bind_result (py_get body "sessionId") (λ sid, Ok (q, sid)))
    | None => ∃ e, result (get_request_data_body request w) = Raise e
    end.
Proof.
  unfold get_request_data_body, received.
  rewrite world_after_bind, events_bind, result_bind. simpl.
  rewrite world_after_bind, events_bind, result_bind.
  destruct (event_body_run request w) as (-> & -> & Hbody).
  destruct (request_body request) as [body|].
  - rewrite Hbody.
    rewrite world_after_bind, events_bind, result_bind. simpl.
    destruct (py_get body "user_query") as [q|e]; simpl; [|done].
    rewrite world_after_bind, events_bind, result_bind. simpl.
    by destruct (py_get body "sessionId").
  - destruct Hbody as [e ->]. by eauto.
Qed.

(** [get_request_data] leaves the world alone and calls no service. *)
Lemma get_request_data_run (request : pyval) (w : World) :
  world_after (get_request_data request w) = w
  ∧ result (get_request_data request w)
    = result (get_request_data_body request w)
  ∧ events (get_request_data request w)
    = received request
      ++ match result (get_request_data_body request w) with
         | Ok _ => []
         | Raise e =>
             [EvPrint (Text ("Error in get_request_data: " +:+ str_exn e))]
         end.
Proof.
  unfold get_request_data.
  rewrite world_after_try_except, result_try_except, events_try_except.
  destruct (get_request_data_body_run request w) as (-> & -> & _).
  destruct (result (get_request_data_body request w)) as [p|e]; simpl.
  - by rewrite ?app_nil_r.
  - done.
Qed.

(** *** Answering *)

Lemma answer_query_ok (q sid : pyval) (w : World) (resp : response) :
  result (answer_query q sid w) = Ok resp →
  ∃ kb w1 cits extracted refs text now,
    client_retrieve_and_generate (retrieve_request q sid) w = (Ok kb, w1)
    ∧ citations kb = Some cits
    ∧ extract_references cits = Ok extracted
    ∧ result (process_s3_urls extracted w1) = Ok refs
    ∧ output kb ≫= output_text = Some text
    ∧ now = (datetime_utcnow (world_after (process_s3_urls extracted w1))).1
    ∧ resp = create_response 200
               (response_body text refs (isoformat (now + timedelta_hours 1))
                  (kb_sessionId kb))
    ∧ events (answer_query q sid w)
      = EvRetrieve (retrieve_request q sid) (Ok kb)
        :: events (process_s3_urls extracted w1).
Proof.
  remember (events (answer_query q sid w)) as evs eqn:Hevs.
  intros Hrun. unfold answer_query in Hrun, Hevs.
  rewrite result_bind in Hrun. rewrite events_bind in Hevs.
  unfold call_retrieve in Hrun, Hevs.
  destruct (client_retrieve_and_generate _ w) as [[kb|e] w1] eqn:Hkb;
    simpl in Hrun, Hevs; [|discriminate Hrun].
  rewrite result_bind in Hrun. rewrite events_bind in Hevs.
  destruct (citations kb) as [cits|] eqn:Hcits; simpl in Hrun, Hevs; [|discriminate Hrun].
  rewrite result_bind in Hrun. rewrite events_bind in Hevs.
  simpl in Hrun, Hevs.
  destruct (extract_references cits) as [extracted|e] eqn:Hext;
    simpl in Hrun, Hevs; [|discriminate Hrun].
  rewrite result_bind in Hrun. rewrite events_bind in Hevs.
  destruct (result (process_s3_urls extracted w1)) as [refs|e] eqn:Hrefs;
    [|discriminate Hrun].
  rewrite result_bind in Hrun. rewrite events_bind in Hevs.
  destruct (output kb) as [out|] eqn:Hout; simpl in Hrun, Hevs; [|discriminate Hrun].
  rewrite result_bind in Hrun. rewrite events_bind in Hevs.
  destruct (output_text out) as [text|] eqn:Htext; simpl in Hrun, Hevs;
    [|discriminate Hrun].
  rewrite result_bind in Hrun. rewrite events_bind in Hevs.
  unfold utcnow in Hrun, Hevs.
  destruct (datetime_utcnow _) as [now w2] eqn:Hnow. simpl in Hrun, Hevs.
  injection Hrun as <-.
  exists kb, w1, cits, extracted, refs, text, now.
  rewrite app_nil_r in Hevs. rewrite Hnow, Hout. simpl.
  by split_and!.
Qed.

(** The events of [answer_query] up to where it raised or returned: one
    call to the generation service, then the signer calls and prints of
    the enricher. *)
Lemma answer_query_events (q sid : pyval) (w : World) :
  ∃ res evs,
    events (answer_query q sid w)
    = EvRetrieve (retrieve_request q sid) res :: evs
    ∧ res = (client_retrieve_and_generate (retrieve_request q sid) w).1
    ∧ Forall (expires_in default_expiration) evs
    ∧ ∀ req' res', EvRetrieve req' res' ∉ evs.
Proof.
  unfold answer_query. rewrite events_bind. unfold call_retrieve.
  destruct (client_retrieve_and_generate _ w) as [[kb|e] w1] eqn:Hkb; simpl.
  2:{ eexists _, []. split_and!; [done|done|constructor|].
      intros ??. apply not_elem_of_nil. }
  rewrite events_bind.
  destruct (citations kb) as [cits|]; simpl.
  2:{ eexists _, []. split_and!; [done|done|constructor|].
      intros ??. apply not_elem_of_nil. }
  rewrite events_bind. simpl.
  destruct (extract_references cits) as [extracted|e]; simpl.
  2:{ eexists _, []. split_and!; [done|done|constructor|].
      intros ??. apply not_elem_of_nil. }
  rewrite events_bind.
  pose proof (process_s3_urls_from_expires extracted [] w1) as Hexp.
  pose proof (process_s3_urls_from_no_retrieve extracted [] w1) as Hno.
  fold (process_s3_urls extracted) in Hexp, Hno.
  destruct (result (process_s3_urls extracted w1)) as [refs|e].
  2:{ eexists _, _. split_and!; [done|done|done|]. intros ??. apply Hno. }
  rewrite events_bind.
  destruct (output kb) as [out|]; simpl.
  2:{ eexists _, _. split_and!; [done|done|by rewrite app_nil_r|].
      intros ??. rewrite app_nil_r. apply Hno. }
  rewrite events_bind.
  destruct (output_text out) as [text|]; simpl.
  2:{ eexists _, _. split_and!; [done|done|by rewrite app_nil_r|].
      intros ??. rewrite app_nil_r. apply Hno. }
  rewrite events_bind. unfold utcnow.
  destruct (datetime_utcnow _) as [now w2]. simpl.
  eexists _, _. split_and!; [done|done|by rewrite app_nil_r|].
  intros ??. rewrite app_nil_r. apply Hno.
Qed.

(** *** The three outcomes *)

(** The handler by cases on what [get_request_data] returned. *)
Lemma lambda_handler_run (request : pyval) (w : World) :
  match result (get_request_data request w) with
  | Raise e =>
      result (lambda_handler request w)
      = Ok (create_response 400
              (PDict [("error",
                       PStr ("Error processing request: " +:+ str_exn e))]))
      ∧ world_after (lambda_handler request w) = w
      ∧ events (lambda_handler request w)
        = received request
          ++ [EvPrint (Text ("Error in get_request_data: " +:+ str_exn e))]
  | Ok (q, sid) =>
      if truthy q then
        result (lambda_handler request w)
        = match result (answer_query q sid w) with
          | Ok resp => Ok resp
          | Raise e => Ok (create_response 500 (error_body e sid))
          end
        ∧ world_after (lambda_handler request w)
          = world_after (answer_query q sid w)
        ∧ events (lambda_handler request w)
          = received request ++ events (answer_query q sid w)
            ++ match result (answer_query q sid w) with
               | Ok _ => []
               | Raise e =>
                   [EvPrint (Text ("Error in lambda_handler: "
                                   +:+ str_exn e))]
               end
      else
        result (lambda_handler request w)
        = Ok (create_response 400
                (PDict [("error", PStr "user_query is required")]))
        ∧ world_after (lambda_handler request w) = w
        ∧ events (lambda_handler request w) = received request
  end.
Proof.
  unfold lambda_handler.
  rewrite result_bind, world_after_bind, events_bind.
  rewrite result_try_except, world_after_try_except, events_try_except.
  rewrite result_bind, world_after_bind, events_bind.
  destruct (get_request_data_run request w) as (-> & Hres & ->).
  rewrite <- Hres.
  destruct (result (get_request_data request w)) as [[q sid]|e]; simpl.
  - rewrite ?app_nil_r. destruct (truthy q); simpl.
    + rewrite result_try_except, world_after_try_except, events_try_except.
      destruct (result (answer_query q sid w)); simpl.
      * by rewrite ?app_nil_r.
      * done.
    + by rewrite ?app_nil_r.
  - by rewrite ?app_nil_r.
Qed.

Lemma sign_results_elem (evs : list event) (res : pyresult string) :
  res ∈ sign_results evs → ∃ req, EvSign req res ∈ evs.
Proof.
  unfold sign_results. intros (ev & Hev & Hres)%list_elem_of_omap.
  destruct ev as [m|req res'|req res']; try done.
  injection Hres as ->. by exists req.
Qed.

Lemma survivors_failed (refs : list ref) (results : list (pyresult string)) :
  Forall (λ res, ∃ e, res = Raise e) results → survivors refs results = [].
Proof.
  intros Hfail. revert refs.
  induction Hfail as [|res results [e ->] _ IH]; intros refs.
  { apply survivors_nil. }
  induction refs as [|r refs IHrefs]; [done|].
  destruct (uri r) as [u|] eqn:Hu.
  - rewrite survivors_step by (by rewrite Hu). simpl. apply IH.
  - by rewrite survivors_skip.
Qed.

(** C9. Whatever the event, the handler returns a response, with status
    400, 200 or 500, and the response carries the cross-origin headers
    Access-Control-Allow-Headers, Access-Control-Allow-Origin and
    Access-Control-Allow-Methods, always with the same values. *)
Theorem responses_carry_cors_headers (request : pyval) (w : World) :
  ∃ resp,
    result (lambda_handler request w) = Ok resp
    ∧ (statusCode resp = 400 ∨ statusCode resp = 200 ∨ statusCode resp = 500)
    ∧ headers resp = cors_headers ++ [("Content-Type", "application/json")].
Proof.
  pose proof (lambda_handler_run request w) as Hrun.
  destruct (result (get_request_data request w)) as [[q sid]|e].
  - destruct (truthy q).
    + destruct Hrun as (-> & _ & _).
      destruct (result (answer_query q sid w)) as [resp|e] eqn:Hans.
      * apply answer_query_ok in Hans
          as (kb & w1 & cits & ex & refs & text & now & _ & _ & _ & _ & _
              & _ & -> & _).
        eexists. split; [done|]. split; [by right; left | done].
      * eexists. split; [done|]. split; [by right; right | done].
    + destruct Hrun as (-> & _ & _).
      eexists. split; [done|]. split; [by left | done].
  - destruct Hrun as (-> & _ & _).
    eexists. split; [done|]. split; [by left | done].
Qed.

(** What [get_request_data] returns on a body that is an object. *)
Lemma get_request_data_object (request : pyval) (w : World)
    (bd : list (string * pyval)) :
  request_body request = Some (PDict bd) →
  result (get_request_data request w)
  = Ok (default PNone (dict_lookup bd "user_query"),
        default PNone (dict_lookup bd "sessionId")).
Proof.
  intros Hbody. destruct (get_request_data_run request w) as (_ & -> & _).
  destruct (get_request_data_body_run request w) as (_ & _ & Hres).
  by rewrite Hbody in Hres.
Qed.

(** C6. An event whose body cannot be read, is not an object or has no
    user_query gets a 400 with an error body, and the handler calls
    neither the generation service nor the signer: the world is as it
    was. *)
Theorem missing_query_is_bad_request (request : pyval) (w : World) :
  query_missing request →
  ∃ resp msg,
    result (lambda_handler request w) = Ok resp
    ∧ statusCode resp = 400
    ∧ body resp = json_dumps (PDict [("error", PStr msg)])
    ∧ world_after (lambda_handler request w) = w
    ∧ Forall (λ ev, ¬ is_service_call ev) (events (lambda_handler request w)).
Proof.
  unfold query_missing. intros Hmiss.
  pose proof (lambda_handler_run request w) as Hrun.
  destruct (get_request_data_run request w) as (_ & Hres & _).
  destruct (get_request_data_body_run request w) as (_ & _ & Hbody).
  rewrite <- Hres in Hbody. clear Hres.
  assert (∀ e, result (get_request_data request w) = Raise e →
            ∃ resp msg,
              result (lambda_handler request w) = Ok resp
              ∧ statusCode resp = 400
              ∧ body resp = json_dumps (PDict [("error", PStr msg)])
              ∧ world_after (lambda_handler request w) = w
              ∧ Forall (λ ev, ¬ is_service_call ev)
                  (events (lambda_handler request w))) as Hraise.
  { intros e He. rewrite He in Hrun. destruct Hrun as (-> & -> & ->).
    eexists _, _. split_and!; [done..|]. repeat constructor; by intros []. }
  destruct (request_body request) as [body0|].
  - destruct body0 as [| | | | |l|bd];
      try (by apply (Hraise _ Hbody)).
    simpl in Hbody. unfold py_get in Hbody. rewrite Hmiss in Hbody.
    simpl in Hbody. rewrite Hbody in Hrun. simpl in Hrun.
    destruct Hrun as (-> & -> & ->).
    eexists _, _. split_and!; [done..|]. repeat constructor. by intros [].
  - destruct Hbody as [e He]. by apply (Hraise e).
Qed.

(** C10. An event whose body has user_query with an empty string, or
    any other value that counts as false, gets the 400 that says
    user_query is required, and the handler calls neither the generation
    service nor the signer: the world is as it was. *)
Theorem falsy_query_is_bad_request (request : pyval) (w : World) :
  query_falsy request →
  ∃ resp,
    result (lambda_handler request w) = Ok resp
    ∧ statusCode resp = 400
    ∧ body resp = json_dumps (PDict [("error", PStr "user_query is required")])
    ∧ world_after (lambda_handler request w) = w
    ∧ Forall (λ ev, ¬ is_service_call ev) (events (lambda_handler request w)).
Proof.
  unfold query_falsy. intros Hfalsy.
  pose proof (lambda_handler_run request w) as Hrun.
  destruct (request_body request) as [[| | | | |l|bd]|] eqn:Hbody; try done.
  rewrite (get_request_data_object request w bd Hbody) in Hrun.
  destruct (dict_lookup bd "user_query") as [q|]; [|done].
  simpl in Hrun. rewrite Hfalsy in Hrun. destruct Hrun as (-> & -> & ->).
  eexists. split_and!; [done..|]. repeat constructor. by intros [].
Qed.

(** C5, amended. When the body is an object with a user_query that counts
    as true and the call to the generation service, or the processing of
    its answer, raises [e], the handler returns a 500 whose body has the
    text of [e] under error, the fixed sentence under generated_response,
    an empty detailed_references and under sessionId the session
    identifier of the request, null when the request has none; the text
    of [e] is printed too. *)
Theorem failure_surfaces_the_exception (request : pyval) (w : World)
    (bd : list (string * pyval)) (q : pyval) (e : exn) :
  request_body request = Some (PDict bd) →
  dict_lookup bd "user_query" = Some q →
  truthy q = true →
  let sid := default PNone (dict_lookup bd "sessionId") in
  (client_retrieve_and_generate (retrieve_request q sid) w).1 = Raise e
  ∨ result (answer_query q sid w) = Raise e →
  ∃ resp,
    result (lambda_handler request w) = Ok resp
    ∧ statusCode resp = 500
    ∧ body resp
      = json_dumps
          (PDict [ ("error", PStr (str_exn e));
                   ("generated_response",
                    PStr "An error occurred while processing your request.");
                   ("detailed_references", PList []);
                   ("sessionId", sid) ])
    ∧ EvPrint (Text ("Error in lambda_handler: " +:+ str_exn e))
      ∈ events (lambda_handler request w).
Proof.
  intros Hbody Hq Htruthy sid Hfail.
  assert (result (answer_query q sid w) = Raise e) as Hans.
  { destruct Hfail as [Hcall|Hans]; [|done].
    unfold answer_query. rewrite result_bind. unfold call_retrieve.
    destruct (client_retrieve_and_generate _ w) as [r w1]. simpl in *.
    by rewrite Hcall. }
  pose proof (lambda_handler_run request w) as Hrun.
  rewrite (get_request_data_object request w bd Hbody), Hq in Hrun.
  simpl in Hrun. rewrite Htruthy in Hrun. fold sid in Hrun.
  rewrite Hans in Hrun. destruct Hrun as (-> & _ & ->).
  eexists. split_and!; [done..|].
  rewrite elem_of_cons, elem_of_app. right; right. by left.
Qed.

(** C8. In a 200 response sourceCount is the length of
    detailed_references and generated_response is the text the generation
    service returned; when every call to the signer raised,
    detailed_references is empty and sourceCount is 0. *)
Theorem failed_links_leave_the_answer (request : pyval) (w : World)
    (resp : response) :
  result (lambda_handler request w) = Ok resp →
  statusCode resp = 200 →
  ∃ (refs : list ref) (text : string),
    json_member (body resp) "detailed_references"
    = Some (PList (ref_to_py <$> refs))
    ∧ json_member (body resp) "sourceCount"
      = Some (PInt (Z.of_nat (length refs)))
    ∧ json_member (body resp) "generated_response" = Some (PStr text)
    ∧ (∃ req kb, EvRetrieve req (Ok kb) ∈ events (lambda_handler request w)
                 ∧ output kb ≫= output_text = Some text)
    ∧ ((∀ req res, EvSign req res ∈ events (lambda_handler request w) →
                   ∃ e, res = Raise e) →
       refs = [] ∧ json_member (body resp) "detailed_references"
                   = Some (PList [])
       ∧ json_member (body resp) "sourceCount" = Some (PInt 0)).
Proof.
  intros Hresp Hstatus.
  pose proof (lambda_handler_run request w) as Hrun.
  destruct (result (get_request_data request w)) as [[q sid]|e].
  2:{ destruct Hrun as (Hr & _). rewrite Hr in Hresp.
      injection Hresp as <-. done. }
  destruct (truthy q).
  2:{ destruct Hrun as (Hr & _). rewrite Hr in Hresp.
      injection Hresp as <-. done. }
  destruct Hrun as (Hr & _ & Hev). rewrite Hr in Hresp.
  destruct (result (answer_query q sid w)) as [resp'|e] eqn:Hans.
  2:{ injection Hresp as <-. done. }
  injection Hresp as ->.
  apply answer_query_ok in Hans
    as (kb & w1 & cits & ex & refs & text & now & Hkb & Hcits & Hex & Hrefs
        & Htext & _ & -> & Hevs).
  rewrite Hevs, app_nil_r in Hev.
  assert (refs = survivors ex (sign_results (events (process_s3_urls ex w1))))
    as Hsurv.
  { by apply process_s3_urls_from_ok in Hrefs as (_ & -> & _). }
  exists refs, text. split_and!; [done|done|done| |].
  - exists (retrieve_request q sid), kb. split; [|done].
    rewrite Hev. simpl. right. by left.
  - intros Hfail. assert (refs = []) as ->; [|done].
    rewrite Hsurv. apply survivors_failed. apply Forall_forall.
    intros res [req Hin]%sign_results_elem. apply (Hfail req).
    rewrite Hev. simpl. right. by right.
Qed.

(** Every signer call of a run of the handler asks for the default
    expiration. *)
Lemma lambda_handler_expires (request : pyval) (w : World) :
  Forall (expires_in default_expiration) (events (lambda_handler request w)).
Proof.
  pose proof (lambda_handler_run request w) as Hrun.
  destruct (result (get_request_data request w)) as [[q sid]|e].
  - destruct (truthy q).
    + destruct Hrun as (_ & _ & ->).
      destruct (answer_query_events q sid w) as (res & evs & -> & _ & Hexp & _).
      apply Forall_app. split; [by repeat constructor|].
      apply Forall_app. split; [by constructor|].
      destruct (result (answer_query q sid w)); by repeat constructor.
    + destruct Hrun as (_ & _ & ->). by repeat constructor.
  - destruct Hrun as (_ & _ & ->). by repeat constructor.
Qed.

(** The expiration a 200 response announces is one hour after the clock
    was read. *)
Lemma lambda_handler_announces_one_hour (request : pyval) (w : World)
    (resp : response) :
  result (lambda_handler request w) = Ok resp →
  statusCode resp = 200 →
  ∃ now, json_member (body resp) "urlExpirationTime"
         = Some (PStr (isoformat (now + timedelta_hours 1))).
Proof.
  intros Hresp Hstatus.
  pose proof (lambda_handler_run request w) as Hrun.
  destruct (result (get_request_data request w)) as [[q sid]|e].
  2:{ destruct Hrun as (Hr & _). rewrite Hr in Hresp.
      injection Hresp as <-. done. }
  destruct (truthy q).
  2:{ destruct Hrun as (Hr & _). rewrite Hr in Hresp.
      injection Hresp as <-. done. }
  destruct Hrun as (Hr & _ & _). rewrite Hr in Hresp.
  destruct (result (answer_query q sid w)) as [resp'|e] eqn:Hans.
  2:{ injection Hresp as <-. done. }
  injection Hresp as ->.
  apply answer_query_ok in Hans
    as (kb & w1 & cits & ex & refs & text & now & _ & _ & _ & _ & _ & _
        & -> & _).
  by exists now.
Qed.
End HandlerRuns.

(** ** The handler in the sample deployment *)

(** C4. The enricher does not ask for one hour.  Every call to the
    signer, from the enricher and so from the handler, asks for the
    materializer's default of 1800 seconds, while a 200 response announces
    an expiration one hour after the clock was read.  In the sample
    deployment the question "What is X?" makes two signer calls of 1800
    seconds and is answered with an expiration of 3600 seconds. *)
Theorem enricher_signs_for_half_an_hour :
  (∀ (H : Services) (refs : list ref) (w : World),
     Forall (expires_in 1800) (events (process_s3_urls refs w)))
  ∧ (∀ (H : Services) (request : pyval) (w : World),
       Forall (expires_in 1800) (events (lambda_handler request w))
       ∧ ∀ resp, result (lambda_handler request w) = Ok resp →
                 statusCode resp = 200 →
                 ∃ now, json_member (body resp) "urlExpirationTime"
                        = Some (PStr (isoformat (now + 3600 * 1000000))))
  ∧ sign_requests (events (Demo.handle (Demo.ask "What is X?") 0))
    = [ get_object "locked" "x/secret.pdf" 1800;
        get_object "docs" "x/intro.pdf" 1800 ]
  ∧ ∃ resp, result (Demo.handle (Demo.ask "What is X?") 0) = Ok resp
            ∧ json_member (body resp) "urlExpirationTime"
              = Some (PStr (@isoformat Demo.services
                              (1002 + 3600 * 1000000))).
Proof.
  split_and!.
  - intros H refs w. apply process_s3_urls_from_expires.
  - intros H request w. split; [apply lambda_handler_expires|].
    apply lambda_handler_announces_one_hour.
  - by vm_compute.
  - eexists. split; by vm_compute.
Qed.

Lemma enricher_signs_for_half_an_hour_witness :
  ∃ resp,
    result (Demo.handle (Demo.ask "What is X?") 0) = Ok resp
    ∧ statusCode resp = 200
    ∧ ∃ now, json_member (body resp) "urlExpirationTime"
             = Some (PStr (@isoformat Demo.services (now + 3600 * 1000000))).
Proof.
  eexists. split; [by vm_compute|]. split; [reflexivity|].
  apply (proj2 (proj1 (proj2 enricher_signs_for_half_an_hour)
                  Demo.services (Demo.ask "What is X?") 0));
    by vm_compute.
Defined.

Lemma missing_query_is_bad_request_witness :
  query_missing (H := Demo.services) (PDict [("sessionId", PStr "session-1")])
  ∧ ∃ resp msg,
      result (Demo.handle (PDict [("sessionId", PStr "session-1")]) 0) = Ok resp
      ∧ statusCode resp = 400
      ∧ body resp = json_dumps (PDict [("error", PStr msg)])
      ∧ world_after (Demo.handle (PDict [("sessionId", PStr "session-1")]) 0)
        = 0
      ∧ Forall (λ ev, ¬ is_service_call ev)
          (events (Demo.handle (PDict [("sessionId", PStr "session-1")]) 0)).
Proof.
  split; [reflexivity|].
  apply (@missing_query_is_bad_request Demo.services). reflexivity.
Defined.

Lemma falsy_query_is_bad_request_witness :
  query_falsy (H := Demo.services) (Demo.ask "")
  ∧ ∃ resp,
      result (Demo.handle (Demo.ask "") 0) = Ok resp
      ∧ statusCode resp = 400
      ∧ body resp = json_dumps (PDict [("error", PStr "user_query is required")])
      ∧ world_after (Demo.handle (Demo.ask "") 0) = 0
      ∧ Forall (λ ev, ¬ is_service_call ev) (events (Demo.handle (Demo.ask "") 0)).
Proof.
  split; [reflexivity|].
  apply (@falsy_query_is_bad_request Demo.services). reflexivity.
Defined.

Lemma failure_surfaces_the_exception_witness :
  ∃ resp,
    result (Demo.handle (Demo.ask_in "Why?" "session-9") 0) = Ok resp
    ∧ statusCode resp = 500
    ∧ body resp
      = json_dumps
          (PDict [ ("error", PStr "ThrottlingException: Rate exceeded");
                   ("generated_response",
                    PStr "An error occurred while processing your request.");
                   ("detailed_references", PList []);
                   ("sessionId", PStr "session-9") ])
    ∧ EvPrint (Text "Error in lambda_handler: ThrottlingException: Rate exceeded")
      ∈ events (Demo.handle (Demo.ask_in "Why?" "session-9") 0).
Proof.
  apply (@failure_surfaces_the_exception Demo.services
           (Demo.ask_in "Why?" "session-9") 0
           [("user_query", PStr "Why?"); ("sessionId", PStr "session-9")]
           (PStr "Why?") (ServiceError "ThrottlingException: Rate exceeded"));
    [reflexivity | reflexivity | reflexivity | left; reflexivity].
Defined.

(** C5 as stated fails: the body of the 500 shows the text of the
    exception under error, not only the fixed sentence. *)
Lemma failure_body_shows_the_exception :
  ∃ resp,
    result (Demo.handle (Demo.ask "Why?") 0) = Ok resp
    ∧ statusCode resp = 500
    ∧ json_member (body resp) "error"
      = Some (PStr "ThrottlingException: Rate exceeded")
    ∧ json_member (body resp) "generated_response"
      = Some (PStr "An error occurred while processing your request.").
Proof. eexists. split_and!; by vm_compute. Qed.

Lemma failed_links_leave_the_answer_witness :
  ∃ resp,
    result (Demo.handle (Demo.ask "What is Y?") 0) = Ok resp
    ∧ statusCode resp = 200
    ∧ ∃ (refs : list ref) (text : string),
        json_member (body resp) "detailed_references"
        = Some (PList (ref_to_py <$> refs))
        ∧ json_member (body resp) "sourceCount"
          = Some (PInt (Z.of_nat (length refs)))
        ∧ json_member (body resp) "generated_response" = Some (PStr text)
        ∧ (∃ req kb,
             EvRetrieve req (Ok kb) ∈ events (Demo.handle (Demo.ask "What is Y?") 0)
             ∧ output kb ≫= output_text = Some text)
        ∧ ((∀ req res,
              EvSign req res ∈ events (Demo.handle (Demo.ask "What is Y?") 0) →
              ∃ e, res = Raise e) →
           refs = [] ∧ json_member (body resp) "detailed_references"
                       = Some (PList [])
           ∧ json_member (body resp) "sourceCount" = Some (PInt 0)).
Proof.
  eexists. split; [by vm_compute|]. split; [reflexivity|].
  apply (@failed_links_leave_the_answer Demo.services
           (Demo.ask "What is Y?") 0); by vm_compute.
Defined.

(** * Further properties *)

(** ** The extractor *)

Lemma inner_loop_raise (rs : list Kb.Reference) (acc : list ref)
    (seen : gset string) (e : exn) :
  for_each extract_reference (acc, seen) rs = Raise e → e = KeyError "uri".
Proof.
  revert acc seen. induction rs as [|r rs IH]; intros acc seen Hrun; [done|].
  simpl in Hrun. rewrite extract_reference_unfold in Hrun.
  destruct (storage_location r) as [s3|]; simpl in Hrun; [|by eapply IH].
  destruct (Kb.uri s3) as [u|]; simpl in Hrun; [|by injection Hrun].
  destruct (decide (u ∈ seen)); simpl in Hrun; by eapply IH.
Qed.

Lemma extract_references_raise (cs : list Kb.Citation) (e : exn) :
  extract_references cs = Raise e → e = KeyError "uri".
Proof.
  unfold extract_references. rewrite for_each_citations.
  destruct (for_each extract_reference _ _) as [st|e'] eqn:Hrun; [done|].
  simpl. intros [= <-]. by eapply inner_loop_raise.
Qed.

(** X1. extract_references raises exactly when some storage location lacks a
    uri, and then it raises KeyError('uri'). *)
Theorem extract_references_raises_only_for_missing_uri (cs : list Kb.Citation) :
  (∀ e, extract_references cs = Raise e → e = KeyError "uri")
  ∧ ((∃ out, extract_references cs = Ok out)
     ↔ uris_present (all_references cs)).
Proof.
  split.
  - apply extract_references_raise.
  - split.
    + intros [out Hout]. by apply extract_references_ok in Hout as [_ ?].
    + apply extract_references_total.
Qed.

Lemma difference_insert_seen (u : string) (S seen : gset string) :
  u ∈ seen → ({[u]} ∪ S) ∖ seen = S ∖ seen.
Proof.
  intros Hin. apply set_eq. intros x.
  rewrite !elem_of_difference, elem_of_union, elem_of_singleton.
  split; [|tauto]. intros [[->|?] ?]; [done | tauto].
Qed.

Lemma difference_insert_unseen (u : string) (S seen : gset string) :
  u ∉ seen → ({[u]} ∪ S) ∖ seen = {[u]} ∪ S ∖ ({[u]} ∪ seen).
Proof.
  intros Hnin. apply set_eq. intros x.
  rewrite !elem_of_union, !elem_of_difference, !elem_of_union,
    !elem_of_singleton.
  destruct (decide (x = u)) as [->|Hne]; [tauto|]. tauto.
Qed.

Lemma fresh_entries_length (seen : gset string) (rs : list Kb.Reference) :
  length (fresh_entries seen rs)
  = size (list_to_set (omap storage_uri rs) ∖ seen : gset string).
Proof.
  revert seen. induction rs as [|r rs IH]; intros seen; simpl.
  { rewrite (proj2 (size_empty_iff _)); [done|].
    intros x. rewrite elem_of_difference, !elem_of_empty. tauto. }
  destruct (storage_uri r) as [u|]; simpl; [|apply IH].
  destruct (decide (u ∈ seen)) as [Hin|Hnin].
  - by rewrite IH, difference_insert_seen.
  - simpl. rewrite IH, difference_insert_unseen by done.
    pose proof (@size_union string (gset string) _ _ _ _ _ _ _ _ _) as Hunion.
    pose proof (@size_singleton string (gset string) _ _ _ _ _ _ _ _ _ u)
      as Hone.
    rewrite Hunion; [by rewrite Hone|].
    intros x. rewrite elem_of_singleton, elem_of_difference, elem_of_union,
      elem_of_singleton. tauto.
Qed.

Lemma extract_references_length (cs : list Kb.Citation) (out : list ref) :
  extract_references cs = Ok out → length out = size (cited_uris cs).
Proof.
  intros [-> _]%extract_references_ok.
  rewrite sort_by_score_reverse_perm, fresh_entries_length.
  unfold cited_uris. f_equal. apply set_eq. intros x.
  rewrite elem_of_difference, elem_of_empty. tauto.
Qed.

(** X2. The extractor returns one entry per distinct storage uri. *)
Theorem extract_references_counts_distinct_uris (cs : list Kb.Citation)
    (out : list ref) :
  extract_references cs = Ok out → length out = size (cited_uris cs).
Proof.
  intros [-> _]%extract_references_ok.
  rewrite sort_by_score_reverse_perm, fresh_entries_length.
  unfold cited_uris. f_equal. apply set_eq. intros x.
  rewrite elem_of_difference, elem_of_empty. tauto.
Qed.

(** X3. Grouping of references into citations does not matter. *)
Theorem extract_references_ignores_grouping (cs : list Kb.Citation) :
  extract_references cs
  = extract_references [ {| Kb.retrievedReferences := Some (all_references cs) |} ].
Proof.
  unfold extract_references. rewrite !for_each_citations.
  unfold all_references at 2. simpl. by rewrite app_nil_r.
Qed.

(** *** Whitespace *)

Section Whitespace.
Arguments String.append !s1 s2 : simpl nomatch.

Lemma string_app_assoc (a b c : string) : (a +:+ b) +:+ c = a +:+ b +:+ c.
Proof. induction a as [|x a IH]; simpl; [done|]. by rewrite IH. Qed.

Lemma after_space_spec (s r : string) :
  after_space s = Some r →
  ∃ w, s = w +:+ r ∧ is_space w = true
       ∧ (String.length r < String.length s)%nat.
Proof.
  unfold is_space.
  destruct s as [|c1 [|c2 [|c3 s3]]]; simpl; try done.
  - destruct (is_space1 c1) eqn:H1; [|done].
    intros [= <-]. exists (String c1 ""). simpl. rewrite H1. split_and!; [done|done|lia].
  - destruct (is_space1 c1) eqn:H1.
    { intros [= <-]. exists (String c1 ""). simpl. rewrite H1.
      split_and!; [done|done|lia]. }
    destruct (is_space2 c1 c2) eqn:H2; [|done].
    intros [= <-]. exists (String c1 (String c2 "")). simpl. rewrite H1, H2.
    split_and!; [done|done|lia].
  - destruct (is_space1 c1) eqn:H1.
    { intros [= <-]. exists (String c1 ""). simpl. rewrite H1.
      split_and!; [done|done|lia]. }
    destruct (is_space2 c1 c2) eqn:H2.
    { intros [= <-]. exists (String c1 (String c2 "")). simpl. rewrite H1, H2.
      split_and!; [done|done|lia]. }
    destruct (is_space3 c1 c2 c3) eqn:H3; [|done].
    intros [= <-]. exists (String c1 (String c2 (String c3 ""))). simpl.
    rewrite H1, H2, H3. split_and!; [done|done|lia].
Qed.

Lemma after_space_app (p q r : string) :
  after_space p = Some r → after_space (p +:+ q) = Some (r +:+ q).
Proof.
  destruct p as [|c1 [|c2 [|c3 p3]]]; simpl; try done.
  - destruct (is_space1 c1); [by intros [= <-] | done].
  - destruct (is_space1 c1); [by intros [= <-]|].
    destruct (is_space2 c1 c2); [by intros [= <-] | done].
  - destruct (is_space1 c1); [by intros [= <-]|].
    destruct (is_space2 c1 c2); [by intros [= <-]|].
    destruct (is_space3 c1 c2 c3); [by intros [= <-] | done].
Qed.

Lemma lstrip_unfold (s : string) :
  lstrip s = match after_space s with
             | Some r => lstrip r
             | None => s
             end.
Proof.
  destruct s as [|c1 [|c2 [|c3 s3]]]; simpl; try done.
  - by destruct (is_space1 c1).
  - destruct (is_space1 c1); [done|]. by destruct (is_space2 c1 c2).
  - destruct (is_space1 c1); [done|]. destruct (is_space2 c1 c2); [done|].
    by destruct (is_space3 c1 c2 c3).
Qed.

Lemma all_space_unfold (s : string) :
  all_space s = match s with
                | EmptyString => true
                | _ => match after_space s with
                       | Some r => all_space r
                       | None => false
                       end
                end.
Proof.
  destruct s as [|c1 [|c2 [|c3 s3]]]; simpl; try done.
  - by destruct (is_space1 c1).
  - destruct (is_space1 c1); [done|]. by destruct (is_space2 c1 c2).
  - destruct (is_space1 c1); [done|]. destruct (is_space2 c1 c2); [done|].
    by destruct (is_space3 c1 c2 c3).
Qed.

(** A whitespace character in front of [r]. *)
Lemma all_space_after (w r : string) :
  is_space w = true → all_space (w +:+ r) = all_space r.
Proof.
  unfold is_space. destruct (after_space w) as [[|]|] eqn:Hw; try done.
  intros _. rewrite all_space_unfold.
  rewrite (after_space_app w r "" Hw). simpl.
  destruct w; [done|]. done.
Qed.

Lemma lstrip_spec (s : string) :
  ∃ pre, s = pre +:+ lstrip s ∧ all_space pre = true
         ∧ starts_with_space (lstrip s) = false.
Proof.
  remember (String.length s) as n eqn:Hn. revert s Hn.
  induction n as [n IH] using lt_wf_ind. intros s ->.
  rewrite lstrip_unfold. destruct (after_space s) as [r|] eqn:Ha.
  - apply after_space_spec in Ha as (w & -> & Hw & Hlen).
    destruct (IH _ Hlen r eq_refl) as (pre & Hr & Hpre & Hhd).
    exists (w +:+ pre). split_and!; [|by rewrite all_space_after|done].
    rewrite string_app_assoc. by rewrite <- Hr.
  - exists "". split_and!; [done|done|].
    unfold starts_with_space. by rewrite Ha.
Qed.

Lemma rstrip_cons (c : ascii) (s : string) :
  rstrip (String c s)
  = if all_space (String c s) then "" else String c (rstrip s).
Proof. done. Qed.

Lemma rstrip_spec (s : string) :
  ∃ post, s = rstrip s +:+ post ∧ all_space post = true
          ∧ ends_with_space (rstrip s) = false
          ∧ (starts_with_space s = false → starts_with_space (rstrip s) = false).
Proof.
  induction s as [|c s (post & Hs & Hpost & Htl & _)].
  { by exists "". }
  rewrite rstrip_cons. destruct (all_space (String c s)) eqn:Hall.
  { by exists (String c s). }
  exists post.
  assert (String c s = String c (rstrip s) +:+ post) as Hcs.
  { change (String c s = String c (rstrip s +:+ post)). by rewrite <- Hs. }
  split_and!; [done|done| |].
  - change (is_space (String c (rstrip s)) || ends_with_space (rstrip s)
            = false).
    rewrite Htl, orb_false_r.
    destruct (is_space (String c (rstrip s))) eqn:Hw; [|done].
    rewrite Hcs, (all_space_after _ _ Hw), Hpost in Hall. done.
  - unfold starts_with_space. intros Hhd.
    destruct (after_space (String c (rstrip s))) as [r|] eqn:Ha; [|done].
    apply (after_space_app _ post) in Ha. rewrite <- Hcs in Ha.
    by rewrite Ha in Hhd.
Qed.
End Whitespace.

(** X4. Excerpts are the content text with the whitespace at both ends
    removed and nothing else. *)
Theorem extract_references_trims_excerpts (cs : list Kb.Citation)
    (out : list ref) (e : ref) :
  extract_references cs = Ok out → e ∈ out →
  starts_with_space (snippet e) = false
  ∧ ends_with_space (snippet e) = false
  ∧ ∃ u i r pre post,
      uri e = Some u ∧ first_seen u cs = Some (i, r)
      ∧ default "" (content_text r) = pre +:+ snippet e +:+ post
      ∧ all_space pre = true ∧ all_space post = true.
Proof.
  intros Hrun He.
  destruct (extract_references_elem cs out e Hrun He) as (u & i & r & Hf & ->).
  simpl. unfold strip.
  destruct (lstrip_spec (default "" (content_text r)))
    as (pre & Hs & Hpre & Hhd).
  destruct (rstrip_spec (lstrip (default "" (content_text r))))
    as (post & Hs' & Hpost & Htl & Hkeep).
  split_and!; [by apply Hkeep | done |].
  exists u, i, r, pre, post. split_and!; [done|done| |done|done].
  by rewrite <- Hs', <- Hs.
Qed.

(** ** The enricher *)

Lemma split_dot_first_no_dot (s : string) :
  occurs "." (split_dot_first s) = false.
Proof.
  induction s as [|c s IH]; simpl; [done|].
  destruct (Ascii.eqb c ".") eqn:Hc; simpl; [done|]. by rewrite Hc.
Qed.

Lemma lstrip_slash_no_slash (s : string) :
  starts_with "/" (lstrip_slash s) = false.
Proof.
  induction s as [|c s IH]; simpl; [done|].
  destruct (Ascii.eqb c "/") eqn:Hc; simpl; done.
Qed.

Lemma split_dot_first_prefix (a rest : string) :
  occurs "." a = false → (rest = "" ∨ starts_with "." rest = true) →
  split_dot_first (a +:+ rest) = a.
Proof.
  intros Ha Hrest. induction a as [|c a IH]; simpl in *.
  - destruct Hrest as [->|Hrest]; [done|].
    destruct rest as [|c r]; [done|]. simpl in *. by rewrite Hrest.
  - apply orb_false_iff in Ha as [Hc Ha]. rewrite Hc. f_equal. by apply IH.
Qed.

Lemma lstrip_slash_key (k : string) :
  starts_with "/" k = false → lstrip_slash ("/" +:+ k) = k.
Proof.
  intros Hk. simpl. destruct k as [|c k]; [done|]. simpl in *. by rewrite Hk.
Qed.

Section EnricherExtras.
Context `{Services}.

Arguments generate_presigned_url : simpl never.

Lemma generate_presigned_url_events (bucket key : string) (expiration : Z)
    (w : World) :
  ∃ res w',
    s3_client_generate_presigned_url (get_object bucket key expiration) w
    = (res, w')
    ∧ result (generate_presigned_url bucket key expiration w)
      = Ok (match res with Ok url => Some url | Raise _ => None end)
    ∧ events (generate_presigned_url bucket key expiration w)
      = EvSign (get_object bucket key expiration) res
        :: match signing_error_line res with
           | Some m => [EvPrint m]
           | None => []
           end.
Proof.
  unfold generate_presigned_url.
  rewrite result_try_except, events_try_except, result_bind, events_bind.
  unfold call_sign, get_object. simpl.
  destruct (s3_client_generate_presigned_url _ w) as [[url|e] w']; simpl;
    by eexists _, _.
Qed.

(** The trace of the enricher's loop: for each reference with a uri, in
    order, the signer call and, if it raised, the line that says so. *)
Lemma process_s3_urls_from_trace (refs : list ref) (acc : list ref)
    (w : World) :
  Forall parses refs →
  sign_requests (events (process_s3_urls_from acc refs w))
  = omap sign_request_of refs
  ∧ printed (events (process_s3_urls_from acc refs w))
    = omap signing_error_line
        (sign_results (events (process_s3_urls_from acc refs w))).
Proof.
  intros Hps. revert acc w.
  induction Hps as [|r rest Hp Hps IH]; intros acc w; [done|].
  simpl. unfold parses in Hp. unfold sign_request_of at 1.
  destruct (uri r) as [u|]; simpl; [|apply IH].
  rewrite events_bind. simpl.
  destruct (urlparse u) as [parsed|e]; [|done]. simpl.
  rewrite events_bind.
  destruct (generate_presigned_url_events (split_dot_first (netloc parsed))
              (lstrip_slash (path parsed)) default_expiration w)
    as (res & w' & _ & -> & ->).
  unfold sign_requests, sign_results, printed in *.
  destruct res as [url|e]; simpl;
    try (match goal with
         | |- context [if ?b then _ else _] => destruct b
         end);
    (match goal with
     | |- context [process_s3_urls_from ?a rest ?w'] =>
         destruct (IH a w') as [IH1 IH2]
     end);
    rewrite ?omap_app; simpl;
    (split; [apply (f_equal (cons _)), IH1
            | try apply (f_equal (cons _)); apply IH2]).
Qed.

Lemma process_s3_urls_sign_requests (refs : list ref) (w : World) :
  Forall parses refs →
  sign_requests (events (process_s3_urls refs w)) = omap sign_request_of refs.
Proof.
  intros Hps. unfold process_s3_urls.
  by destruct (process_s3_urls_from_trace refs [] w Hps) as [-> _].
Qed.

(** X5. When [urlparse] accepts the uris, the enricher calls the signer once
    for each reference that has a uri, in input order: get_object with inline
    disposition, the default expiration, the netloc up to its first dot as
    bucket and the path without its leading slashes as key. *)
Theorem process_s3_urls_signs_each_reference_once (refs : list ref)
    (w : World) :
  Forall parses refs →
  sign_requests (events (process_s3_urls refs w)) = omap sign_request_of refs
  ∧ Forall (λ req, ClientMethod req = "get_object"
                   ∧ ResponseContentDisposition req = "inline"
                   ∧ ExpiresIn req = 1800
                   ∧ occurs "." (Bucket req) = false
                   ∧ starts_with "/" (Key req) = false)
      (sign_requests (events (process_s3_urls refs w))).
Proof.
  intros Hps. rewrite process_s3_urls_sign_requests by done.
  split; [done|]. apply Forall_forall. intros req Hreq.
  apply list_elem_of_omap in Hreq as (r & _ & Hr).
  unfold sign_request_of in Hr. destruct (uri r) as [u|]; [|done].
  simpl in Hr. destruct (urlparse u) as [p|e]; [|done].
  injection Hr as <-. simpl. split_and!; [done|done|done| |].
  - apply split_dot_first_no_dot.
  - apply lstrip_slash_no_slash.
Qed.

(** X6. A uri whose netloc is a bucket name without dots, alone or followed
    by a dotted host, and whose path is a slash and a key is signed for
    that bucket and that key. *)
Theorem process_s3_urls_signs_bucket_and_key (r : ref) (w : World)
    (u b rest k : string) :
  uri r = Some u →
  urlparse u = Ok {| netloc := b +:+ rest; path := "/" +:+ k |} →
  occurs "." b = false →
  rest = "" ∨ starts_with "." rest = true →
  starts_with "/" k = false →
  sign_requests (events (process_s3_urls [r] w)) = [get_object b k 1800].
Proof.
  intros Hu Hparse Hb Hrest Hk.
  rewrite process_s3_urls_sign_requests.
  2:{ constructor; [|constructor]. unfold parses. by rewrite Hu, Hparse. }
  change (omap sign_request_of [r])
    with (match sign_request_of r with Some req => [req] | None => [] end).
  unfold sign_request_of. rewrite Hu. cbn [mbind option_bind].
  rewrite Hparse. cbn [netloc path].
  by rewrite split_dot_first_prefix, lstrip_slash_key.
Qed.

(** X7. The enricher prints one line for each signer call that raised, with
    the text of the exception, in the order of the calls, and nothing
    else. *)
Theorem process_s3_urls_prints_failures (refs : list ref) (w : World) :
  Forall parses refs →
  printed (events (process_s3_urls refs w))
  = omap signing_error_line (sign_results (events (process_s3_urls refs w))).
Proof.
  intros Hps. unfold process_s3_urls.
  by destruct (process_s3_urls_from_trace refs [] w Hps) as [_ ->].
Qed.
End EnricherExtras.

(** ** The handler *)

Section HandlerExtras.
Context `{Services}.

Arguments process_s3_urls : simpl never.
Arguments extract_references : simpl never.
Arguments retrieve_request : simpl never.
Arguments create_response : simpl never.
Arguments response_body : simpl never.
Arguments error_body : simpl never.
Arguments py_get : simpl never.

(** [answer_query] step by step: what it returns and its trace, by cases on
    what the service, the extractor and the enricher gave. *)
Lemma answer_query_run (q sid : pyval) (w : World) :
  ∃ res w1,
    client_retrieve_and_generate (retrieve_request q sid) w = (res, w1)
    ∧ match res with
      | Raise e =>
          result (answer_query q sid w) = Raise e
          ∧ events (answer_query q sid w)
            = [EvRetrieve (retrieve_request q sid) res]
      | Ok kb =>
          match citations kb with
          | None =>
              result (answer_query q sid w) = Raise (KeyError "citations")
              ∧ events (answer_query q sid w)
                = [EvRetrieve (retrieve_request q sid) res]
          | Some cits =>
              match extract_references cits with
              | Raise e =>
                  result (answer_query q sid w) = Raise e
                  ∧ events (answer_query q sid w)
                    = [EvRetrieve (retrieve_request q sid) res]
              | Ok ex =>
                  events (answer_query q sid w)
                  = EvRetrieve (retrieve_request q sid) res
                    :: events (process_s3_urls ex w1)
                  ∧ result (answer_query q sid w)
                    = match result (process_s3_urls ex w1) with
                      | Raise e => Raise e
                      | Ok refs =>
                          match output kb with
                          | None => Raise (KeyError "output")
                          | Some out =>
                              match output_text out with
                              | None => Raise (KeyError "text")
                              | Some text =>
                                  Ok (create_response 200
                                        (response_body text refs
                                           (isoformat
                                              ((datetime_utcnow
                                                  (world_after
                                                     (process_s3_urls ex w1))).1
                                               + timedelta_hours 1))
                                           (kb_sessionId kb)))
                              end
                          end
                      end
              end
          end
      end.
Proof.
  unfold answer_query. rewrite result_bind, events_bind. unfold call_retrieve.
  destruct (client_retrieve_and_generate _ w) as [res w1] eqn:Hkb.
  exists res, w1. split; [done|]. simpl.
  destruct res as [kb|e]; [|done].
  rewrite result_bind, events_bind.
  destruct (citations kb) as [cits|]; simpl; [|done].
  rewrite result_bind, events_bind. simpl.
  destruct (extract_references cits) as [ex|e]; simpl; [|done].
  rewrite result_bind, events_bind.
  destruct (result (process_s3_urls ex w1)) as [refs|e]; [|done].
  rewrite result_bind, events_bind.
  destruct (output kb) as [out|]; simpl; [|by rewrite app_nil_r].
  rewrite result_bind, events_bind.
  destruct (output_text out) as [text|]; simpl; [|by rewrite app_nil_r].
  rewrite result_bind, events_bind. unfold utcnow.
  destruct (datetime_utcnow _) as [now w2]. simpl.
  by rewrite !app_nil_r.
Qed.

Lemma retrieve_calls_app (evs1 evs2 : list event) :
  retrieve_calls (evs1 ++ evs2) = retrieve_calls evs1 ++ retrieve_calls evs2.
Proof. apply omap_app. Qed.

Lemma sign_requests_app (evs1 evs2 : list event) :
  sign_requests (evs1 ++ evs2) = sign_requests evs1 ++ sign_requests evs2.
Proof. apply omap_app. Qed.

Lemma retrieve_calls_none (evs : list event) :
  (∀ req res, EvRetrieve req res ∉ evs) → retrieve_calls evs = [].
Proof.
  induction evs as [|ev evs IH]; intros Hno; [done|].
  assert (retrieve_calls evs = []) as Hrest.
  { apply IH. intros req res Hin. apply (Hno req res). by right. }
  destruct ev as [m|req res|req res]; simpl; [done|done|].
  exfalso. apply (Hno req res). by left.
Qed.

Lemma process_s3_urls_retrieve_calls (refs : list ref) (w : World) :
  retrieve_calls (events (process_s3_urls refs w)) = [].
Proof.
  apply retrieve_calls_none. intros req res.
  apply process_s3_urls_from_no_retrieve.
Qed.

(** The calls to the generation service in the trace of [answer_query]:
    the one it starts with. *)
Lemma answer_query_retrieve_calls (q sid : pyval) (w : World) :
  retrieve_calls (events (answer_query q sid w))
  = [(retrieve_request q sid,
      (client_retrieve_and_generate (retrieve_request q sid) w).1)].
Proof.
  destruct (answer_query_run q sid w) as (res & w1 & Hkb & Hrun).
  rewrite Hkb. simpl.
  destruct res as [kb|e]; [|by destruct Hrun as [_ ->]].
  destruct (citations kb) as [cits|]; [|by destruct Hrun as [_ ->]].
  destruct (extract_references cits) as [ex|e]; [|by destruct Hrun as [_ ->]].
  destruct Hrun as [-> _]. simpl.
  by rewrite process_s3_urls_retrieve_calls.
Qed.

(** The trace of the handler on a request it answers. *)
Lemma lambda_handler_answers (request : pyval) (w : World)
    (bd : list (string * pyval)) (q : pyval) :
  request_body request = Some (PDict bd) →
  dict_lookup bd "user_query" = Some q →
  truthy q = true →
  let sid := default PNone (dict_lookup bd "sessionId") in
  result (lambda_handler request w)
  = match result (answer_query q sid w) with
    | Ok resp => Ok resp
    | Raise e => Ok (create_response 500 (error_body e sid))
    end
  ∧ events (lambda_handler request w)
    = received request ++ events (answer_query q sid w)
      ++ match result (answer_query q sid w) with
         | Ok _ => []
         | Raise e =>
             [EvPrint (Text ("Error in lambda_handler: " +:+ str_exn e))]
         end.
Proof.
  intros Hbody Hq Htruthy sid.
  pose proof (lambda_handler_run request w) as Hrun.
  rewrite (get_request_data_object request w bd Hbody), Hq in Hrun.
  simpl in Hrun. rewrite Htruthy in Hrun. fold sid in Hrun.
  by destruct Hrun as (-> & _ & ->).
Qed.

(** X8. On a request with a user_query that counts as true the handler
    calls the generation service exactly once; the request it sends has the
    query as input text, the session id of the request under sessionId when
    that counts as true and no sessionId otherwise, and beside these only
    the retrieval configuration. *)
Theorem handler_forwards_query_and_session (request : pyval) (w : World)
    (bd : list (string * pyval)) (q : pyval) :
  request_body request = Some (PDict bd) →
  dict_lookup bd "user_query" = Some q →
  truthy q = true →
  let sid := default PNone (dict_lookup bd "sessionId") in
  ∃ req,
    retrieve_calls (events (lambda_handler request w))
    = [(req, (client_retrieve_and_generate req w).1)]
    ∧ py_member req "input" = Some (PDict [("text", q)])
    ∧ py_member req "sessionId" = (if truthy sid then Some sid else None)
    ∧ py_keys req
      = ["input"; "retrieveAndGenerateConfiguration"]
        ++ (if truthy sid then ["sessionId"] else []).
Proof.
  intros Hbody Hq Htruthy sid.
  destruct (lambda_handler_answers request w bd q Hbody Hq Htruthy)
    as [_ Hev]. fold sid in Hev.
  exists (retrieve_request q sid). split_and!.
  - rewrite Hev, !retrieve_calls_app, answer_query_retrieve_calls.
    simpl. by destruct (result (answer_query q sid w)).
  - done.
  - unfold retrieve_request. simpl. by destruct (truthy sid).
  - unfold retrieve_request. simpl. by destruct (truthy sid).
Qed.

(** The handler by cases, with the trace after its first line spelled
    out. *)
Lemma lambda_handler_trace (request : pyval) (w : World) :
  ∃ tail,
    events (lambda_handler request w) = received request ++ tail
    ∧ ((∀ ev, ev ∈ tail → ¬ is_service_call ev)
       ∨ ∃ q sid,
           tail = events (answer_query q sid w)
                  ++ match result (answer_query q sid w) with
                     | Ok _ => []
                     | Raise e =>
                         [EvPrint (Text ("Error in lambda_handler: "
                                         +:+ str_exn e))]
                     end).
Proof.
  pose proof (lambda_handler_run request w) as Hrun.
  destruct (result (get_request_data request w)) as [[q sid]|e].
  - destruct (truthy q).
    + destruct Hrun as (_ & _ & ->). eexists. split; [done|].
      right. by exists q, sid.
    + destruct Hrun as (_ & _ & ->). exists []. rewrite app_nil_r.
      split; [done|]. left. intros ev Hev. by apply elem_of_nil in Hev.
  - destruct Hrun as (_ & _ & ->). eexists. split; [done|]. left.
    intros ev [->|Hev%elem_of_nil]%elem_of_cons; [by intros []|done].
Qed.

(** X9. Whatever the event, the handler calls the generation service at most
    once, and every call it makes to the signer comes after a call to the
    generation service that returned. *)
Theorem handler_calls_the_service_once_and_first (request : pyval)
    (w : World) :
  (length (retrieve_calls (events (lambda_handler request w))) ≤ 1)%nat
  ∧ ∀ i req res,
      events (lambda_handler request w) !! i = Some (EvSign req res) →
      ∃ j req' kb,
        (j < i)%nat
        ∧ events (lambda_handler request w) !! j = Some (EvRetrieve req' (Ok kb)).
Proof.
  destruct (lambda_handler_trace request w) as (tail & Hev & [Hno|Hans]).
  - rewrite Hev. split.
    + rewrite retrieve_calls_app, (retrieve_calls_none tail); [simpl; lia|].
      intros req res Hin. by apply (Hno _ Hin).
    + intros i req res Hi. exfalso.
      destruct i as [|i]; [done|]. simpl in Hi.
      apply list_elem_of_lookup_2 in Hi. by apply (Hno _ Hi).
  - destruct Hans as (q & sid & ->). rewrite Hev. split.
    + rewrite !retrieve_calls_app, answer_query_retrieve_calls. simpl.
      destruct (result (answer_query q sid w)); simpl; lia.
    + intros i req res Hi.
      destruct i as [|i]; [done|]. simpl in Hi.
      destruct (answer_query_run q sid w) as (r & w1 & Hkb & Hrun).
      assert (∀ l : list event,
                (l ++ match result (answer_query q sid w) with
                      | Ok _ => []
                      | Raise e =>
                          [EvPrint (Text ("Error in lambda_handler: "
                                          +:+ str_exn e))]
                      end) !! i = Some (EvSign req res) →
                l !! i = Some (EvSign req res)) as Hstrip.
      { intros l Hl. apply lookup_app_Some in Hl as [Hl|[_ Hl]]; [done|].
        destruct (result (answer_query q sid w)); [done|].
        by destruct (i - length l)%nat. }
      destruct r as [kb|e].
      2:{ destruct Hrun as [_ Hevs]. rewrite Hevs in Hi.
          apply Hstrip in Hi. by destruct i. }
      assert (∀ rest,
                events (answer_query q sid w)
                = EvRetrieve (retrieve_request q sid) (Ok kb) :: rest →
                ∃ j req' kb',
                  (j < S i)%nat
                  ∧ (received request ++ events (answer_query q sid w)
                     ++ match result (answer_query q sid w) with
                        | Ok _ => []
                        | Raise e =>
                            [EvPrint (Text ("Error in lambda_handler: "
                                            +:+ str_exn e))]
                        end) !! j = Some (EvRetrieve req' (Ok kb'))) as Hfound.
      { intros rest Hevs. rewrite Hevs in Hi |- *. apply Hstrip in Hi.
        destruct i as [|i]; [done|].
        exists 1%nat, (retrieve_request q sid), kb. split; [lia|done]. }
      destruct (citations kb) as [cits|]; [|by destruct Hrun as [_ ?]; eauto].
      destruct (extract_references cits) as [ex|e];
        [|by destruct Hrun as [_ ?]; eauto].
      destruct Hrun as [? _]. eauto.
Qed.

(** What a 200 response is made of. *)
Lemma lambda_handler_success (request : pyval) (w : World) (resp : response) :
  result (lambda_handler request w) = Ok resp →
  statusCode resp = 200 →
  ∃ q sid kb w1 cits ex refs text now,
    client_retrieve_and_generate (retrieve_request q sid) w = (Ok kb, w1)
    ∧ citations kb = Some cits
    ∧ extract_references cits = Ok ex
    ∧ result (process_s3_urls ex w1) = Ok refs
    ∧ output kb ≫= output_text = Some text
    ∧ resp = create_response 200
               (response_body text refs (isoformat (now + timedelta_hours 1))
                  (kb_sessionId kb))
    ∧ events (lambda_handler request w)
      = received request
        ++ EvRetrieve (retrieve_request q sid) (Ok kb)
           :: events (process_s3_urls ex w1).
Proof.
  intros Hresp Hstatus.
  pose proof (lambda_handler_run request w) as Hrun.
  destruct (result (get_request_data request w)) as [[q sid]|e].
  2:{ destruct Hrun as (Hr & _). rewrite Hr in Hresp.
      injection Hresp as <-. done. }
  destruct (truthy q).
  2:{ destruct Hrun as (Hr & _). rewrite Hr in Hresp.
      injection Hresp as <-. done. }
  destruct Hrun as (Hr & _ & Hev). rewrite Hr in Hresp.
  destruct (result (answer_query q sid w)) as [resp'|e] eqn:Hans.
  2:{ injection Hresp as <-. done. }
  injection Hresp as ->.
  apply answer_query_ok in Hans
    as (kb & w1 & cits & ex & refs & text & now & Hkb & Hcits & Hex & Hrefs
        & Htext & _ & -> & Hevs).
  rewrite Hevs, app_nil_r in Hev.
  by exists q, sid, kb, w1, cits, ex, refs, text, now.
Qed.

(** X10. The sessionId of a 200 response is the session id the generation
    service returned, null when it returned none. *)
Theorem success_returns_the_service_session (request : pyval) (w : World)
    (resp : response) :
  result (lambda_handler request w) = Ok resp →
  statusCode resp = 200 →
  ∃ req kb,
    retrieve_calls (events (lambda_handler request w)) = [(req, Ok kb)]
    ∧ json_member (body resp) "sessionId"
      = Some (opt_to_py PStr (kb_sessionId kb)).
Proof.
  intros Hresp Hstatus.
  destruct (lambda_handler_success request w resp Hresp Hstatus)
    as (q & sid & kb & w1 & cits & ex & refs & text & now & _ & _ & _ & _ & _
        & -> & ->).
  exists (retrieve_request q sid), kb. split; [|done].
  rewrite retrieve_calls_app. simpl.
  by rewrite process_s3_urls_retrieve_calls.
Qed.

(** What [get_request_data] returns is read off the request body. *)
Lemma get_request_data_of_body (request : pyval) (w : World) (b : pyval) :
  request_body request = Some b →
  result (get_request_data request w)
  = bind_result (py_get b "user_query")
      (λ q, bind_result (py_get b "sessionId") (λ sid, Ok (q, sid))).
Proof.
  intros Hbody. destruct (get_request_data_run request w) as (_ & -> & _).
  destruct (get_request_data_body_run request w) as (_ & _ & Hres).
  by rewrite Hbody in Hres.
Qed.

(** X11. The answer depends on the event through its request body only: two
    events with the same body, handed over directly, under 'body' or as a
    string under 'body', get the same response, leave the same world and
    make the same calls; only the first line printed differs. *)
Theorem handler_reads_only_the_body (r1 r2 : pyval) (b : pyval) (w : World) :
  request_body r1 = Some b →
  request_body r2 = Some b →
  result (lambda_handler r1 w) = result (lambda_handler r2 w)
  ∧ world_after (lambda_handler r1 w) = world_after (lambda_handler r2 w)
  ∧ drop 1 (events (lambda_handler r1 w)) = drop 1 (events (lambda_handler r2 w)).
Proof.
  intros H1 H2.
  pose proof (lambda_handler_run r1 w) as Hrun1.
  pose proof (lambda_handler_run r2 w) as Hrun2.
  rewrite (get_request_data_of_body r1 w b H1) in Hrun1.
  rewrite (get_request_data_of_body r2 w b H2) in Hrun2.
  destruct (bind_result _ _) as [[q sid]|e].
  - destruct (truthy q).
    + destruct Hrun1 as (-> & -> & ->), Hrun2 as (-> & -> & ->). done.
    + destruct Hrun1 as (-> & -> & ->), Hrun2 as (-> & -> & ->). done.
  - destruct Hrun1 as (-> & -> & ->), Hrun2 as (-> & -> & ->). done.
Qed.

(** X12. An event that is not an object is refused with a 400 that says
    "Invalid event format"; the same text is printed. *)
Theorem non_object_event_is_refused (request : pyval) (w : World) :
  (∀ d, request ≠ PDict d) →
  result (lambda_handler request w)
  = Ok (create_response 400
          (PDict [("error",
                   PStr "Error processing request: Invalid event format")]))
  ∧ printed (events (lambda_handler request w))
    = [ TextJson "Received event: " (json_dumps request);
        Text "Error in get_request_data: Invalid event format" ].
Proof.
  intros Hnot.
  pose proof (lambda_handler_run request w) as Hrun.
  destruct (get_request_data_run request w) as (_ & Hres & _).
  assert (result (get_request_data_body request w)
          = Raise (ValueError "Invalid event format")) as Hbody.
  { unfold get_request_data_body. rewrite result_bind. simpl.
    rewrite result_bind.
    destruct request as [| | | | |l|d]; try done. by destruct (Hnot d). }
  rewrite Hres, Hbody in Hrun. by destruct Hrun as (-> & _ & ->).
Qed.

(** X13. A request body that is not an object is refused with a 400 whose
    error text names the Python type of the body: it has no attribute
    'get'. *)
Theorem non_object_body_is_refused (request : pyval) (w : World) (b : pyval) :
  request_body request = Some b →
  (∀ d, b ≠ PDict d) →
  result (lambda_handler request w)
  = Ok (create_response 400
          (PDict [("error",
                   PStr ("Error processing request: '" +:+ type_name b
                         +:+ "' object has no attribute 'get'"))])).
Proof.
  intros Hbody Hnot.
  pose proof (lambda_handler_run request w) as Hrun.
  rewrite (get_request_data_of_body request w b Hbody) in Hrun.
  assert (py_get b "user_query"
          = Raise (AttributeError ("'" +:+ type_name b
                                   +:+ "' object has no attribute 'get'")))
    as Hget.
  { destruct b as [| | | | |l|d]; try done. by destruct (Hnot d). }
  rewrite Hget in Hrun. simpl in Hrun. by destruct Hrun as (-> & _).
Qed.

(** X14. When the answer of the service has no citations, or has a storage
    location without a uri, the handler returns a 500 whose error text is
    the missing key in quotes, and it makes no call to the signer. *)
Theorem failure_before_enrichment_signs_nothing (request : pyval) (w : World)
    (bd : list (string * pyval)) (q : pyval) (kb : kb_response) (w1 : World) :
  request_body request = Some (PDict bd) →
  dict_lookup bd "user_query" = Some q →
  truthy q = true →
  let sid := default PNone (dict_lookup bd "sessionId") in
  client_retrieve_and_generate (retrieve_request q sid) w = (Ok kb, w1) →
  match citations kb with
  | None => True
  | Some cits => ¬ uris_present (all_references cits)
  end →
  ∃ resp,
    result (lambda_handler request w) = Ok resp
    ∧ statusCode resp = 500
    ∧ json_member (body resp) "error"
      = Some (PStr (match citations kb with
                    | None => "'citations'"
                    | Some _ => "'uri'"
                    end))
    ∧ json_member (body resp) "detailed_references" = Some (PList [])
    ∧ sign_requests (events (lambda_handler request w)) = [].
Proof.
  intros Hbody Hq Htruthy sid Hkb Hbad.
  destruct (lambda_handler_answers request w bd q Hbody Hq Htruthy)
    as [Hres Hev]. fold sid in Hres, Hev.
  destruct (answer_query_run q sid w) as (res & w1' & Hkb' & Hrun).
  rewrite Hkb in Hkb'. injection Hkb' as <- <-.
  assert (∃ e, result (answer_query q sid w) = Raise e
               ∧ events (answer_query q sid w)
                 = [EvRetrieve (retrieve_request q sid) (Ok kb)]
               ∧ str_exn e = match citations kb with
                             | None => "'citations'"
                             | Some _ => "'uri'"
                             end) as (e & Hans & Hevs & Hstr).
  { destruct (citations kb) as [cits|]; [|by destruct Hrun; eauto].
    destruct (extract_references cits) as [ex|e] eqn:Hex.
    - destruct Hbad.
      by apply extract_references_ok in Hex as [_ ?].
    - destruct Hrun as [? ?]. exists e. split_and!; [done|done|].
      by rewrite (extract_references_raise cits e Hex). }
  rewrite Hans in Hres, Hev. rewrite Hevs in Hev.
  eexists. split; [done|]. rewrite Hev. split_and!; [done| |done|done].
  simpl. by rewrite Hstr.
Qed.

(** X15. The generated text is read after the links are signed: when the
    answer of the service has no output, or an output without text, the
    handler returns a 500 naming the missing key, and the signer has been
    called for every extracted reference all the same. *)
Theorem missing_output_fails_after_signing (request : pyval) (w : World)
    (bd : list (string * pyval)) (q : pyval) (kb : kb_response) (w1 : World)
    (cits : list Kb.Citation) (ex : list ref) :
  request_body request = Some (PDict bd) →
  dict_lookup bd "user_query" = Some q →
  truthy q = true →
  let sid := default PNone (dict_lookup bd "sessionId") in
  client_retrieve_and_generate (retrieve_request q sid) w = (Ok kb, w1) →
  citations kb = Some cits →
  extract_references cits = Ok ex →
  Forall parses ex →
  output kb ≫= output_text = None →
  ∃ resp,
    result (lambda_handler request w) = Ok resp
    ∧ statusCode resp = 500
    ∧ json_member (body resp) "error"
      = Some (PStr (match output kb with
                    | None => "'output'"
                    | Some _ => "'text'"
                    end))
    ∧ sign_requests (events (lambda_handler request w))
      = omap sign_request_of ex.
Proof.
  intros Hbody Hq Htruthy sid Hkb Hcits Hex Hps Hout.
  destruct (lambda_handler_answers request w bd q Hbody Hq Htruthy)
    as [Hres Hev]. fold sid in Hres, Hev.
  destruct (answer_query_run q sid w) as (res & w1' & Hkb' & Hrun).
  rewrite Hkb in Hkb'. injection Hkb' as <- <-.
  rewrite Hcits, Hex in Hrun. destruct Hrun as [Hevs Hans].
  destruct (process_s3_urls_from_total ex [] w1 Hps) as [refs Hrefs].
  fold (process_s3_urls ex) in Hrefs. rewrite Hrefs in Hans.
  assert (∃ e, result (answer_query q sid w) = Raise e
               ∧ str_exn e = match output kb with
                             | None => "'output'"
                             | Some _ => "'text'"
                             end) as (e & He & Hstr).
  { destruct (output kb) as [out|]; [|by eauto].
    simpl in Hout. rewrite Hout in Hans. by eauto. }
  rewrite He in Hres, Hev. rewrite Hevs in Hev.
  eexists. split; [done|]. split_and!; [done| |].
  - simpl. by rewrite Hstr.
  - rewrite Hev. rewrite !sign_requests_app. simpl.
    rewrite app_nil_r. by apply process_s3_urls_sign_requests.
Qed.

Lemma survivors_elem (refs : list ref) (results : list (pyresult string))
    (o : ref) :
  o ∈ survivors refs results → ∃ r, r ∈ refs ∧ core o = core r.
Proof.
  revert results. induction refs as [|r refs IH]; intros results Ho.
  { unfold survivors in Ho. simpl in Ho. by apply elem_of_nil in Ho. }
  assert (o ∈ survivors refs (tail results) ∨ o ∈ survivors refs results →
          ∃ r', r' ∈ r :: refs ∧ core o = core r') as Hrest.
  { intros [Hin|Hin]; apply IH in Hin as (r' & Hr' & Hcore);
      exists r'; (split; [by right | done]). }
  destruct (uri r) as [u|] eqn:Hu.
  - destruct results as [|res results].
    { rewrite survivors_nil in Ho. by apply elem_of_nil in Ho. }
    rewrite survivors_step in Ho by (by rewrite Hu).
    destruct res as [url|e]; simpl in Ho; [|by apply Hrest; left].
    destruct (String.eqb url ""); [by apply Hrest; left|].
    apply elem_of_cons in Ho as [->|Ho]; [|by apply Hrest; left].
    exists r. split; [by left | done].
  - rewrite survivors_skip in Ho by done. apply Hrest. by right.
Qed.

Lemma survivors_sorted (refs : list ref) (results : list (pyresult string)) :
  StronglySorted score_ge refs →
  StronglySorted score_ge (survivors refs results).
Proof.
  intros Hs. revert results.
  induction Hs as [|r refs Hs IH Hall]; intros results.
  { unfold survivors. simpl. constructor. }
  destruct (uri r) as [u|] eqn:Hu.
  - destruct results as [|res results].
    { rewrite survivors_nil. constructor. }
    rewrite survivors_step by (by rewrite Hu).
    destruct res as [url|e]; simpl; [|apply IH].
    destruct (String.eqb url ""); [apply IH|].
    constructor; [apply IH|]. apply Forall_forall.
    intros o (r' & Hr' & Hcore)%survivors_elem.
    rewrite Forall_forall in Hall. specialize (Hall r' Hr').
    unfold score_ge, core in *. simpl. by injection Hcore as _ _ ->.
  - rewrite survivors_skip by done. apply IH.
Qed.

Lemma survivors_NoDup (refs : list ref) (results : list (pyresult string)) :
  NoDup (uri <$> refs) → NoDup (uri <$> survivors refs results).
Proof.
  intros Hnd.
  assert (∀ l : list ref, uri <$> l = (λ c, c.1.1) <$> (core <$> l)) as Huri.
  { intros l. by rewrite <- list_fmap_compose. }
  rewrite Huri in Hnd |- *.
  apply (sublist_NoDup _ ((λ c, c.1.1) <$> (core <$> refs)));
    [exact Hnd | apply fmap_sublist, survivors_sublist].
Qed.

Lemma extract_references_scores_ordered (cs : list Kb.Citation)
    (out : list ref) :
  extract_references cs = Ok out →
  scores_not_nan (all_references cs) → scores_ordered out.
Proof.
  intros Hrun Hn. apply Forall_forall. intros e He.
  destruct (extract_references_elem cs out e Hrun He) as (u & i & r & Hf & ->).
  apply first_stored_at_elem in Hf as [Hr _].
  apply (Forall_lookup_1 _ _ _ _ Hn) in Hr. simpl.
  destruct (Kb.score r) as [[| | |]|]; done.
Qed.

(** X16. No two of the detailed_references of a 200 response have the same
    uri, and when none of the scores in the answer of the service is nan
    they are in descending order of score. *)
Theorem success_references_are_ranked_and_distinct (request : pyval)
    (w : World) (resp : response) :
  result (lambda_handler request w) = Ok resp →
  statusCode resp = 200 →
  ∃ refs,
    json_member (body resp) "detailed_references"
    = Some (PList (ref_to_py <$> refs))
    ∧ NoDup (uri <$> refs)
    ∧ ((∀ req kb cits,
          EvRetrieve req (Ok kb) ∈ events (lambda_handler request w) →
          citations kb = Some cits →
          scores_not_nan (all_references cits)) →
       StronglySorted score_ge refs).
Proof.
  intros Hresp Hstatus.
  destruct (lambda_handler_success request w resp Hresp Hstatus)
    as (q & sid & kb & w1 & cits & ex & refs & text & now & _ & Hcits & Hex
        & Hrefs & _ & -> & Hev).
  exists refs. split; [done|].
  apply process_s3_urls_from_ok in Hrefs as (_ & -> & _). simpl. split.
  - apply extract_references_ok in Hex as [-> _].
    apply survivors_NoDup. rewrite sort_by_score_reverse_perm.
    apply fresh_entries_NoDup.
  - intros Hn. apply survivors_sorted.
    assert (scores_ordered ex) as Hord.
    { apply (extract_references_scores_ordered cits); [done|].
      apply (Hn (retrieve_request q sid) kb); [|done].
      rewrite Hev. apply elem_of_app. right. by left. }
    apply extract_references_ok in Hex as [-> _].
    apply sort_by_score_reverse_sorted. unfold scores_ordered in *.
    by rewrite sort_by_score_reverse_perm in Hord.
Qed.

Lemma filter_all {A : Type} (P : A → Prop) `{!∀ x, Decision (P x)}
    (l : list A) :
  Forall P l → filter P l = l.
Proof.
  induction 1 as [|x l Hx _ IH]; [done|].
  by rewrite filter_cons_True, IH.
Qed.

Lemma survivors_all (refs : list ref) (results : list (pyresult string)) :
  Forall (λ r, is_Some (uri r)) refs →
  length results = length refs →
  Forall (λ res, ∃ url, res = Ok url ∧ url ≠ "") results →
  length (survivors refs results) = length refs.
Proof.
  intros Huri. revert results.
  induction Huri as [|r refs Hr _ IH]; intros results Hlen Hok.
  { by rewrite (nil_length_inv results). }
  destruct results as [|res results]; [done|].
  apply Forall_cons in Hok as [(url & -> & Hurl) Hok].
  rewrite survivors_step by done. simpl.
  apply String.eqb_neq in Hurl. rewrite Hurl. simpl. f_equal.
  apply IH; [by injection Hlen | done].
Qed.

(** X17. When every call to the signer returned a link, nothing is dropped:
    the sourceCount of the 200 response is the number of distinct storage
    uris the service cited. *)
Theorem success_counts_the_cited_sources (request : pyval) (w : World)
    (resp : response) :
  result (lambda_handler request w) = Ok resp →
  statusCode resp = 200 →
  (∀ req res, EvSign req res ∈ events (lambda_handler request w) →
              ∃ url, res = Ok url ∧ url ≠ "") →
  ∃ req kb cits,
    retrieve_calls (events (lambda_handler request w)) = [(req, Ok kb)]
    ∧ citations kb = Some cits
    ∧ json_member (body resp) "sourceCount"
      = Some (PInt (Z.of_nat (size (cited_uris cits)))).
Proof.
  intros Hresp Hstatus Hok.
  destruct (lambda_handler_success request w resp Hresp Hstatus)
    as (q & sid & kb & w1 & cits & ex & refs & text & now & _ & Hcits & Hex
        & Hrefs & _ & -> & Hev).
  exists (retrieve_request q sid), kb, cits. split_and!; [|done|].
  { rewrite Hev, retrieve_calls_app. simpl.
    by rewrite process_s3_urls_retrieve_calls. }
  assert (Forall (λ r, is_Some (uri r)) ex) as Huri.
  { apply Forall_forall. intros e He.
    destruct (extract_references_elem cits ex e Hex He) as (u & i & r & _ & ->).
    by eexists. }
  apply process_s3_urls_from_ok in Hrefs as (_ & Hrefs & Hlen).
  simpl in Hrefs. fold (process_s3_urls ex) in Hrefs, Hlen.
  rewrite (filter_all _ ex Huri) in Hlen.
  assert (length refs = length ex) as Hcount.
  { rewrite Hrefs. apply survivors_all; [done|done|].
    apply Forall_forall. intros res [req Hin]%sign_results_elem.
    apply (Hok req). rewrite Hev. simpl. right. by right. }
  simpl. rewrite Hcount.
  by rewrite (extract_references_length cits ex Hex).
Qed.
End HandlerExtras.

(** ** The front end *)

Section FrontEnd.
Context `{App.Frontend}.
Import App.

(** [call_api] by cases on what the HTTP library gave. *)
Lemma call_api_run (query session_id : pyval) (env : Env) :
  ∃ res env',
    requests_post (post_of query session_id) env = (res, env')
    ∧ api_env (call_api query session_id env) = env'
    ∧ posts (api_shown (call_api query session_id env))
      = [post_of query session_id]
    ∧ match res with
      | Raised (RequestException msg) =>
          api_result (call_api query session_id env) = Returned PNone
          ∧ Printed (ApiErrorLine msg)
            ∈ api_shown (call_api query session_id env)
      | Raised e => api_result (call_api query session_id env) = Raised e
      | Returned response =>
          if (400 <=? status_code response) && (status_code response <? 600)
          then api_result (call_api query session_id env) = Returned PNone
               ∧ Printed (ApiErrorLine (error_text response))
                 ∈ api_shown (call_api query session_id env)
          else match response_json response with
               | Returned v =>
                   api_result (call_api query session_id env) = Returned v
               | Raised (RequestException msg) =>
                   api_result (call_api query session_id env) = Returned PNone
                   ∧ Printed (ApiErrorLine msg)
                     ∈ api_shown (call_api query session_id env)
               | Raised e =>
                   api_result (call_api query session_id env) = Raised e
               end
      end.
Proof.
  unfold call_api. fold (post_of query session_id).
  destruct (requests_post (post_of query session_id) env) as [res env'].
  exists res, env'. split; [done|].
  destruct res as [response|e].
  - destruct ((400 <=? status_code response) && (status_code response <? 600)).
    + simpl. split_and!; [done|done|done|]. do 2 right. by left.
    + destruct (response_json response) as [v|e]; [done|].
      destruct e; simpl; split_and!; try done. do 2 right. by left.
  - destruct e; simpl; split_and!; try done. do 2 right. by left.
Qed.

(** X18. [call_api] posts exactly once, to API_URL, the body with the query
    and, when it counts as true, the session id, as JSON with a timeout of
    30; it never raises a RequestException, and it returns None when the
    post raises one or the status is between 400 and 599. *)
Theorem call_api_posts_once_and_swallows_request_errors
    (query session_id : pyval) (env : Env) :
  posts (api_shown (call_api query session_id env))
  = [ {| url := API_URL;
         post_headers := [("Content-Type", "application/json")];
         json := PDict ([("user_query", query)]
                        ++ if truthy session_id
                           then [("sessionId", session_id)] else []);
         timeout := 30 |} ]
  ∧ (∀ msg, api_result (call_api query session_id env)
            ≠ Raised (RequestException msg))
  ∧ (∀ res env',
       requests_post (post_of query session_id) env = (res, env') →
       match res with
       | Raised (RequestException _) => True
       | Raised _ => False
       | Returned response => 400 <= status_code response < 600
       end →
       api_result (call_api query session_id env) = Returned PNone).
Proof.
  destruct (call_api_run query session_id env)
    as (res & env' & Hpost & _ & Hposts & Hres).
  split_and!.
  - done.
  - intros msg. destruct res as [response|e].
    + destruct ((400 <=? status_code response)
                && (status_code response <? 600)).
      * by destruct Hres as [-> _].
      * destruct (response_json response) as [v|e]; [by rewrite Hres|].
        destruct e as [msg'| | | |];
          [by destruct Hres as [-> _] | by rewrite Hres..].
    + destruct e as [msg'| | | |];
        [by destruct Hres as [-> _] | by rewrite Hres..].
  - intros res' env'' Hpost' Hbad. rewrite Hpost in Hpost'.
    injection Hpost' as <- <-. destruct res as [response|e].
    + assert ((400 <=? status_code response)
              && (status_code response <? 600) = true) as Hstatus.
      { apply andb_true_iff. split; [apply Z.leb_le | apply Z.ltb_lt]; lia. }
      rewrite Hstatus in Hres. by destruct Hres.
    + destruct e; try done. by destruct Hres.
Qed.

(** What [handle_chat_input] does once the question is accepted, by cases
    on what [call_api] returned. *)
Lemma handle_chat_input_run (user_input : pyval) (st : session_state)
    (env : Env) :
  truthy user_input = true →
  ∃ t1 env1 st1,
    datetime_now_strftime env = (t1, env1)
    ∧ st1 = set_messages st (messages st ++ [user_message user_input t1])
    ∧ shown (handle_chat_input user_input st env)
      = Spinner "Processing your request..."
        :: api_shown (call_api user_input (session_id st) env1)
        ++ match api_result (call_api user_input (session_id st) env1) with
           | Returned v =>
               if truthy v then []
               else [ErrorShown "Failed to get response from API"]
           | Raised _ => []
           end
    ∧ match api_result (call_api user_input (session_id st) env1) with
      | Raised e =>
          returned (handle_chat_input user_input st env) = Raised e
          ∧ state_after (handle_chat_input user_input st env) = st1
      | Returned v =>
          if truthy v then
            match decode_text v with
            | Raised e =>
                returned (handle_chat_input user_input st env) = Raised e
                ∧ state_after (handle_chat_input user_input st env) = st1
            | Returned decoded =>
                match decode_body decoded with
                | Raised e =>
                    returned (handle_chat_input user_input st env) = Raised e
                    ∧ state_after (handle_chat_input user_input st env) = st1
                | Returned (PDict d) =>
                    ∃ t2 env2,
                      datetime_now_strftime
                        (api_env (call_api user_input (session_id st) env1))
                      = (t2, env2)
                      ∧ returned (handle_chat_input user_input st env)
                        = Returned tt
                      ∧ state_after (handle_chat_input user_input st env)
                        = set_messages
                            (set_session_id st
                               (default (session_id st)
                                  (dict_lookup d "sessionId")))
                            (messages st
                             ++ [ user_message user_input t1;
                                  assistant_message
                                    (default (PStr "No response available")
                                       (dict_lookup d "generated_response"))
                                    (default (PList [])
                                       (dict_lookup d "detailed_references"))
                                    t2 ])
                | Returned _ =>
                    returned (handle_chat_input user_input st env)
                    = Raised AttributeError
                    ∧ state_after (handle_chat_input user_input st env) = st1
                end
            end
          else
            returned (handle_chat_input user_input st env) = Returned tt
            ∧ state_after (handle_chat_input user_input st env) = st1
      end.
Proof.
  intros Htruthy. unfold handle_chat_input. rewrite Htruthy.
  destruct (datetime_now_strftime env) as [t1 env1].
  eexists t1, env1, _. split; [done|]. split; [done|].
  change (session_id (set_messages st
                        (messages st ++ [user_message user_input t1])))
    with (session_id st).
  destruct (api_result (call_api user_input (session_id st) env1))
    as [v|e]; [|by rewrite app_nil_r].
  destruct (truthy v); [|done].
  destruct (decode_text v) as [decoded|e]; [|by rewrite app_nil_r].
  destruct (decode_body decoded) as [v'|e]; [|by rewrite app_nil_r].
  destruct v' as [| | | | |l|d]; try by rewrite app_nil_r.
  destruct (datetime_now_strftime _) as [t2 env2]. simpl.
  rewrite app_nil_r. split; [done|]. exists t2, env2.
  split_and!; [done|done|].
  destruct (dict_lookup d "sessionId"); simpl;
    unfold set_messages, set_session_id; simpl;
    by rewrite <- app_assoc.
Qed.

(** X19. [handle_chat_input] only ever adds to the history: an input that
    counts as false changes nothing and posts nothing; any other input is
    appended as the user's message, followed by at most one message of the
    assistant, and exactly one post is made, with the input and the session
    id of the state.  Login, visibility and feedback are left alone. *)
Theorem handle_chat_input_keeps_the_history (user_input : pyval)
    (st : session_state) (env : Env) :
  (truthy user_input = false →
   state_after (handle_chat_input user_input st env) = st
   ∧ env_after (handle_chat_input user_input st env) = env
   ∧ shown (handle_chat_input user_input st env) = [])
  ∧ (truthy user_input = true →
     ∃ t tail,
       messages (state_after (handle_chat_input user_input st env))
       = messages st ++ user_message user_input t :: tail
       ∧ (tail = [] ∨ ∃ c refs t', tail = [assistant_message c refs t'])
       ∧ posts (shown (handle_chat_input user_input st env))
         = [post_of user_input (session_id st)])
  ∧ chat_visible (state_after (handle_chat_input user_input st env))
    = chat_visible st
  ∧ is_authenticated (state_after (handle_chat_input user_input st env))
    = is_authenticated st
  ∧ feedback_states (state_after (handle_chat_input user_input st env))
    = feedback_states st
  ∧ show_feedback_categories
      (state_after (handle_chat_input user_input st env))
    = show_feedback_categories st.
Proof.
  destruct (truthy user_input) eqn:Htruthy.
  2:{ unfold handle_chat_input. rewrite Htruthy. by split_and!. }
  destruct (handle_chat_input_run user_input st env Htruthy)
    as (t1 & env1 & st1 & _ & -> & Hshown & Hrun).
  destruct (call_api_run user_input (session_id st) env1)
    as (res & env' & _ & _ & Hposts & _).
  assert (posts (shown (handle_chat_input user_input st env))
          = [post_of user_input (session_id st)]) as Hp.
  { rewrite Hshown. unfold posts in *. simpl. rewrite omap_app, Hposts.
    destruct (api_result _) as [v|e]; [|done]. by destruct (truthy v). }
  assert (∀ P : session_state → Prop,
            P (set_messages st (messages st ++ [user_message user_input t1])) →
            (∀ sid c refs t2,
               P (set_messages (set_session_id st sid)
                    (messages st
                     ++ [user_message user_input t1;
                         assistant_message c refs t2]))) →
            P (state_after (handle_chat_input user_input st env))) as Hcases.
  { intros P H1 H2.
    destruct (api_result _) as [v|e]; [|by destruct Hrun as [_ ->]].
    destruct (truthy v); [|by destruct Hrun as [_ ->]].
    destruct (decode_text v) as [decoded|e]; [|by destruct Hrun as [_ ->]].
    destruct (decode_body decoded) as [v'|e]; [|by destruct Hrun as [_ ->]].
    destruct v' as [| | | | |l|d]; try by destruct Hrun as [_ ->].
    destruct Hrun as (t2 & env2 & _ & _ & ->). apply H2. }
  split_and!; [done| |by apply Hcases..].
  intros _. apply Hcases.
  - exists t1, []. by split_and!; [|left|].
  - intros sid c refs t2. exists t1, [assistant_message c refs t2].
    split_and!; [done| |done]. right. by eexists _, _, _.
Qed.

(** X20. When the post raises a RequestException or the status is between 400
    and 599, the question stays in the history, no answer is added, the
    session id is kept and the failure is shown. *)
Theorem handle_chat_input_shows_the_failure (user_input : pyval)
    (st : session_state) (env env1 env2 : Env) (t1 : string)
    (res : outcome http_response) :
  truthy user_input = true →
  datetime_now_strftime env = (t1, env1) →
  requests_post (post_of user_input (session_id st)) env1 = (res, env2) →
  match res with
  | Raised (RequestException _) => True
  | Raised _ => False
  | Returned response => 400 <= status_code response < 600
  end →
  returned (handle_chat_input user_input st env) = Returned tt
  ∧ state_after (handle_chat_input user_input st env)
    = set_messages st (messages st ++ [user_message user_input t1])
  ∧ last (shown (handle_chat_input user_input st env))
    = Some (ErrorShown "Failed to get response from API").
Proof.
  intros Htruthy Hnow Hpost Hbad.
  destruct (handle_chat_input_run user_input st env Htruthy)
    as (t1' & env1' & st1 & Hnow' & -> & Hshown & Hrun).
  rewrite Hnow in Hnow'. injection Hnow' as <- <-.
  destruct (call_api_run user_input (session_id st) env1)
    as (res' & env' & Hpost' & _ & _ & Hres).
  rewrite Hpost in Hpost'. injection Hpost' as <- <-.
  assert (api_result (call_api user_input (session_id st) env1)
          = Returned PNone) as Hnone.
  { destruct res as [response|e].
    - assert ((400 <=? status_code response)
              && (status_code response <? 600) = true) as Hstatus.
      { apply andb_true_iff. split; [apply Z.leb_le | apply Z.ltb_lt]; lia. }
      rewrite Hstatus in Hres. by destruct Hres.
    - destruct e; try done. by destruct Hres. }
  rewrite Hnone in Hrun, Hshown. simpl in Hrun, Hshown.
  destruct Hrun as [-> ->]. split_and!; [done|done|].
  rewrite Hshown.
  change (Spinner "Processing your request..."
          :: api_shown (call_api user_input (session_id st) env1)
          ++ [ErrorShown "Failed to get response from API"])
    with ((Spinner "Processing your request..."
           :: api_shown (call_api user_input (session_id st) env1))
          ++ [ErrorShown "Failed to get response from API"]).
  apply last_snoc.
Qed.

(** The state after an answer that is an object without 'body'. *)
Lemma handle_chat_input_answer (user_input : pyval)
    (st : session_state) (env env1 env2 env3 : Env) (t1 t2 : string)
    (response : http_response) (d : list (string * pyval)) :
  truthy user_input = true →
  datetime_now_strftime env = (t1, env1) →
  requests_post (post_of user_input (session_id st)) env1
  = (Returned response, env2) →
  ¬ (400 <= status_code response < 600) →
  response_json response = Returned (PDict d) →
  d ≠ [] →
  dict_lookup d "body" = None →
  datetime_now_strftime env2 = (t2, env3) →
  returned (handle_chat_input user_input st env) = Returned tt
  ∧ messages (state_after (handle_chat_input user_input st env))
    = messages st
      ++ [ user_message user_input t1;
           assistant_message
             (default (PStr "No response available")
                (dict_lookup d "generated_response"))
             (default (PList []) (dict_lookup d "detailed_references")) t2 ]
  ∧ session_id (state_after (handle_chat_input user_input st env))
    = default (session_id st) (dict_lookup d "sessionId").
Proof.
  intros Htruthy Hnow Hpost Hstatus Hjson Hd Hbody Hnow2.
  destruct (handle_chat_input_run user_input st env Htruthy)
    as (t1' & env1' & st1 & Hnow' & -> & _ & Hrun).
  rewrite Hnow in Hnow'. injection Hnow' as <- <-.
  destruct (call_api_run user_input (session_id st) env1)
    as (res' & env' & Hpost' & Henv & _ & Hres).
  rewrite Hpost in Hpost'. injection Hpost' as <- <-.
  assert ((400 <=? status_code response)
          && (status_code response <? 600) = false) as Hok.
  { apply andb_false_iff.
    destruct (Z.leb_spec 400 (status_code response)); [right|by left].
    apply Z.ltb_ge. lia. }
  rewrite Hok, Hjson in Hres. rewrite Hres, Henv in Hrun.
  assert (truthy (PDict d) = true) as Hnonempty by (by destruct d).
  rewrite Hnonempty in Hrun. simpl in Hrun. rewrite Hbody in Hrun.
  destruct Hrun as (t2' & env3' & Hnow2' & -> & ->).
  rewrite Hnow2 in Hnow2'. by injection Hnow2' as <- <-.
Qed.

(** X21. When the post is answered, below status 400, with a non-empty object
    without 'body', the history gains the question and the answer: the
    object's generated_response, 'No response available' without one, and
    its detailed_references, the empty list without them; the session id
    becomes the object's sessionId when it has one and stays otherwise. *)
Theorem handle_chat_input_records_the_answer (user_input : pyval)
    (st : session_state) (env env1 env2 env3 : Env) (t1 t2 : string)
    (response : http_response) (d : list (string * pyval)) :
  truthy user_input = true →
  datetime_now_strftime env = (t1, env1) →
  requests_post (post_of user_input (session_id st)) env1
  = (Returned response, env2) →
  ¬ (400 <= status_code response < 600) →
  response_json response = Returned (PDict d) →
  d ≠ [] →
  dict_lookup d "body" = None →
  datetime_now_strftime env2 = (t2, env3) →
  returned (handle_chat_input user_input st env) = Returned tt
  ∧ messages (state_after (handle_chat_input user_input st env))
    = messages st
      ++ [ user_message user_input t1;
           assistant_message
             (default (PStr "No response available")
                (dict_lookup d "generated_response"))
             (default (PList []) (dict_lookup d "detailed_references")) t2 ]
  ∧ session_id (state_after (handle_chat_input user_input st env))
    = default (session_id st) (dict_lookup d "sessionId").
Proof.
  intros Htruthy Hnow Hpost Hstatus Hjson Hd Hbody Hnow2.
  by apply (handle_chat_input_answer user_input st env env1 env2 env3 t1 t2
              response d).
Qed.

(** X22. After [clear_chat] or [logout] the next question is posted without a
    session id. *)
Theorem cleared_chat_starts_a_new_conversation (user_input : pyval)
    (st : session_state) (env : Env) :
  truthy user_input = true →
  posts (shown (handle_chat_input user_input (clear_chat st) env))
  = [ {| url := API_URL;
         post_headers := [("Content-Type", "application/json")];
         json := PDict [("user_query", user_input)];
         timeout := 30 |} ]
  ∧ posts (shown (handle_chat_input user_input (logout st) env))
    = [ {| url := API_URL;
           post_headers := [("Content-Type", "application/json")];
           json := PDict [("user_query", user_input)];
           timeout := 30 |} ].
Proof.
  intros Htruthy.
  assert (∀ st', session_id st' = PNone →
            posts (shown (handle_chat_input user_input st' env))
            = [ {| url := API_URL;
                   post_headers := [("Content-Type", "application/json")];
                   json := PDict [("user_query", user_input)];
                   timeout := 30 |} ]) as Hnew.
  { intros st' Hsid.
    destruct (handle_chat_input_run user_input st' env Htruthy)
      as (t1 & env1 & st1 & _ & _ & Hshown & _).
    destruct (call_api_run user_input (session_id st') env1)
      as (res & env' & _ & _ & Hposts & _).
    rewrite Hshown. unfold posts in *. simpl. rewrite omap_app, Hposts.
    rewrite Hsid. unfold post_of, call_api_body. simpl.
    destruct (api_result (call_api user_input PNone env1)) as [v|e]; [|done].
    by destruct (truthy v). }
  split; by apply Hnew.
Qed.

(** X23. [authenticate] says yes exactly when both environment variables are
    set and equal the name and the password given; then it marks the state
    as authenticated, and otherwise it leaves the state as it is. *)
Theorem authenticate_needs_both_credentials (username password : string)
    (st : session_state) :
  ((authenticate username password st).1 = true
   ↔ USERNAME = Some username ∧ PASSWORD = Some password)
  ∧ (authenticate username password st).2
    = if (authenticate username password st).1
      then {| chat_visible := chat_visible st;
              is_authenticated := true;
              messages := messages st;
              session_id := session_id st;
              feedback_states := feedback_states st;
              show_feedback_categories := show_feedback_categories st |}
      else st.
Proof.
  unfold authenticate.
  destruct (decide (Some username = USERNAME)) as [Hu|Hu].
  - destruct (decide (Some password = PASSWORD)) as [Hp|Hp].
    + rewrite !bool_decide_eq_true_2 by done. simpl. by split.
    + rewrite (bool_decide_eq_false_2 (Some password = PASSWORD)) by done.
      rewrite andb_false_r. simpl. split; [|done].
      split; [done|]. intros [_ Hp']. by rewrite Hp' in Hp.
  - rewrite (bool_decide_eq_false_2 (Some username = USERNAME)) by done.
    simpl. split; [|done]. split; [done|]. intros [Hu' _].
    by rewrite Hu' in Hu.
Qed.

(** X24. A thumbs-down followed by the submission of the categories: the
    thumbs-down stores no feedback and raises the flag that shows the
    categories; the submission stores the negative feedback with the
    categories, the correction and the content of the message under the
    message index and lowers the flag again.  Feedback and flags of the
    other messages, the history and the session id stay as they were. *)
Theorem thumbs_down_then_submit_stores_the_correction (message_idx : Z)
    (selected : list string) (correction_text : string)
    (st : session_state) (env : Env) (m : chat_message) :
  py_index (messages st) message_idx = Some m →
  let asked := handle_feedback message_idx "down" st env in
  let stored :=
    submit_negative_feedback message_idx selected correction_text
      (state_after asked) (env_after asked) in
  feedback_states (state_after asked) = feedback_states st
  ∧ show_feedback_categories (state_after asked) !! message_idx = Some true
  ∧ returned stored = Returned tt
  ∧ (∃ fb,
       feedback_states (state_after stored) !! message_idx = Some fb
       ∧ App.feedback_type fb = "negative"
       ∧ categories fb = Some selected
       ∧ correction fb = Some correction_text
       ∧ message_content fb = content m
       ∧ fb_session_id fb = session_id st)
  ∧ show_feedback_categories (state_after stored) !! message_idx = Some false
  ∧ (∀ j, j ≠ message_idx →
          feedback_states (state_after stored) !! j = feedback_states st !! j
          ∧ show_feedback_categories (state_after stored) !! j
            = show_feedback_categories st !! j)
  ∧ messages (state_after stored) = messages st
  ∧ session_id (state_after stored) = session_id st.
Proof.
  intros Hm asked stored. subst asked stored.
  unfold handle_feedback. simpl. unfold submit_negative_feedback. simpl.
  destruct (uuid4 env) as [id env1].
  destruct (datetime_now_isoformat env1) as [t env2].
  rewrite Hm. simpl. split_and!; try done.
  - apply lookup_insert_eq.
  - eexists. split; [apply lookup_insert_eq|]. done.
  - rewrite insert_insert_eq. apply lookup_insert_eq.
  - intros j Hj. rewrite insert_insert_eq.
    by rewrite !lookup_insert_ne.
Qed.
(** X25. Any other feedback is stored as positive, under the message index,
    with the content of that message and the session id of the state; for
    an index without a message IndexError is raised and the state is left
    as it is. *)
Theorem positive_feedback_needs_the_message (message_idx : Z)
    (feedback_type : string) (st : session_state) (env : Env) :
  feedback_type ≠ "down" →
  match py_index (messages st) message_idx with
  | Some m =>
      returned (handle_feedback message_idx feedback_type st env) = Returned tt
      ∧ ∃ fb,
          feedback_states
            (state_after (handle_feedback message_idx feedback_type st env))
          = <[message_idx := fb]> (feedback_states st)
          ∧ message_id fb = message_idx
          ∧ App.feedback_type fb = "positive"
          ∧ message_content fb = content m
          ∧ fb_session_id fb = session_id st
          ∧ categories fb = None
  | None =>
      returned (handle_feedback message_idx feedback_type st env)
      = Raised IndexError
      ∧ state_after (handle_feedback message_idx feedback_type st env) = st
  end.
Proof.
  intros Hdown%String.eqb_neq. unfold handle_feedback. rewrite Hdown.
  destruct (uuid4 env) as [id env1].
  destruct (datetime_now_isoformat env1) as [t env2].
  destruct (py_index (messages st) message_idx) as [m|]; [|done].
  split; [done|]. by eexists.
Qed.

(** X26. A negative feedback is stored under the message index with the
    categories and the correction given, the content of that message and
    the session id of the state, and the categories are hidden again; for
    an index without a message IndexError is raised and the state is left
    as it is, the flag included. *)
Theorem negative_feedback_needs_the_message (message_idx : Z)
    (selected : list string) (correction_text : string)
    (st : session_state) (env : Env) :
  match py_index (messages st) message_idx with
  | Some m =>
      returned (submit_negative_feedback message_idx selected correction_text
                  st env) = Returned tt
      ∧ show_feedback_categories
          (state_after (submit_negative_feedback message_idx selected
                          correction_text st env)) !! message_idx
        = Some false
      ∧ ∃ fb,
          feedback_states
            (state_after (submit_negative_feedback message_idx selected
                            correction_text st env))
          = <[message_idx := fb]> (feedback_states st)
          ∧ App.feedback_type fb = "negative"
          ∧ categories fb = Some selected
          ∧ correction fb = Some correction_text
          ∧ message_content fb = content m
          ∧ fb_session_id fb = session_id st
  | None =>
      returned (submit_negative_feedback message_idx selected correction_text
                  st env) = Raised IndexError
      ∧ state_after (submit_negative_feedback message_idx selected
                       correction_text st env) = st
  end.
Proof.
  unfold submit_negative_feedback.
  destruct (uuid4 env) as [id env1].
  destruct (datetime_now_isoformat env1) as [t env2].
  destruct (py_index (messages st) message_idx) as [m|]; [|done].
  simpl. split_and!; [done|apply lookup_insert_eq|by eexists].
Qed.
End FrontEnd.

(** ** The front end and the handler *)

Section BothEnds.
Context `{Services} `{App.Frontend}.

Arguments py_get : simpl never.

(** X27. The handler reads back what the front end sends: from the body
    [call_api] builds, handed over directly or under 'body',
    [get_request_data] returns the query and the session id, None when the
    front end left it out. *)
Theorem handler_reads_what_call_api_sends (query session_id : pyval)
    (w : World) :
  request_body (App.call_api_body query session_id)
  = Some (App.call_api_body query session_id)
  ∧ ∀ request,
      request_body request = Some (App.call_api_body query session_id) →
      result (get_request_data request w)
      = Ok (query, if truthy session_id then session_id else PNone).
Proof.
  split.
  - unfold App.call_api_body, request_body. simpl.
    by destruct (truthy session_id).
  - intros request Hbody.
    rewrite (get_request_data_of_body request w _ Hbody).
    unfold App.call_api_body, py_get. simpl.
    by destruct (truthy session_id).
Qed.

(** X28. A 200 response of the handler that reaches the front end as the JSON
    of the HTTP response puts the question and the generated text, with the
    references of the response, into the history, and makes the session id
    the service returned, None when it returned none, the session id of
    the front end. *)
Theorem chat_shows_the_answer_and_keeps_the_session
    (request : pyval) (w : World) (resp : response) (v : pyval)
    (user_input : pyval) (st : App.session_state) (env env1 env2 env3 : App.Env)
    (t1 t2 : string) (response : App.http_response) :
  result (lambda_handler request w) = Ok resp →
  statusCode resp = 200 →
  body resp = json_dumps v →
  truthy user_input = true →
  App.datetime_now_strftime env = (t1, env1) →
  App.requests_post (App.post_of user_input (App.session_id st)) env1
  = (App.Returned response, env2) →
  App.status_code response = 200 →
  App.response_json response = App.Returned v →
  App.datetime_now_strftime env2 = (t2, env3) →
  ∃ req kb text refs,
    retrieve_calls (events (lambda_handler request w)) = [(req, Ok kb)]
    ∧ output kb ≫= output_text = Some text
    ∧ json_member (body resp) "detailed_references"
      = Some (PList (ref_to_py <$> refs))
    ∧ App.messages (App.state_after (App.handle_chat_input user_input st env))
      = App.messages st
        ++ [ App.user_message user_input t1;
             App.assistant_message (PStr text) (PList (ref_to_py <$> refs)) t2 ]
    ∧ App.session_id (App.state_after (App.handle_chat_input user_input st env))
      = opt_to_py PStr (kb_sessionId kb).
Proof.
  intros Hresp Hstatus Hbody Htruthy Hnow Hpost Hcode Hjson Hnow2.
  destruct (lambda_handler_success request w resp Hresp Hstatus)
    as (q & sid & kb & w1 & cits & ex & refs & text & now & _ & _ & _ & _
        & Htext & -> & Hev).
  unfold create_response, response_body in Hbody. simpl in Hbody.
  injection Hbody as <-.
  exists (retrieve_request q sid), kb, text, refs.
  split_and!; [|done|done| |].
  - rewrite Hev, retrieve_calls_app. simpl.
    by rewrite process_s3_urls_retrieve_calls.
  - refine (proj1 (proj2 (handle_chat_input_answer _ _ _ _ _ _ _ _ _ _
                            Htruthy Hnow Hpost _ Hjson _ _ Hnow2)));
      [rewrite Hcode; lia | done | done].
  - refine (proj2 (proj2 (handle_chat_input_answer _ _ _ _ _ _ _ _ _ _
                            Htruthy Hnow Hpost _ Hjson _ _ Hnow2)));
      [rewrite Hcode; lia | done | done].
Qed.
End BothEnds.

(** ** The further properties in the sample deployments *)

Lemma extract_references_raises_only_for_missing_uri_witness :
  ∃ e, extract_references citations_without_uri = Raise e
       ∧ e = KeyError "uri".
Proof.
  eexists. split; [by vm_compute|].
  apply (proj1 (extract_references_raises_only_for_missing_uri
                  citations_without_uri)).
  by vm_compute.
Defined.

Lemma extract_references_counts_distinct_uris_witness :
  ∃ out, extract_references mixed_citations = Ok out
         ∧ length out = size (cited_uris mixed_citations).
Proof.
  eexists. split; [by vm_compute|].
  apply (extract_references_counts_distinct_uris mixed_citations).
  by vm_compute.
Defined.

Lemma extract_references_trims_excerpts_witness :
  ∃ out e,
    extract_references padded_citations = Ok out ∧ e ∈ out
    ∧ snippet e = "alpha beta"
    ∧ starts_with_space (snippet e) = false
    ∧ ends_with_space (snippet e) = false
    ∧ ∃ u i r pre post,
        uri e = Some u ∧ first_seen u padded_citations = Some (i, r)
        ∧ default "" (content_text r) = pre +:+ snippet e +:+ post
        ∧ all_space pre = true ∧ all_space post = true.
Proof.
  eexists. eexists. split; [by vm_compute|]. split; [by left|].
  split; [reflexivity|].
  eapply (extract_references_trims_excerpts padded_citations);
    [by vm_compute | by left].
Defined.

Lemma process_s3_urls_signs_each_reference_once_witness :
  Forall (parses (H := Demo.services)) Demo.extracted
  ∧ sign_requests (events (process_s3_urls (H := Demo.services)
                             Demo.extracted 0))
    = omap (sign_request_of (H := Demo.services)) Demo.extracted
  ∧ Forall (λ req, ClientMethod req = "get_object"
                   ∧ ResponseContentDisposition req = "inline"
                   ∧ ExpiresIn req = 1800
                   ∧ occurs "." (Bucket req) = false
                   ∧ starts_with "/" (Key req) = false)
      (sign_requests (events (process_s3_urls (H := Demo.services)
                                Demo.extracted 0))).
Proof.
  split; [by repeat constructor|].
  apply (@process_s3_urls_signs_each_reference_once Demo.services
           Demo.extracted 0).
  by repeat constructor.
Defined.

Lemma process_s3_urls_signs_bucket_and_key_witness :
  sign_requests
    (events (process_s3_urls (H := Demo.services)
               [ {| uri := Some "s3://docs.s3.amazonaws.com/x/intro.pdf";
                    snippet := "X is a letter."; score := 1 # 2;
                    presigned_url := None |} ] 0))
  = [get_object "docs" "x/intro.pdf" 1800].
Proof.
  apply (@process_s3_urls_signs_bucket_and_key Demo.services _ 0
           "s3://docs.s3.amazonaws.com/x/intro.pdf" "docs"
           ".s3.amazonaws.com" "x/intro.pdf");
    [reflexivity | reflexivity | reflexivity | right; reflexivity
    | reflexivity].
Defined.

Lemma process_s3_urls_prints_failures_witness :
  Forall (parses (H := Demo.services)) Demo.extracted
  ∧ printed (events (process_s3_urls (H := Demo.services) Demo.extracted 0))
    = omap signing_error_line
        (sign_results (events (process_s3_urls (H := Demo.services)
                                 Demo.extracted 0))).
Proof.
  split; [by repeat constructor|].
  apply (@process_s3_urls_prints_failures Demo.services Demo.extracted 0).
  by repeat constructor.
Defined.

Lemma handler_forwards_query_and_session_witness :
  ∃ req,
    retrieve_calls (events (Demo.handle (Demo.ask_in "What is X?" "session-9") 0))
    = [(req, (Demo.generate req 0).1)]
    ∧ py_member req "input" = Some (PDict [("text", PStr "What is X?")])
    ∧ py_member req "sessionId" = Some (PStr "session-9")
    ∧ py_keys req = ["input"; "retrieveAndGenerateConfiguration"; "sessionId"].
Proof.
  apply (@handler_forwards_query_and_session Demo.services
           (Demo.ask_in "What is X?" "session-9") 0
           [("user_query", PStr "What is X?"); ("sessionId", PStr "session-9")]
           (PStr "What is X?"));
    reflexivity.
Defined.

Lemma handler_calls_the_service_once_and_first_witness :
  ∃ req res,
    events (Demo.handle (Demo.ask "What is X?") 0) !! 2%nat
    = Some (EvSign req res)
    ∧ ∃ j req' kb,
        (j < 2)%nat
        ∧ events (Demo.handle (Demo.ask "What is X?") 0) !! j
          = Some (EvRetrieve req' (Ok kb)).
Proof.
  eexists. eexists. split; [by vm_compute|].
  eapply (proj2 (@handler_calls_the_service_once_and_first Demo.services
                   (Demo.ask "What is X?") 0) 2%nat).
  by vm_compute.
Defined.

Lemma success_returns_the_service_session_witness :
  ∃ resp,
    result (Demo.handle (Demo.ask "What is X?") 0) = Ok resp
    ∧ statusCode resp = 200
    ∧ ∃ req kb,
        retrieve_calls (events (Demo.handle (Demo.ask "What is X?") 0))
        = [(req, Ok kb)]
        ∧ json_member (body resp) "sessionId"
          = Some (opt_to_py PStr (kb_sessionId kb)).
Proof.
  eexists. split; [by vm_compute|]. split; [reflexivity|].
  apply (@success_returns_the_service_session Demo.services
           (Demo.ask "What is X?") 0); by vm_compute.
Defined.

Lemma handler_reads_only_the_body_witness :
  result (Demo.handle (PDict [("body", Demo.ask "What is X?")]) 0)
  = result (Demo.handle (Demo.ask "What is X?") 0)
  ∧ world_after (Demo.handle (PDict [("body", Demo.ask "What is X?")]) 0)
    = world_after (Demo.handle (Demo.ask "What is X?") 0)
  ∧ drop 1 (events (Demo.handle (PDict [("body", Demo.ask "What is X?")]) 0))
    = drop 1 (events (Demo.handle (Demo.ask "What is X?") 0)).
Proof.
  apply (@handler_reads_only_the_body Demo.services
           (PDict [("body", Demo.ask "What is X?")])
           (Demo.ask "What is X?") (Demo.ask "What is X?") 0);
    reflexivity.
Defined.

Lemma non_object_event_is_refused_witness :
  result (Demo.handle (PList []) 0)
  = Ok (create_response 400
          (PDict [("error",
                   PStr "Error processing request: Invalid event format")]))
  ∧ printed (events (Demo.handle (PList []) 0))
    = [ TextJson "Received event: " (json_dumps (PList []));
        Text "Error in get_request_data: Invalid event format" ].
Proof.
  apply (@non_object_event_is_refused Demo.services (PList []) 0).
  intros d. discriminate.
Defined.

Lemma non_object_body_is_refused_witness :
  result (Demo.handle (PDict [("body", PStr "[]")]) 0)
  = Ok (create_response 400
          (PDict [("error",
                   PStr "Error processing request: 'list' object has no attribute 'get'")])).
Proof.
  apply (@non_object_body_is_refused Demo.services
           (PDict [("body", PStr "[]")]) 0 (PList []));
    [reflexivity | intros d; discriminate].
Defined.

Lemma failure_before_enrichment_signs_nothing_witness :
  ∃ resp,
    result (Demo.handle (Demo.ask "What is Z?") 0) = Ok resp
    ∧ statusCode resp = 500
    ∧ json_member (body resp) "error" = Some (PStr "'uri'")
    ∧ json_member (body resp) "detailed_references" = Some (PList [])
    ∧ sign_requests (events (Demo.handle (Demo.ask "What is Z?") 0)) = [].
Proof.
  apply (@failure_before_enrichment_signs_nothing Demo.services
           (Demo.ask "What is Z?") 0 [("user_query", PStr "What is Z?")]
           (PStr "What is Z?")
           {| citations := Some citations_without_uri;
              output := Some {| output_text := Some "Z is the last letter." |};
              kb_sessionId := Some "session-3" |} 1000);
    [reflexivity | reflexivity | reflexivity | reflexivity |].
  unfold uris_present. apply (bool_decide_eq_false_1 _). by vm_compute.
Defined.

Lemma missing_output_fails_after_signing_witness :
  ∃ ex,
    extract_references mixed_citations = Ok ex
    ∧ ∃ resp,
        result (Open.handle None (Demo.ask "What is X?") 0) = Ok resp
        ∧ statusCode resp = 500
        ∧ json_member (body resp) "error" = Some (PStr "'output'")
        ∧ sign_requests (events (Open.handle None (Demo.ask "What is X?") 0))
          = omap (sign_request_of (H := Open.services None)) ex.
Proof.
  eexists. split; [by vm_compute|].
  apply (@missing_output_fails_after_signing (Open.services None)
           (Demo.ask "What is X?") 0 [("user_query", PStr "What is X?")]
           (PStr "What is X?")
           {| citations := Some mixed_citations; output := None;
              kb_sessionId := None |} 1000 mixed_citations);
    [reflexivity | reflexivity | reflexivity | reflexivity | reflexivity
    | by vm_compute | by repeat constructor | reflexivity].
Defined.

Lemma success_references_are_ranked_and_distinct_witness :
  ∃ resp,
    result (Open.handle (Some {| output_text := Some "A is a letter." |})
              (Demo.ask "What is A?") 0) = Ok resp
    ∧ statusCode resp = 200
    ∧ ∃ refs,
        json_member (body resp) "detailed_references"
        = Some (PList (ref_to_py <$> refs))
        ∧ NoDup (uri <$> refs)
        ∧ StronglySorted score_ge refs.
Proof.
  eexists. split; [by vm_compute|]. split; [reflexivity|].
  edestruct (@success_references_are_ranked_and_distinct
               (Open.services (Some {| output_text := Some "A is a letter." |}))
               (Demo.ask "What is A?") 0)
    as (refs & Hjson & Hnd & Hsorted); [by vm_compute | by vm_compute |].
  exists refs. split_and!; [exact Hjson | exact Hnd |].
  apply Hsorted. intros req kb cits Hin Hcits.
  set (evs := events _) in Hin. vm_compute in evs. subst evs.
  repeat (apply elem_of_cons in Hin as [Hin|Hin];
          [first [ discriminate Hin
                 | injection Hin as -> ->; injection Hcits as <-;
                   repeat (constructor; [discriminate|]); constructor ]
          |]).
  by apply elem_of_nil in Hin.
Defined.

Lemma success_counts_the_cited_sources_witness :
  ∃ resp,
    result (Open.handle (Some {| output_text := Some "A is a letter." |})
              (Demo.ask "What is A?") 0) = Ok resp
    ∧ statusCode resp = 200
    ∧ ∃ req kb cits,
        retrieve_calls
          (events (Open.handle (Some {| output_text := Some "A is a letter." |})
                     (Demo.ask "What is A?") 0))
        = [(req, Ok kb)]
        ∧ citations kb = Some cits
        ∧ json_member (body resp) "sourceCount"
          = Some (PInt (Z.of_nat (size (cited_uris cits)))).
Proof.
  eexists. split; [by vm_compute|]. split; [reflexivity|].
  apply (@success_counts_the_cited_sources
           (Open.services (Some {| output_text := Some "A is a letter." |}))
           (Demo.ask "What is A?") 0);
    [by vm_compute | by vm_compute |].
  intros req res Hin.
  set (evs := events _) in Hin. vm_compute in evs. subst evs.
  repeat (apply elem_of_cons in Hin as [Hin|Hin];
          [first [ discriminate Hin
                 | injection Hin as -> ->; eexists;
                   split; [reflexivity|discriminate] ]
          |]).
  by apply elem_of_nil in Hin.
Defined.

Lemma call_api_posts_once_and_swallows_request_errors_witness :
  App.api_result (@App.call_api Browser.frontend (PStr "Why?") PNone 0)
  = App.Returned PNone.
Proof.
  eapply (proj2 (proj2 (@call_api_posts_once_and_swallows_request_errors
                          Browser.frontend (PStr "Why?") PNone 0)));
    [by vm_compute | simpl; lia].
Defined.

Lemma handle_chat_input_keeps_the_history_witness :
  ∃ t tail,
    App.messages
      (App.state_after
         (@App.handle_chat_input Browser.frontend (PStr "What is X?")
            Browser.fresh 0))
    = App.messages Browser.fresh
      ++ App.user_message (PStr "What is X?") t :: tail
    ∧ (tail = [] ∨ ∃ c refs t', tail = [App.assistant_message c refs t'])
    ∧ App.posts
        (App.shown
           (@App.handle_chat_input Browser.frontend (PStr "What is X?")
              Browser.fresh 0))
      = [@App.post_of Browser.frontend (PStr "What is X?")
           (App.session_id Browser.fresh)].
Proof.
  apply (proj1 (proj2 (@handle_chat_input_keeps_the_history Browser.frontend
                         (PStr "What is X?") Browser.fresh 0))).
  reflexivity.
Defined.

Lemma handle_chat_input_shows_the_failure_witness :
  App.returned
    (@App.handle_chat_input Browser.frontend (PStr "Why?") Browser.fresh 0)
  = App.Returned tt
  ∧ App.state_after
      (@App.handle_chat_input Browser.frontend (PStr "Why?") Browser.fresh 0)
    = App.set_messages Browser.fresh
        (App.messages Browser.fresh ++ [App.user_message (PStr "Why?") "00:00"])
  ∧ last (App.shown
            (@App.handle_chat_input Browser.frontend (PStr "Why?")
               Browser.fresh 0))
    = Some (App.ErrorShown "Failed to get response from API").
Proof.
  eapply (@handle_chat_input_shows_the_failure Browser.frontend
            (PStr "Why?") Browser.fresh 0);
    [reflexivity | reflexivity | by vm_compute | simpl; lia].
Defined.

Lemma handle_chat_input_records_the_answer_witness :
  App.returned
    (@App.handle_chat_input Browser.frontend (PStr "What is Y?")
       Browser.fresh 0)
  = App.Returned tt
  ∧ App.messages
      (App.state_after
         (@App.handle_chat_input Browser.frontend (PStr "What is Y?")
            Browser.fresh 0))
    = [ App.user_message (PStr "What is Y?") "00:00";
        App.assistant_message (PStr "Y is another letter.") (PList [])
          "00:00" ]
  ∧ App.session_id
      (App.state_after
         (@App.handle_chat_input Browser.frontend (PStr "What is Y?")
            Browser.fresh 0))
    = PStr "session-2".
Proof.
  refine (@handle_chat_input_records_the_answer Browser.frontend
            (PStr "What is Y?") Browser.fresh 0 0 _ _ "00:00" "00:00" _
            [ ("generated_response", PStr "Y is another letter.");
              ("detailed_references", PList []);
              ("urlExpirationTime", PStr "T+3600001002");
              ("sessionId", PStr "session-2");
              ("sourceCount", PInt 0) ]
            _ _ _ _ _ _ _ _);
    [reflexivity | reflexivity | by vm_compute | simpl; lia | reflexivity
    | discriminate | reflexivity | reflexivity].
Defined.

Lemma cleared_chat_starts_a_new_conversation_witness :
  App.posts
    (App.shown
       (@App.handle_chat_input Browser.frontend (PStr "What is X?")
          (App.clear_chat Browser.answered) 0))
  = [ {| App.url := Some "https://api.example.com/chat";
         App.post_headers := [("Content-Type", "application/json")];
         App.json := PDict [("user_query", PStr "What is X?")];
         App.timeout := 30 |} ]
  ∧ App.posts
      (App.shown
         (@App.handle_chat_input Browser.frontend (PStr "What is X?")
            (App.logout Browser.answered) 0))
    = [ {| App.url := Some "https://api.example.com/chat";
           App.post_headers := [("Content-Type", "application/json")];
           App.json := PDict [("user_query", PStr "What is X?")];
           App.timeout := 30 |} ].
Proof.
  apply (@cleared_chat_starts_a_new_conversation Browser.frontend
           (PStr "What is X?") Browser.answered 0).
  reflexivity.
Defined.

Lemma authenticate_needs_both_credentials_witness :
  (@App.authenticate Browser.frontend "admin" "secret" Browser.fresh).1 = true.
Proof.
  apply (proj2 (proj1 (@authenticate_needs_both_credentials Browser.frontend
                         "admin" "secret" Browser.fresh))).
  split; reflexivity.
Defined.

Lemma thumbs_down_then_submit_stores_the_correction_witness :
  ∃ fb,
    App.feedback_states
      (App.state_after
         (@App.submit_negative_feedback Browser.frontend 1 ["Incomplete"]
            "Y is the 25th letter."
            (App.state_after
               (@App.handle_feedback Browser.frontend 1 "down"
                  Browser.answered 0))
            (App.env_after
               (@App.handle_feedback Browser.frontend 1 "down"
                  Browser.answered 0)))) !! 1
    = Some fb
    ∧ App.feedback_type fb = "negative"
    ∧ App.categories fb = Some ["Incomplete"]
    ∧ App.correction fb = Some "Y is the 25th letter."
    ∧ App.message_content fb = PStr "Y is another letter."
    ∧ App.fb_session_id fb = PStr "session-2".
Proof.
  refine (proj1 (proj2 (proj2 (proj2
            (@thumbs_down_then_submit_stores_the_correction Browser.frontend
               1 ["Incomplete"] "Y is the 25th letter." Browser.answered 0
               (App.assistant_message (PStr "Y is another letter.")
                  (PList []) "00:00") _))))).
  reflexivity.
Defined.

Lemma positive_feedback_needs_the_message_witness :
  App.returned (@App.handle_feedback Browser.frontend 1 "up" Browser.answered 0)
  = App.Returned tt
  ∧ ∃ fb,
      App.feedback_states
        (App.state_after
           (@App.handle_feedback Browser.frontend 1 "up" Browser.answered 0))
      = <[1 := fb]> (App.feedback_states Browser.answered)
      ∧ App.message_id fb = 1
      ∧ App.feedback_type fb = "positive"
      ∧ App.message_content fb = PStr "Y is another letter."
      ∧ App.fb_session_id fb = PStr "session-2"
      ∧ App.categories fb = None.
Proof.
  refine (@positive_feedback_needs_the_message Browser.frontend 1 "up"
            Browser.answered 0 _).
  discriminate.
Defined.

Lemma handler_reads_what_call_api_sends_witness :
  result (get_request_data (H := Demo.services)
            (PDict [("body", App.call_api_body (PStr "What is X?")
                               (PStr "session-1"))]) 0)
  = Ok (PStr "What is X?", PStr "session-1").
Proof.
  apply (proj2 (@handler_reads_what_call_api_sends Demo.services
                  (PStr "What is X?") (PStr "session-1") 0)).
  reflexivity.
Defined.

Lemma chat_shows_the_answer_and_keeps_the_session_witness :
  ∃ resp,
    result (Demo.handle (Demo.ask "What is X?") 0) = Ok resp
    ∧ ∃ req kb text refs,
        retrieve_calls (events (Demo.handle (Demo.ask "What is X?") 0))
        = [(req, Ok kb)]
        ∧ output kb ≫= output_text = Some text
        ∧ json_member (body resp) "detailed_references"
          = Some (PList (ref_to_py <$> refs))
        ∧ App.messages
            (App.state_after
               (@App.handle_chat_input Browser.frontend (PStr "What is X?")
                  Browser.fresh 0))
          = App.messages Browser.fresh
            ++ [ App.user_message (PStr "What is X?") "00:00";
                 App.assistant_message (PStr text)
                   (PList (ref_to_py <$> refs)) "00:00" ]
        ∧ App.session_id
            (App.state_after
               (@App.handle_chat_input Browser.frontend (PStr "What is X?")
                  Browser.fresh 0))
          = opt_to_py PStr (kb_sessionId kb).
Proof.
  eexists. split; [by vm_compute|].
  eapply (@chat_shows_the_answer_and_keeps_the_session Demo.services
            Browser.frontend (Demo.ask "What is X?") 0 _ _
            (PStr "What is X?") Browser.fresh 0 0);
    [by vm_compute | reflexivity | reflexivity | reflexivity | reflexivity
    | by vm_compute | reflexivity | reflexivity | reflexivity].
Defined.
